(** * Autopostulador: scrape scheduling and application pipeline

    A shallow embedding of the Python backend (models.py, server.py and the
    three services) together with the properties that its natural-language
    specification states about it.

    Conventions of the embedding:
    - A Python [str] is the [string] of its UTF-8 encoding.  Concatenation,
      the substring test [in], [join] and splitting on an ASCII separator
      act on the bytes as Python's act on the characters; a slice [s[:n]]
      counts characters, not bytes.  The methods whose result depends on
      Unicode's character tables ([lower], and [split] and [strip] without
      argument) belong to the interpreter, not to the program: they are
      the members of the class [Text.Unicode], and the properties are
      proved for every instance of it.
    - [datetime] values are integers ([Z]); every reading of the clock is
      an argument [now] (or [today] for a date) of the function that reads
      it, and the readings made within one call are the same instant.
    - A MongoDB collection is the list of its documents in insertion order:
      [find_one] returns the first match, [update_one] rewrites the first
      match, [update_many] rewrites every match, [insert_one] appends.
    - A Python computation that may raise returns a [result]: [Ok v] or
      [Raise e], where [e] is the text of the exception ([str(e)]).
    - Identifiers produced by [uuid4] are arguments ([new_id]). *)

From Stdlib Require Import ZArith Lia Ascii String.
From stdpp Require Import base option strings list gmap.
From stdpp Require Import pretty.

Local Open Scope string_scope.
Local Open Scope nat_scope.

(** ** Python results *)

Inductive result (A : Type) : Type :=
| Ok (a : A)
| Raise (e : string).
Arguments Ok {A} a.
Arguments Raise {A} e.

Global Instance result_ret : MRet result := λ A a, Ok a.

(** Sequencing: an exception raised by the first statement skips the rest. *)
Global Instance result_bind : MBind result := λ A B k m,
  match m with
  | Ok a => k a
  | Raise e => Raise e
  end.

(** [try: body / except Exception as e: handler(e)] *)
Definition try_except {A} (body : result A) (handler : string → result A)
  : result A :=
  match body with
  | Ok a => Ok a
  | Raise e => handler e
  end.

(** ** Text: the string operations of Python used by the services *)
Module Text.

(** [s.lower()], [s.split()] and [s.strip()]: what they return is fixed by
    the Unicode tables of the interpreter. *)
Class Unicode := {
  lower : string → string;
  split : string → list string;
  strip : string → string
}.

(** [sep.join(l)] *)
Fixpoint join (sep : string) (l : list string) : string :=
  match l with
  | [] => ""
  | [x] => x
  | x :: tl => x +:+ sep +:+ join sep tl
  end.

Fixpoint starts_with (p s : string) : bool :=
  match p, s with
  | EmptyString, _ => true
  | String a p', String b s' => bool_decide (a = b) && starts_with p' s'
  | String _ _, EmptyString => false
  end.

(** [p in s] on strings *)
Fixpoint contains (p s : string) : bool :=
  starts_with p s ||
  match s with
  | EmptyString => false
  | String _ s' => contains p s'
  end.

(** The bytes [10xxxxxx], which continue the encoding of a character. *)
Definition is_continuation (c : ascii) : bool :=
  let n := nat_of_ascii c in (128 <=? n)%nat && (n <? 192)%nat.

(** [s[:n]]: the first [n] characters, each with all the bytes of its
    encoding. *)
Fixpoint prefix (n : nat) (s : string) : string :=
  match s with
  | EmptyString => EmptyString
  | String c s' =>
      if is_continuation c then String c (prefix n s')
      else
        match n with
        | 0 => EmptyString
        | S n' => String c (prefix n' s')
        end
  end.

(** *** The three methods on ASCII text

    On text made of ASCII characters only, [lower] maps [A-Z] to [a-z]
    and the whitespace that [split] and [strip] look for is made of the
    characters 9 to 13, 28 to 31 and 32.  The sample data below is
    evaluated with this instance. *)

Definition is_upper (c : ascii) : bool :=
  let n := nat_of_ascii c in (65 <=? n)%nat && (n <=? 90)%nat.

Definition lower_char (c : ascii) : ascii :=
  if is_upper c then ascii_of_nat (nat_of_ascii c + 32) else c.

Fixpoint ascii_lower (s : string) : string :=
  match s with
  | EmptyString => EmptyString
  | String c s' => String (lower_char c) (ascii_lower s')
  end.

Definition is_whitespace (c : ascii) : bool :=
  match c with
  | "009" | "010" | "011" | "012" | "013"
  | "028" | "029" | "030" | "031" | " " => true
  | _ => false
  end%char.

Definition flush (cur : list ascii) : list string :=
  match cur with
  | [] => []
  | _ => [string_of_list_ascii (rev cur)]
  end.

Fixpoint split_go (cur : list ascii) (s : string) : list string :=
  match s with
  | EmptyString => flush cur
  | String c s' =>
      if is_whitespace c then flush cur ++ split_go [] s'
      else split_go (c :: cur) s'
  end.

(** The maximal runs of non-whitespace characters. *)
Definition ascii_split (s : string) : list string := split_go [] s.

Fixpoint ascii_lstrip (s : string) : string :=
  match s with
  | EmptyString => EmptyString
  | String c s' => if is_whitespace c then ascii_lstrip s' else s
  end.

Definition ascii_strip (s : string) : string :=
  String.rev (ascii_lstrip (String.rev (ascii_lstrip s))).

Definition ascii_text : Unicode :=
  {| lower := ascii_lower; split := ascii_split; strip := ascii_strip |}.

End Text.

(** ** models.py *)
Module Models.

Inductive JobPortal := LINKEDIN | LABORUM | BNE | TRABAJANDO.

Global Instance JobPortal_eq_dec : EqDecision JobPortal.
Proof. solve_decision. Defined.

(** Iteration order of the enumeration ([for portal in JobPortal]). *)
Definition all_portals : list JobPortal := [LINKEDIN; LABORUM; BNE; TRABAJANDO].

(** [portal.value] *)
Definition portal_value (p : JobPortal) : string :=
  match p with
  | LINKEDIN => "linkedin"
  | LABORUM => "laborum"
  | BNE => "bne"
  | TRABAJANDO => "trabajando"
  end.

Inductive ApplicationStatus :=
  PENDING | APPLIED | VIEWED | REJECTED | INTERVIEW | OFFER.

Global Instance ApplicationStatus_eq_dec : EqDecision ApplicationStatus.
Proof. solve_decision. Defined.

Definition status_value (s : ApplicationStatus) : string :=
  match s with
  | PENDING => "pending"
  | APPLIED => "applied"
  | VIEWED => "viewed"
  | REJECTED => "rejected"
  | INTERVIEW => "interview"
  | OFFER => "offer"
  end.

(** [CVData].  The dictionaries of [experience] and [personal_info] hold
    strings; [education], [certifications], [languages], [file_path] and
    [created_at] are not read by the code embedded here and are left out. *)
Record CVData := {
  cv_id : string;
  cv_user_id : string;
  cv_title : string;
  personal_info : gmap string string;
  experience : list (gmap string string);
  skills : list string;
  raw_text : string;
  is_default : bool;
  cv_updated_at : Z
}.

(** [CVDataCreate]: the body of the create and update requests. *)
Record CVDataCreate := {
  cc_title : string;
  cc_personal_info : gmap string string;
  cc_experience : list (gmap string string);
  cc_skills : list string;
  cc_raw_text : string;
  cc_is_default : bool
}.

(** [SearchFilters], with the fields the scheduler reads. *)
Record SearchFilters := {
  sf_user_id : string;
  keywords : list string;
  locations : list string;
  portals : list JobPortal;
  is_active : bool
}.

(** [JobPosting].  There is no [user_id] field in this model. *)
Record JobPosting := {
  job_id : string;
  portal : JobPortal;
  external_id : string;
  url : string;
  title : string;
  company : string;
  location : string;
  description : string;
  requirements : list string;
  keywords_matched : list string
}.

(** A document of the [jobs] collection.  Nothing in the program writes
    to this collection, so a document is whatever the store holds; it is
    represented by what the program reads of it: the values under the
    keys [id] and [portal], which the queries compare, and the outcome of
    the constructor call [JobPosting] on its fields, which pydantic
    decides: the posting, or the text of the [ValidationError]. *)
Record JobDoc := {
  jd_id : string;
  jd_portal : string;
  jd_validated : result JobPosting
}.

(** The constructor call [JobPosting] on the fields of a stored document. *)
Definition JobPosting_of_doc (d : JobDoc) : result JobPosting := jd_validated d.

(** The document under which a posting is stored. *)
Definition doc_of_JobPosting (j : JobPosting) : JobDoc :=
  {| jd_id := job_id j; jd_portal := portal_value (portal j);
     jd_validated := Ok j |}.

(** Values stored in [portal_data : Dict[str, Any]]. *)
Inductive PortalValue :=
| PStr (s : string)
| PBool (b : bool)
| PIso (t : Z).   (* [t.isoformat()] of the instant [t] *)

(** [JobApplication]; [response_received] and [interview_scheduled] are
    never touched by the code embedded here and are left out. *)
Record JobApplication := {
  app_id : string;
  app_user_id : string;
  app_job_id : string;
  cv_used : string;
  cover_letter : option string;
  custom_message : option string;
  portal_data : gmap string PortalValue;
  status : ApplicationStatus;
  applied_at : option Z;
  last_update : Z;
  notes : option string;
  created_at : Z
}.

(** Truth value of an [Optional[str]]: [None] and [""] are false. *)
Definition truthy (o : option string) : bool :=
  match o with
  | Some s => negb (bool_decide (s = ""))
  | None => false
  end.

End Models.

(** ** services/ai_service.py *)
Module AIService.
Import Models.

(** The chat session of one user, as [update_config] builds it. *)
Record LlmChat := {
  api_key : string;
  session_id : string;
  system_message : string
}.

(** What a prompt is made of; the fixed Spanish wording around these
    values is not represented. *)
Inductive Prompt :=
| CoverLetterPrompt (name : string)
    (main_experience : option (list (gmap string string)))
    (key_skills : list string) (company title description : string)
| CompatibilityPrompt (experience : list (gmap string string))
    (skills : list string) (title : string) (requirements : list string)
    (description : string).

(** State of the service: [active_chats] maps a user id to its chat. *)
Record AIService := {
  active_chats : gmap string LlmChat
}.

(** [AIService()] *)
Definition __init__ : AIService := {| active_chats := ∅ |}.

(** The dictionary [_basic_compatibility_analysis] and
    [_parse_analysis_response] return. *)
Record CompatibilityAnalysis := {
  compatibility_percentage : nat;
  strengths : list string;
  weaknesses : list string;
  recommendation : string;
  matched_keywords : list string
}.

Definition nl : string := String "010" "".

(** Letter returned when the user has no chat (line 111). *)
Definition letter_without_provider (company title : string) : string :=
  "Estimados Sres. de " +:+ company +:+ ", adjunto mi CV para el cargo de "
    +:+ title +:+ ". Saludos cordiales.".

(** Letter returned when the provider call raises (line 146). *)
Definition letter_on_error (company title name : string) : string :=
  "Estimados Sres. de " +:+ company +:+ "," +:+ nl +:+ nl
    +:+ "Tengo gran interés en el cargo de " +:+ title
    +:+ ". Mi experiencia profesional me permite contribuir efectivamente al equipo. Adjunto mi CV para su revisión."
    +:+ nl +:+ nl +:+ "Saludos cordiales," +:+ nl +:+ name.

(** [self.active_chats[user_id]] *)
Definition chat_of (svc : AIService) (user_id : string) : result LlmChat :=
  match active_chats svc !! user_id with
  | Some chat => Ok chat
  | None => Raise ("KeyError: " +:+ user_id)
  end.

(** [job_posting.description + " " + " ".join(job_posting.requirements)] *)
Definition posting_text (job : JobPosting) : string :=
  description job +:+ " " +:+ Text.join " " (requirements job).

(** [set(cv_text.split()) & set(job_text.split())] on the lowered texts *)
Definition common_words {unicode : Text.Unicode} (cv : CVData) (job : JobPosting)
  : gset string :=
  let cv_text := Text.lower (raw_text cv) in
  let job_text := Text.lower (posting_text job) in
  list_to_set (Text.split cv_text) ∩ list_to_set (Text.split job_text).

(** The order in which [list(common_words)] enumerates a Python set is
    not fixed by the language; [elements] stands for it. *)
Definition _basic_compatibility_analysis {unicode : Text.Unicode}
    (cv : CVData) (job : JobPosting) : CompatibilityAnalysis :=
  let common := common_words cv job in
  let compatibility := (size common * 10) `min` 100 in
  {| compatibility_percentage := compatibility;
     strengths := ["Experiencia profesional relevante"; "Perfil completo";
                   "Interés en el sector"];
     weaknesses := ["Revisar requisitos específicos";
                    "Validar experiencia técnica"];
     recommendation := if bool_decide (30 < compatibility)%nat then "Tal vez" else "No";
     matched_keywords := take 5 (elements common) |}.

Section Provider.
Context {unicode : Text.Unicode}.
(** The external text-generation backend: [chat.send_message]. *)
Variable send_message : LlmChat → Prompt → result string.
(** [_parse_analysis_response], used on the provider's answer only;
    the properties below hold whatever it computes. *)
Variable _parse_analysis_response : string → CompatibilityAnalysis.

Definition cover_letter_prompt (cv : CVData) (job : JobPosting) : Prompt :=
  CoverLetterPrompt
    (default "N/A" (personal_info cv !! "name"))
    (match experience cv with [] => None | e => Some (take 2 e) end)
    (take 5 (skills cv))
    (company job) (title job) (Text.prefix 500 (description job)).

Definition generate_cover_letter (svc : AIService) (user_id : string)
    (cv : CVData) (job : JobPosting) : result string :=
  if bool_decide (user_id ∉ dom (active_chats svc)) then
    Ok (letter_without_provider (company job) (title job))
  else
    try_except
      (chat ← chat_of svc user_id;
       response ← send_message chat (cover_letter_prompt cv job);
       Ok response)
      (λ e, Ok (letter_on_error (company job) (title job)
                  (default "" (personal_info cv !! "name")))).

Definition compatibility_prompt (cv : CVData) (job : JobPosting) : Prompt :=
  CompatibilityPrompt (experience cv) (skills cv) (title job)
    (requirements job) (description job).

Definition analyze_job_compatibility (svc : AIService) (user_id : string)
    (cv : CVData) (job : JobPosting) : result CompatibilityAnalysis :=
  if bool_decide (user_id ∉ dom (active_chats svc)) then
    Ok (_basic_compatibility_analysis cv job)
  else
    try_except
      (chat ← chat_of svc user_id;
       response ← send_message chat (compatibility_prompt cv job);
       Ok (_parse_analysis_response response))
      (λ e, Ok (_basic_compatibility_analysis cv job)).
End Provider.

End AIService.

(** ** services/scraper_service.py *)
Module ScraperService.
Import Models.

(** [self.daily_limits] *)
Definition daily_limits (p : JobPortal) : nat :=
  match p with
  | LINKEDIN => 20
  | LABORUM => 15
  | BNE => 25
  | TRABAJANDO => 15
  end.

(** State of the service.  [current_counts] is a dictionary that always
    has the four members of [JobPortal] as its keys, hence a total map. *)
Record ScraperService := {
  current_counts : JobPortal → nat;
  last_reset : Z
}.

Definition zero_counts : JobPortal → nat := λ _, 0.

(** [ScraperService()] on the day [today] *)
Definition __init__ (today : Z) : ScraperService :=
  {| current_counts := zero_counts; last_reset := today |}.

Definition _reset_daily_limits (today : Z) (s : ScraperService) : ScraperService :=
  if bool_decide (last_reset s < today)%Z
  then {| current_counts := zero_counts; last_reset := today |}
  else s.

(** [self.current_counts[portal] += n] *)
Definition add_count (portal : JobPortal) (n : nat) (s : ScraperService)
  : ScraperService :=
  {| current_counts := λ q,
       if bool_decide (q = portal) then current_counts s q + n
       else current_counts s q;
     last_reset := last_reset s |}.

(** The test that guards each portal in [search_jobs] (line 68). *)
Definition limit_reached (s : ScraperService) (portal : JobPortal) : bool :=
  bool_decide (daily_limits portal ≤ current_counts s portal)%nat.

Section Scrapers.
Context {unicode : Text.Unicode}.

Definition _find_matching_keywords (text : string) (keywords : list string)
  : list string :=
  let text_lower := Text.lower text in
  filter (λ keyword, Text.contains (Text.lower keyword) text_lower = true) keywords.

(** What the markup of one listing yields once its extraction succeeds:
    the fields handed to [JobPosting], the text of the title element that
    is matched against the keywords, and the fresh [id] of the posting.
    How each portal's markup is read is outside this model. *)
Record Listing := {
  l_new_id : string;
  l_external_id : string;
  l_url : string;
  l_title_text : string;
  l_title : string;
  l_company : string;
  l_location : string
}.

(** One element of [job_cards]: [None] when the body of the inner [try]
    raises or hits [continue], so that the card is skipped. *)
Definition Card : Type := option Listing.

(** The answer of a portal to one query: [None] when the request fails
    before the loop over the cards (outer [except], or a status other
    than 200), so that no posting is produced. *)
Definition Page : Type := option (list Card).

Definition posting_of_listing (p : JobPortal) (filters : SearchFilters)
    (l : Listing) : JobPosting :=
  {| job_id := l_new_id l; portal := p; external_id := l_external_id l;
     url := l_url l; title := l_title l; company := l_company l;
     location := l_location l; description := ""; requirements := [];
     keywords_matched := _find_matching_keywords (l_title_text l) (keywords filters) |}.

(** The loop shared by the four scrapers:
    [for card in job_cards[:self.daily_limits[portal]]] with one posting
    appended per card whose extraction succeeds. *)
Definition scrape_portal (p : JobPortal) (filters : SearchFilters)
    (page : Page) : list JobPosting :=
  match page with
  | None => []
  | Some job_cards =>
      omap (fmap (posting_of_listing p filters)) (take (daily_limits p) job_cards)
  end.

Definition _scrape_linkedin := scrape_portal LINKEDIN.
Definition _scrape_laborum := scrape_portal LABORUM.
Definition _scrape_bne := scrape_portal BNE.
Definition _scrape_trabajando := scrape_portal TRABAJANDO.

(** Lines written by [logger.info] in [search_jobs]. *)
Inductive LogEvent :=
| LimitReached (portal : JobPortal)            (* "Límite diario alcanzado" *)
| Found (n : nat) (portal : JobPortal).        (* "Encontrados n trabajos" *)

Record SearchOutcome := {
  all_jobs : list JobPosting;
  log : list LogEvent
}.

(** The body of [for portal in filters.portals]; [web i] is the page the
    portal at position [i] of the list answers with, if it is queried.
    None of the scrapers lets an exception escape, so the [except] of
    this loop has nothing to catch; the final [else: jobs = []] of the
    dispatch is not reachable either. *)
Fixpoint visit_portals (web : nat → Page) (filters : SearchFilters)
    (i : nat) (todo : list JobPortal) (s : ScraperService)
  : ScraperService * SearchOutcome :=
  match todo with
  | [] => (s, {| all_jobs := []; log := [] |})
  | portal :: todo' =>
      if limit_reached s portal then
        let '(s', out) := visit_portals web filters (S i) todo' s in
        (s', {| all_jobs := all_jobs out;
                log := LimitReached portal :: log out |})
      else
        let jobs :=
          match portal with
          | LINKEDIN => _scrape_linkedin filters (web i)
          | LABORUM => _scrape_laborum filters (web i)
          | BNE => _scrape_bne filters (web i)
          | TRABAJANDO => _scrape_trabajando filters (web i)
          end in
        let '(s', out) :=
          visit_portals web filters (S i) todo'
            (add_count portal (length jobs) s) in
        (s', {| all_jobs := jobs ++ all_jobs out;
                log := Found (length jobs) portal :: log out |})
  end.

Definition search_jobs (today : Z) (web : nat → Page)
    (filters : SearchFilters) (s : ScraperService)
  : ScraperService * SearchOutcome :=
  visit_portals web filters 0 (portals filters) (_reset_daily_limits today s).

(** One scheduling pass: the day it runs on, its filters and the pages
    the portals answer with. *)
Record Pass := {
  pass_today : Z;
  pass_filters : SearchFilters;
  pass_web : nat → Page
}.

(** Successive calls of [search_jobs] on the same service object. *)
Fixpoint run_passes (passes : list Pass) (s : ScraperService)
  : ScraperService * list SearchOutcome :=
  match passes with
  | [] => (s, [])
  | q :: passes' =>
      let '(s1, out) := search_jobs (pass_today q) (pass_web q) (pass_filters q) s in
      let '(s2, outs) := run_passes passes' s1 in
      (s2, out :: outs)
  end.

End Scrapers.

(** Portals whose scraper was invoked, read off the log. *)
Definition scraped (out : SearchOutcome) : list JobPortal :=
  omap (λ e, match e with Found _ p => Some p | LimitReached _ => None end) (log out).

End ScraperService.

(** ** The document store (MongoDB through motor) *)
Module Store.
Import Models.

Section Collection.
Context {A : Type}.

(** [find_one(query)]: the first document that matches. *)
Definition find_one (query : A → bool) (coll : list A) : option A :=
  List.find query coll.

(** [update_one(query, {"$set": ...})]: the first match is rewritten. *)
Fixpoint update_one (query : A → bool) (set : A → A) (coll : list A) : list A :=
  match coll with
  | [] => []
  | d :: coll' =>
      if query d then set d :: coll' else d :: update_one query set coll'
  end.

(** [result.matched_count] of an [update_one]. *)
Definition matched_count (query : A → bool) (coll : list A) : nat :=
  match find_one query coll with
  | Some _ => 1
  | None => 0
  end.

(** [update_many(query, {"$set": ...})]: every match is rewritten. *)
Definition update_many (query : A → bool) (set : A → A) (coll : list A) : list A :=
  map (λ d, if query d then set d else d) coll.

(** [insert_one(doc)] *)
Definition insert_one (doc : A) (coll : list A) : list A := coll ++ [doc].

(** [find(query).skip(skip).limit(limit).to_list(limit)], for the
    non-negative [skip] and [limit] on which the driver runs the query. *)
Definition find_many (query : A → bool) (skip limit : nat) (coll : list A) : list A :=
  take limit (drop skip (List.filter query coll)).
End Collection.

(** The collections the embedded code reads or writes. *)
Record DB := {
  cvs : list CVData;
  jobs : list JobDoc;
  applications : list JobApplication
}.

Definition with_cvs (f : list CVData → list CVData) (db : DB) : DB :=
  {| cvs := f (cvs db); jobs := jobs db; applications := applications db |}.

Definition with_applications
    (f : list JobApplication → list JobApplication) (db : DB) : DB :=
  {| cvs := cvs db; jobs := jobs db; applications := f (applications db) |}.

Definition has_id (id : string) (a : JobApplication) : bool :=
  bool_decide (app_id a = id).

End Store.

(** ** services/application_service.py *)
Module ApplicationService.
Import Models Store.

Definition set_cover_letter (c : string) (a : JobApplication) : JobApplication :=
  {| app_id := app_id a; app_user_id := app_user_id a; app_job_id := app_job_id a;
     cv_used := cv_used a; cover_letter := Some c;
     custom_message := custom_message a; portal_data := portal_data a;
     status := status a; applied_at := applied_at a;
     last_update := last_update a; notes := notes a; created_at := created_at a |}.

Definition set_portal_data (d : gmap string PortalValue) (a : JobApplication)
  : JobApplication :=
  {| app_id := app_id a; app_user_id := app_user_id a; app_job_id := app_job_id a;
     cv_used := cv_used a; cover_letter := cover_letter a;
     custom_message := custom_message a; portal_data := d;
     status := status a; applied_at := applied_at a;
     last_update := last_update a; notes := notes a; created_at := created_at a |}.

(** The [$set] of [_update_application_status]: [status], [last_update]
    and [notes] always, [applied_at] when the status is [APPLIED]. *)
Definition set_status (st : ApplicationStatus) (note : string) (now : Z)
    (a : JobApplication) : JobApplication :=
  {| app_id := app_id a; app_user_id := app_user_id a; app_job_id := app_job_id a;
     cv_used := cv_used a; cover_letter := cover_letter a;
     custom_message := custom_message a; portal_data := portal_data a;
     status := st;
     applied_at := if bool_decide (st = APPLIED) then Some now else applied_at a;
     last_update := now; notes := Some note; created_at := created_at a |}.

Definition _update_application_status (application_id : string)
    (st : ApplicationStatus) (note : string) (now : Z) (db : DB) : DB :=
  with_applications (update_one (has_id application_id) (set_status st note now)) db.

(** The four submission routines.  Each one logs, sleeps, assigns
    [portal_data] on the [application] object it was handed and returns
    [True]; nothing in their [try] bodies can raise. *)
Definition _apply_linkedin (application : JobApplication) (job : JobPosting)
    (cv : CVData) (now : Z) : bool * JobApplication :=
  (true, set_portal_data
           {[ "method" := PStr "linkedin_easy_apply";
              "timestamp" := PIso now;
              "cover_letter_sent" := PBool (truthy (cover_letter application)) ]}
           application).

Definition _apply_laborum (application : JobApplication) (job : JobPosting)
    (cv : CVData) (now : Z) : bool * JobApplication :=
  (true, set_portal_data
           {[ "method" := PStr "laborum_form";
              "timestamp" := PIso now;
              "form_filled" := PBool true ]}
           application).

Definition _apply_bne (application : JobApplication) (job : JobPosting)
    (cv : CVData) (now : Z) : bool * JobApplication :=
  (true, set_portal_data
           {[ "method" := PStr "bne_portal"; "timestamp" := PIso now ]}
           application).

Definition _apply_trabajando (application : JobApplication) (job : JobPosting)
    (cv : CVData) (now : Z) : bool * JobApplication :=
  (true, set_portal_data
           {[ "method" := PStr "trabajando_form"; "timestamp" := PIso now ]}
           application).

(** Lines 48-56: [success = False] and the chain of comparisons on
    [job_posting.portal.value]. *)
Definition submit (application : JobApplication) (job : JobPosting)
    (cv : CVData) (now : Z) : bool * JobApplication :=
  let v := portal_value (portal job) in
  if bool_decide (v = "linkedin") then _apply_linkedin application job cv now
  else if bool_decide (v = "laborum") then _apply_laborum application job cv now
  else if bool_decide (v = "bne") then _apply_bne application job cv now
  else if bool_decide (v = "trabajando") then _apply_trabajando application job cv now
  else (false, application).

Section Pipeline.
Variable send_message : AIService.LlmChat → AIService.Prompt → result string.
(** [self.ai_service] *)
Variable ai_service : AIService.AIService.

(** The statements inside the [try] of [process_application].  The
    store is written by the last statement of each path only, so an
    exception raised on the way leaves the store as it was found. *)
Definition process_body (application_id : string) (now : Z) (db : DB)
  : result DB :=
  match find_one (has_id application_id) (applications db) with
  | None => Ok db
  | Some application =>
      let job_doc :=
        find_one (λ d, bool_decide (jd_id d = app_job_id application)) (jobs db) in
      let cv_doc :=
        find_one (λ d, bool_decide (cv_id d = cv_used application)) (cvs db) in
      match job_doc, cv_doc with
      | Some job_doc, Some cv_data =>
          job_posting ← JobPosting_of_doc job_doc;
          application ←
            (if negb (truthy (cover_letter application)) then
               letter ← AIService.generate_cover_letter send_message
                          ai_service (app_user_id application) cv_data job_posting;
               Ok (set_cover_letter letter application)
             else Ok application);
          let '(success, application) :=
            submit application job_posting cv_data now in
          if success then
            Ok (_update_application_status application_id APPLIED
                  ("Postulación enviada a " +:+ company job_posting) now db)
          else
            Ok (_update_application_status application_id REJECTED
                  "Error en el envío" now db)
      | _, _ =>
          Ok (_update_application_status application_id REJECTED
                "Datos incompletos" now db)
      end
  end.

Definition process_application (application_id : string) (now : Z) (db : DB)
  : result DB :=
  try_except (process_body application_id now db)
    (λ e, Ok (_update_application_status application_id REJECTED e now db)).
End Pipeline.

End ApplicationService.

(** ** server.py: the handlers of the CV, posting and application routes *)
Module Server.
Import Models Store.

(** What a handler answers: its return value, or the [HTTPException] it
    raises. *)
Inductive response (A : Type) : Type :=
| Success (a : A)
| HTTPException (status_code : nat) (detail : string).
Arguments Success {A} a.
Arguments HTTPException {A} status_code detail.

(** The [CVData] built from the request body and [user_id], with its
    default fields. *)
Definition new_cv (new_id : string) (now : Z) (user_id : string)
    (cv_data : CVDataCreate) : CVData :=
  {| cv_id := new_id; cv_user_id := user_id; cv_title := cc_title cv_data;
     personal_info := cc_personal_info cv_data;
     experience := cc_experience cv_data; skills := cc_skills cv_data;
     raw_text := cc_raw_text cv_data; is_default := cc_is_default cv_data;
     cv_updated_at := now |}.

(** [{"$set": {"is_default": False}}] *)
Definition unset_default (c : CVData) : CVData :=
  {| cv_id := cv_id c; cv_user_id := cv_user_id c; cv_title := cv_title c;
     personal_info := personal_info c; experience := experience c;
     skills := skills c; raw_text := raw_text c; is_default := false;
     cv_updated_at := cv_updated_at c |}.

(** [{"$set": updated_data}] of [update_cv]: every field of the request
    body and [updated_at]. *)
Definition set_cv_fields (cv_data : CVDataCreate) (now : Z) (c : CVData) : CVData :=
  {| cv_id := cv_id c; cv_user_id := cv_user_id c; cv_title := cc_title cv_data;
     personal_info := cc_personal_info cv_data;
     experience := cc_experience cv_data; skills := cc_skills cv_data;
     raw_text := cc_raw_text cv_data; is_default := cc_is_default cv_data;
     cv_updated_at := now |}.

Definition owned_by (user_id : string) (c : CVData) : bool :=
  bool_decide (cv_user_id c = user_id).

Definition cv_has_id (id : string) (c : CVData) : bool :=
  bool_decide (cv_id c = id).

Definition create_cv (new_id : string) (now : Z) (user_id : string)
    (cv_data : CVDataCreate) (db : DB) : DB * CVData :=
  let cv := new_cv new_id now user_id cv_data in
  let db :=
    if is_default cv
    then with_cvs (update_many (owned_by user_id) unset_default) db
    else db in
  (with_cvs (insert_one cv) db, cv).

Definition update_cv (now : Z) (cv_id : string) (cv_data : CVDataCreate)
    (db : DB) : DB * response CVData :=
  let db' := with_cvs (update_one (cv_has_id cv_id) (set_cv_fields cv_data now)) db in
  if bool_decide (matched_count (cv_has_id cv_id) (cvs db) = 0) then
    (db', HTTPException 404 "CV no encontrado")
  else
    match find_one (cv_has_id cv_id) (cvs db') with
    | Some updated_cv => (db', Success updated_cv)
    | None => (db', HTTPException 500 "Internal Server Error")
    end.

(** [get_user_jobs]: the query is [{}], or [{"portal": portal}] when a
    portal is given; [user_id] is a parameter of the route only. *)
Definition get_user_jobs (user_id : string) (portal : option JobPortal)
    (limit skip : nat) (db : DB) : result (list JobPosting) :=
  let query := λ d : JobDoc,
    match portal with
    | Some p => bool_decide (jd_portal d = portal_value p)
    | None => true
    end in
  mapM JobPosting_of_doc (find_many query skip limit (jobs db)).

(** [JobApplication(user_id=..., job_id=..., cv_used=..., ...)] *)
Definition new_application (new_id : string) (now : Z)
    (user_id job_id cv_id : string) (custom_message : option string)
  : JobApplication :=
  {| app_id := new_id; app_user_id := user_id; app_job_id := job_id;
     cv_used := cv_id; cover_letter := None; custom_message := custom_message;
     portal_data := ∅; status := PENDING; applied_at := None;
     last_update := now; notes := None; created_at := now |}.

(** [apply_to_job].  On success the answer carries the id of the new
    application, which is also the argument of the [process_application]
    call handed to the background tasks. *)
Definition apply_to_job (new_id : string) (now : Z) (user_id job_id : string)
    (cv_id : option string) (custom_message : option string) (db : DB)
  : DB * response string :=
  match find_one (λ d, bool_decide (jd_id d = job_id)) (jobs db) with
  | None => (db, HTTPException 404 "Trabajo no encontrado")
  | Some job =>
      let chosen :=
        match cv_id with
        | Some id => if bool_decide (id = "") then None else Some id
        | None => None
        end in
      let resolved :=
        match chosen with
        | Some id => Some id
        | None =>
            Models.cv_id <$>
              find_one (λ c, owned_by user_id c && is_default c) (cvs db)
        end in
      match resolved with
      | None => (db, HTTPException 400 "No hay CV por defecto configurado")
      | Some cv_id =>
          let application :=
            new_application new_id now user_id job_id cv_id custom_message in
          (with_applications (insert_one application) db,
           Success (app_id application))
      end
  end.

(** The [AIService] that [ApplicationService.__init__] creates for itself;
    [create_ai_config] configures the server's other instance, never this
    one. *)
Definition application_service_ai : AIService.AIService := AIService.__init__.

(** A request to [apply_to_job] followed by its background task. *)
Definition apply_and_process
    (send_message : AIService.LlmChat → AIService.Prompt → result string)
    (new_id : string) (now : Z) (user_id job_id : string)
    (cv_id custom_message : option string) (db : DB) : result DB :=
  match apply_to_job new_id now user_id job_id cv_id custom_message db with
  | (db', Success application_id) =>
      ApplicationService.process_application send_message
        application_service_ai application_id now db'
  | (db', HTTPException _ _) => Ok db'
  end.

(** The default CVs of a user. *)
Definition default_cvs (user_id : string) (db : DB) : list CVData :=
  List.filter (λ c, owned_by user_id c && is_default c) (cvs db).

(** The applications of a user to a posting that are not rejected. *)
Definition active_applications (user_id job_id : string) (db : DB)
  : list JobApplication :=
  List.filter (λ a, bool_decide (app_user_id a = user_id)
                 && bool_decide (app_job_id a = job_id)
                 && negb (bool_decide (status a = REJECTED)))
    (applications db).

End Server.

(** ** Vocabulary of the properties *)
Module Spec.
Import Models.

(** The number of distinct words of the lowered CV text that also occur
    among the words of the lowered posting text. *)
Definition common_word_count {unicode : Text.Unicode} (cv_text job_text : string)
  : nat :=
  let job_words := Text.split (Text.lower job_text) in
  length (remove_dups
            (filter (λ w, w ∈ job_words) (Text.split (Text.lower cv_text)))).

(** The name a fallback letter can use: [personal_info.get('name', '')]. *)
Definition candidate_name (cv : CVData) : string :=
  default "" (personal_info cv !! "name").

End Spec.

(** ** Sample data *)
Module Fixtures.
Import Models Store.

Definition cv_ana : CVData :=
  {| cv_id := "cv-a"; cv_user_id := "u1"; cv_title := "CV Comercial";
     personal_info := {[ "name" := "Ana" ]}; experience := [];
     skills := ["python"; "sql"];
     raw_text := "Python developer with SQL and Docker experience on AWS";
     is_default := true; cv_updated_at := 0 |}.

Definition cv_ana_b : CVData :=
  {| cv_id := "cv-b"; cv_user_id := "u1"; cv_title := "CV Administrativo";
     personal_info := {[ "name" := "Ana" ]}; experience := [];
     skills := ["excel"]; raw_text := "Contabilidad y administración";
     is_default := false; cv_updated_at := 0 |}.

(** The same CV under another name. *)
Definition cv_luis : CVData :=
  {| cv_id := "cv-a"; cv_user_id := "u1"; cv_title := "CV Comercial";
     personal_info := {[ "name" := "Luis" ]}; experience := [];
     skills := ["python"; "sql"];
     raw_text := "Python developer with SQL and Docker experience on AWS";
     is_default := true; cv_updated_at := 0 |}.

Definition job_acme : JobPosting :=
  {| job_id := "j1"; portal := LINKEDIN; external_id := "4001";
     url := "https://www.linkedin.com/jobs/view/4001"; title := "Dev";
     company := "Acme"; location := "Santiago";
     description := "python sql docker";
     requirements := ["aws"; "kubernetes"]; keywords_matched := [] |}.

Definition job_bakery : JobPosting :=
  {| job_id := "j2"; portal := BNE; external_id := "77";
     url := "https://www.bne.cl/buscar-trabajo?q=panadero"; title := "Panadero";
     company := "Pan"; location := "Chile";
     description := "horno masa"; requirements := ["turnos"];
     keywords_matched := [] |}.

(** A provider whose every call fails. *)
Definition failing_provider (chat : AIService.LlmChat) (p : AIService.Prompt)
  : result string := Raise "timeout".

Definition chat_u1 : AIService.LlmChat :=
  {| AIService.api_key := "k"; AIService.session_id := "user_u1";
     AIService.system_message := "" |}.

Definition ai_with_u1 : AIService.AIService :=
  {| AIService.active_chats := {[ "u1" := chat_u1 ]} |}.

Definition pending_app (id user job cv : string) : JobApplication :=
  Server.new_application id 100 user job cv None.

(** One user with a default CV, one LinkedIn posting, one pending
    application for it. *)
Definition db_ready : DB :=
  {| cvs := [cv_ana; cv_ana_b];
     jobs := [doc_of_JobPosting job_acme];
     applications := [pending_app "a1" "u1" "j1" "cv-a"] |}.

(** The same store, but the application refers to a posting that is
    not in the [jobs] collection. *)
Definition db_missing_job : DB :=
  {| cvs := [cv_ana; cv_ana_b];
     jobs := [doc_of_JobPosting job_acme];
     applications := [pending_app "a1" "u1" "j-gone" "cv-a"] |}.

(** No application yet. *)
Definition db_no_application : DB :=
  {| cvs := [cv_ana; cv_ana_b];
     jobs := [doc_of_JobPosting job_acme];
     applications := [] |}.

Definition cv_update_default : CVDataCreate :=
  {| cc_title := "CV Administrativo"; cc_personal_info := {[ "name" := "Ana" ]};
     cc_experience := []; cc_skills := ["excel"];
     cc_raw_text := "Contabilidad y administración"; cc_is_default := true |}.

Definition listing : ScraperService.Listing :=
  {| ScraperService.l_new_id := "p"; ScraperService.l_external_id := "e";
     ScraperService.l_url := "https://www.linkedin.com/jobs/view/1";
     ScraperService.l_title_text := " Backend Engineer ";
     ScraperService.l_title := "Backend Engineer";
     ScraperService.l_company := "Acme";
     ScraperService.l_location := "Santiago" |}.

(** A result page with thirty well-formed cards. *)
Definition full_page : ScraperService.Page :=
  Some (replicate 30 (Some listing)).

Definition filters_linkedin : SearchFilters :=
  {| sf_user_id := "u1"; keywords := ["backend"; "java"; "remote"];
     locations := ["Santiago"]; portals := [LINKEDIN; BNE]; is_active := true |}.

(** A service that has already recorded ten LinkedIn postings today. *)
Definition scraper_ten : ScraperService.ScraperService :=
  ScraperService.add_count LINKEDIN 10 (ScraperService.__init__ 5).

(** A service whose LinkedIn count has reached the ceiling. *)
Definition scraper_full : ScraperService.ScraperService :=
  ScraperService.add_count LINKEDIN 20 (ScraperService.__init__ 5).

Definition pass_on (day : Z) : ScraperService.Pass :=
  {| ScraperService.pass_today := day;
     ScraperService.pass_filters := filters_linkedin;
     ScraperService.pass_web := λ _, full_page |}.

End Fixtures.

(** ** Invariants of the services *)
Module Invariants.

(** Every count stays below twice the ceiling of its portal. *)
Definition counts_bounded (s : ScraperService.ScraperService) : Prop :=
  ∀ p, ScraperService.current_counts s p < 2 * ScraperService.daily_limits p.

(** No two documents of a collection share the key [key]. *)
Definition unique_key {A} (key : A → string) (coll : list A) : Prop :=
  NoDup (key <$> coll).

End Invariants.

(** ** server.py: the other CV, posting and application routes *)
Module Routes.
Import Models Store Server.

Section Collection.
Context {A : Type}.

(** [delete_one(query)]: the first match is removed. *)
Fixpoint delete_one (query : A → bool) (coll : list A) : list A :=
  match coll with
  | [] => []
  | d :: coll' => if query d then coll' else d :: delete_one query coll'
  end.

(** [result.deleted_count] of a [delete_one]. *)
Definition deleted_count (query : A → bool) (coll : list A) : nat :=
  match find_one query coll with
  | Some _ => 1
  | None => 0
  end.

(** [delete_many(query)]: every match is removed. *)
Definition delete_many (query : A → bool) (coll : list A) : list A :=
  List.filter (λ d, negb (query d)) coll.

(** [find(query).to_list(n)] *)
Definition find_to_list (query : A → bool) (n : nat) (coll : list A) : list A :=
  take n (List.filter query coll).
End Collection.

Definition get_user_cvs (user_id : string) (db : DB) : list CVData :=
  find_to_list (owned_by user_id) 100 (cvs db).

Definition get_cv (cv_id : string) (db : DB) : response CVData :=
  match find_one (cv_has_id cv_id) (cvs db) with
  | Some cv => Success cv
  | None => HTTPException 404 "CV no encontrado"
  end.

Definition delete_cv (cv_id : string) (db : DB) : DB * response string :=
  let db' := with_cvs (delete_one (cv_has_id cv_id)) db in
  if bool_decide (deleted_count (cv_has_id cv_id) (cvs db) = 0) then
    (db', HTTPException 404 "CV no encontrado")
  else (db', Success "CV eliminado exitosamente").

(** [get_job]: an unknown id is answered with 404; a stored document that
    does not validate makes the handler raise. *)
Definition get_job (job_id : string) (db : DB) : result (response JobPosting) :=
  match find_one (λ d, bool_decide (jd_id d = job_id)) (jobs db) with
  | None => Ok (HTTPException 404 "Trabajo no encontrado")
  | Some job =>
      posting ← JobPosting_of_doc job;
      Ok (Success posting)
  end.

(** The query of [get_user_applications]: [{"user_id": user_id}], with
    [status] added when one is given. *)
Definition applications_query (user_id : string) (st : option ApplicationStatus)
    (a : JobApplication) : bool :=
  bool_decide (app_user_id a = user_id)
  && match st with
     | Some st => bool_decide (status a = st)
     | None => true
     end.

Definition get_user_applications (user_id : string)
    (st : option ApplicationStatus) (limit skip : nat) (db : DB)
  : list JobApplication :=
  find_many (applications_query user_id st) skip limit (applications db).

(** *** Search filters *)

(** [SearchFiltersCreate], with the fields [Models.SearchFilters] keeps. *)
Record SearchFiltersCreate := {
  fc_keywords : list string;
  fc_locations : list string;
  fc_portals : list JobPortal
}.

(** A document of the [search_filters] collection: the filters with their
    [id] and [updated_at]. *)
Record StoredFilters := {
  filters_id : string;
  filters_doc : SearchFilters;
  filters_updated_at : Z
}.

Definition filters_of (user_id : string) (f : StoredFilters) : bool :=
  bool_decide (sf_user_id (filters_doc f) = user_id).

(** The [SearchFilters] built from the request body and [user_id];
    [is_active] takes its default, [True]. *)
Definition new_filters (new_id : string) (now : Z) (user_id : string)
    (filters_data : SearchFiltersCreate) : StoredFilters :=
  {| filters_id := new_id;
     filters_doc :=
       {| sf_user_id := user_id; keywords := fc_keywords filters_data;
          locations := fc_locations filters_data;
          portals := fc_portals filters_data; is_active := true |};
     filters_updated_at := now |}.

Definition create_search_filters (new_id : string) (now : Z) (user_id : string)
    (filters_data : SearchFiltersCreate) (search_filters : list StoredFilters)
  : list StoredFilters * StoredFilters :=
  let filters := new_filters new_id now user_id filters_data in
  (insert_one filters search_filters, filters).

Definition get_user_search_filters (user_id : string)
    (search_filters : list StoredFilters) : list StoredFilters :=
  find_to_list (filters_of user_id) 100 search_filters.

(** [{"$set": updated_data}] of [update_search_filters]: the fields of the
    request body and [updated_at]; the body has no [is_active]. *)
Definition set_filters_fields (filters_data : SearchFiltersCreate) (now : Z)
    (f : StoredFilters) : StoredFilters :=
  {| filters_id := filters_id f;
     filters_doc :=
       {| sf_user_id := sf_user_id (filters_doc f);
          keywords := fc_keywords filters_data;
          locations := fc_locations filters_data;
          portals := fc_portals filters_data;
          is_active := is_active (filters_doc f) |};
     filters_updated_at := now |}.

Definition has_filters_id (id : string) (f : StoredFilters) : bool :=
  bool_decide (filters_id f = id).

Definition update_search_filters (now : Z) (filter_id : string)
    (filters_data : SearchFiltersCreate) (search_filters : list StoredFilters)
  : list StoredFilters * response StoredFilters :=
  let search_filters' :=
    update_one (has_filters_id filter_id) (set_filters_fields filters_data now)
      search_filters in
  if bool_decide (matched_count (has_filters_id filter_id) search_filters = 0) then
    (search_filters', HTTPException 404 "Filtros no encontrados")
  else
    match find_one (has_filters_id filter_id) search_filters' with
    | Some updated_filters => (search_filters', Success updated_filters)
    | None => (search_filters', HTTPException 500 "Internal Server Error")
    end.

(** [start_automatic_search].  The background task it adds on success,
    [search_and_apply], only writes two log lines. *)
Definition start_automatic_search (user_id : string)
    (search_filters : list StoredFilters) : response string :=
  match find_one (λ f, filters_of user_id f && is_active (filters_doc f))
          search_filters with
  | None => HTTPException 400 "No hay filtros de búsqueda activos configurados"
  | Some _ => Success "Búsqueda automática iniciada"
  end.

(** [{"$set": {"is_active": False, "updated_at": ...}}] *)
Definition deactivate (now : Z) (f : StoredFilters) : StoredFilters :=
  {| filters_id := filters_id f;
     filters_doc :=
       {| sf_user_id := sf_user_id (filters_doc f);
          keywords := keywords (filters_doc f);
          locations := locations (filters_doc f);
          portals := portals (filters_doc f);
          is_active := false |};
     filters_updated_at := now |}.

Definition stop_automatic_search (now : Z) (user_id : string)
    (search_filters : list StoredFilters) : list StoredFilters * string :=
  (update_many (filters_of user_id) (deactivate now) search_filters,
   "Búsqueda automática detenida").

End Routes.

(** ** AI configuration: the routes of server.py and [AIService.update_config] *)
Module AIConfiguration.
Import Models Store Server.

(** [AIConfig] *)
Record AIConfig := {
  config_id : string;
  config_user_id : string;
  gemini_api_key : option string;
  personalization_enabled : bool;
  auto_cover_letter : bool;
  auto_form_fill : bool;
  response_style : string;
  cv_customization_level : string;
  config_created_at : Z
}.

(** [AIConfigCreate] *)
Record AIConfigCreate := {
  ac_gemini_api_key : option string;
  ac_personalization_enabled : bool;
  ac_auto_cover_letter : bool;
  ac_auto_form_fill : bool;
  ac_response_style : string;
  ac_cv_customization_level : string
}.

Definition nl : string := String "010" "".

Definition tone_professional : string :=
  "Usa un tono profesional y directo, enfocado en logros y resultados cuantificables.".

Definition tone_friendly : string :=
  "Usa un tono amigable pero profesional, mostrando entusiasmo y personalidad.".

Definition tone_formal : string :=
  "Usa un tono muy formal y conservador, con lenguaje corporativo tradicional.".

(** The branches on [style] of [_get_system_message]. *)
Definition tone_of (style : string) : string :=
  if bool_decide (style = "professional") then tone_professional
  else if bool_decide (style = "friendly") then tone_friendly
  else tone_formal.

(** The text [_get_system_message] returns around the tone. *)
Definition system_message_with (tone : string) : string :=
  "Eres un especialista en recursos humanos y redacción de documentos laborales para el mercado chileno."
    +:+ nl
    +:+ nl
    +:+ "Tu trabajo es:"
    +:+ nl
    +:+ "1. Personalizar CVs y cartas de presentación para ofertas laborales específicas en Chile"
    +:+ nl
    +:+ "2. Generar respuestas para formularios de postulación basándote en el CV del candidato"
    +:+ nl
    +:+ "3. Analizar compatibilidad entre candidatos y ofertas laborales"
    +:+ nl
    +:+ nl
    +:+ "Instrucciones importantes:"
    +:+ nl
    +:+ "- "
    +:+ tone
    +:+ nl
    +:+ "- Usa terminología del mercado laboral chileno"
    +:+ nl
    +:+ "- Adapta el contenido al contexto cultural y empresarial de Chile"
    +:+ nl
    +:+ "- Mantén la información veraz basándote únicamente en los datos proporcionados del CV"
    +:+ nl
    +:+ "- Nunca inventes experiencias o habilidades que no estén en el CV original"
    +:+ nl
    +:+ "- Responde siempre en español de Chile"
    +:+ nl
    +:+ nl
    +:+ "Cuando personalices documentos, enfócate en:"
    +:+ nl
    +:+ "- Resaltar experiencias relevantes para la posición específica"
    +:+ nl
    +:+ "- Usar keywords de la oferta laboral"
    +:+ nl
    +:+ "- Mostrar valor agregado y resultados concretos"
    +:+ nl
    +:+ "- Mantener coherencia con el perfil profesional del candidato".

(** [_get_system_message(config)] on the dictionary of an [AIConfig],
    which always has the key [response_style]. *)
Definition _get_system_message (config : AIConfig) : string :=
  system_message_with (tone_of (response_style config)).

(** The server's [AIService] object: [user_configs] and [active_chats]. *)
Record AIState := {
  user_configs : gmap string AIConfig;
  service : AIService.AIService
}.

(** [AIService()] *)
Definition __init__ : AIState :=
  {| user_configs := ∅; service := AIService.__init__ |}.

Section Chat.
(** The constructor [LlmChat(api_key, session_id, system_message)]
    followed by [with_model]: it yields the chat or raises. *)
Variable LlmChat_init : string → string → string → result unit.

Definition update_config (user_id : string) (config : AIConfig) (st : AIState)
  : result AIState :=
  let st := {| user_configs := <[user_id := config]> (user_configs st);
               service := service st |} in
  match gemini_api_key config with
  | Some key =>
      if bool_decide (key = "") then Ok st
      else
        try_except
          (let session := "user_" +:+ user_id in
           let message := _get_system_message config in
           _ ← LlmChat_init key session message;
           let chat := {| AIService.api_key := key;
                          AIService.session_id := session;
                          AIService.system_message := message |} in
           Ok {| user_configs := user_configs st;
                 service :=
                   {| AIService.active_chats :=
                        <[user_id := chat]>
                          (AIService.active_chats (service st)) |} |})
          (λ e, Ok st)
  | None => Ok st
  end.

(** The [AIConfig] built from the request body and [user_id]. *)
Definition new_config (new_id : string) (now : Z) (user_id : string)
    (config_data : AIConfigCreate) : AIConfig :=
  {| config_id := new_id; config_user_id := user_id;
     gemini_api_key := ac_gemini_api_key config_data;
     personalization_enabled := ac_personalization_enabled config_data;
     auto_cover_letter := ac_auto_cover_letter config_data;
     auto_form_fill := ac_auto_form_fill config_data;
     response_style := ac_response_style config_data;
     cv_customization_level := ac_cv_customization_level config_data;
     config_created_at := now |}.

Definition config_of (user_id : string) (c : AIConfig) : bool :=
  bool_decide (config_user_id c = user_id).

(** [create_ai_config]: the user's stored configurations are deleted, the
    new one is inserted, and the AI service is updated when the new
    configuration has a key. *)
Definition create_ai_config (new_id : string) (now : Z) (user_id : string)
    (config_data : AIConfigCreate) (ai_config : list AIConfig) (st : AIState)
  : result (list AIConfig * AIState * AIConfig) :=
  let config := new_config new_id now user_id config_data in
  let ai_config :=
    insert_one config (Routes.delete_many (config_of user_id) ai_config) in
  st ← (if truthy (gemini_api_key config)
        then update_config user_id config st
        else Ok st);
  Ok (ai_config, st, config).
End Chat.

Definition get_ai_config (user_id : string) (ai_config : list AIConfig)
  : response AIConfig :=
  match find_one (config_of user_id) ai_config with
  | Some config => Success config
  | None => HTTPException 404 "Configuración IA no encontrada"
  end.

End AIConfiguration.

(** ** Sample data for the filter and AI configuration routes *)
Module Samples.
Import Models.

Definition filters_data : Routes.SearchFiltersCreate :=
  {| Routes.fc_keywords := ["backend"]; Routes.fc_locations := ["Santiago"];
     Routes.fc_portals := [LINKEDIN] |}.

(** One active filter of user [u1], one of user [u2]. *)
Definition stored_filters : list Routes.StoredFilters :=
  [Routes.new_filters "f1" 10 "u1" filters_data;
   Routes.new_filters "f2" 11 "u2" filters_data].

Definition config_with_key : AIConfiguration.AIConfigCreate :=
  {| AIConfiguration.ac_gemini_api_key := Some "key-2";
     AIConfiguration.ac_personalization_enabled := true;
     AIConfiguration.ac_auto_cover_letter := true;
     AIConfiguration.ac_auto_form_fill := true;
     AIConfiguration.ac_response_style := "friendly";
     AIConfiguration.ac_cv_customization_level := "medium" |}.

Definition config_without_key : AIConfiguration.AIConfigCreate :=
  {| AIConfiguration.ac_gemini_api_key := None;
     AIConfiguration.ac_personalization_enabled := true;
     AIConfiguration.ac_auto_cover_letter := true;
     AIConfiguration.ac_auto_form_fill := true;
     AIConfiguration.ac_response_style := "professional";
     AIConfiguration.ac_cv_customization_level := "medium" |}.

(** A constructor that always succeeds, and one that always raises. *)
Definition chat_ok (key session message : string) : result unit := Ok ().
Definition chat_raises (key session message : string) : result unit :=
  Raise "invalid key".

(** The AI service once user [u1] has a chat built from an earlier key. *)
Definition ai_state_u1 : AIConfiguration.AIState :=
  {| AIConfiguration.user_configs :=
       {[ "u1" := AIConfiguration.new_config "c1" 1 "u1" config_with_key ]};
     AIConfiguration.service := Fixtures.ai_with_u1 |}.

Definition stored_configs : list AIConfiguration.AIConfig :=
  [AIConfiguration.new_config "c1" 1 "u1" config_with_key;
   AIConfiguration.new_config "c0" 0 "u2" config_without_key].

End Samples.

(** ** More of Python's string operations on bytes *)
Module Strings.

(** [s.split(sep)] for a one-character separator: at least one piece. *)
Fixpoint split_on_go (sep : ascii) (cur : list ascii) (s : string) : list string :=
  match s with
  | EmptyString => [string_of_list_ascii (rev cur)]
  | String c s' =>
      if bool_decide (c = sep)
      then string_of_list_ascii (rev cur) :: split_on_go sep [] s'
      else split_on_go sep (c :: cur) s'
  end.

Definition split_on (sep : ascii) (s : string) : list string :=
  split_on_go sep [] s.

(** [s.replace(c, "")] for a one-character [c] *)
Fixpoint remove_char (c : ascii) (s : string) : string :=
  match s with
  | EmptyString => EmptyString
  | String a s' =>
      if bool_decide (a = c) then remove_char c s' else String a (remove_char c s')
  end.

(** [s[n:]] *)
Fixpoint drop_chars (n : nat) (s : string) : string :=
  match n, s with
  | 0, _ => s
  | S n', String _ s' => drop_chars n' s'
  | S _, EmptyString => EmptyString
  end.

(** What follows the first occurrence of [sep] in [s], if there is one. *)
Fixpoint find_after (sep s : string) : option string :=
  if Text.starts_with sep s then Some (drop_chars (String.length sep) s)
  else
    match s with
    | EmptyString => None
    | String _ s' => find_after sep s'
    end.

(** [s.split(sep, 1)[-1] if sep in s else s] *)
Definition after_first (sep s : string) : string :=
  default s (find_after sep s).

(** [l[i]], which raises [IndexError] out of range. *)
Definition item {A} (i : nat) (l : list A) : result A :=
  match l !! i with
  | Some x => Ok x
  | None => Raise "IndexError: list index out of range"
  end.

End Strings.

(** ** services/ai_service.py: the other requests and the answer parser *)
Module AIResponses.
Import Models.

(** What the prompts of [personalize_cv] and [generate_form_responses]
    are made of. *)
Inductive Request :=
| PersonalizeRequest (name : string) (experience : list (gmap string string))
    (skills : list string) (company title description : string)
    (requirements : list string)
| FormRequest (raw_text : string) (form_questions : list string).

Definition fallback_answer : string := "Información disponible en CV adjunto".
Definition missing_answer : string := "Ver información en CV adjunto".

(** [{q: fallback_answer for q in form_questions}] *)
Definition fallback_answers (form_questions : list string) : gmap string string :=
  foldl (λ responses q, <[q := fallback_answer]> responses) ∅ form_questions.

(** The inner loop over [lines] for the question at index [i]: the first
    line that holds ["{i+1}."] or the first twenty characters of the
    question gives the answer; the [else] of the [for] gives the default. *)
Definition answer_in {unicode : Text.Unicode} (lines : list string) (i : nat)
    (question : string) : string :=
  match List.find (λ line, Text.contains (pretty (i + 1) +:+ ".") line
                           || Text.contains (Text.prefix 20 question) line)
          lines with
  | Some line => Text.strip (Strings.after_first ": " line)
  | None => missing_answer
  end.

(** [for i, question in enumerate(form_questions)], from index [i] on. *)
Fixpoint collect_answers {unicode : Text.Unicode} (lines : list string) (i : nat)
    (form_questions : list string) (responses : gmap string string)
  : gmap string string :=
  match form_questions with
  | [] => responses
  | question :: rest =>
      collect_answers lines (S i) rest
        (<[question := answer_in lines i question]> responses)
  end.

Definition newline : ascii := "010"%char.

Section Provider.
Context {unicode : Text.Unicode}.
Variable send_message : AIService.LlmChat → Request → result string.

Definition personalize_cv (svc : AIService.AIService) (user_id : string)
    (cv : CVData) (job : JobPosting) : result string :=
  if bool_decide (user_id ∉ dom (AIService.active_chats svc)) then
    Ok (raw_text cv)
  else
    try_except
      (chat ← AIService.chat_of svc user_id;
       response ← send_message chat
                    (PersonalizeRequest
                       (default "N/A" (personal_info cv !! "name"))
                       (experience cv) (skills cv) (company job) (title job)
                       (description job) (requirements job));
       Ok response)
      (λ e, Ok (raw_text cv)).

Definition generate_form_responses (svc : AIService.AIService)
    (user_id : string) (cv : CVData) (form_questions : list string)
  : result (gmap string string) :=
  if bool_decide (user_id ∉ dom (AIService.active_chats svc)) then
    Ok (fallback_answers form_questions)
  else
    try_except
      (chat ← AIService.chat_of svc user_id;
       response ← send_message chat (FormRequest (raw_text cv) form_questions);
       let lines := Strings.split_on newline response in
       Ok (collect_answers lines 0 form_questions ∅))
      (λ e, Ok (fallback_answers form_questions)).
End Provider.

(** *** [_parse_analysis_response] *)

(** Values of the dictionary the parser returns. *)
Inductive AnalysisValue :=
| AInt (z : Z)
| AList (l : list string)
| AStr (s : string).

(** The dictionary of the [except] branch. *)
Definition default_analysis : gmap string AnalysisValue :=
  {[ "compatibility_percentage" := AInt 50;
     "strengths" := AList ["Perfil profesional"];
     "weaknesses" := AList ["Revisar requisitos"];
     "recommendation" := AStr "Tal vez";
     "matched_keywords" := AList [] ]}.

(** [result.setdefault(key, value)], on the dictionary [parsed] *)
Definition setdefault (key : string) (value : AnalysisValue)
    (parsed : gmap string AnalysisValue) : gmap string AnalysisValue :=
  match parsed !! key with
  | Some _ => parsed
  | None => <[key := value]> parsed
  end.

Definition setdefaults (parsed : gmap string AnalysisValue)
  : gmap string AnalysisValue :=
  setdefault "matched_keywords" (AList [])
    (setdefault "recommendation" (AStr "Tal vez")
       (setdefault "weaknesses" (AList ["Revisar requisitos"])
          (setdefault "strengths" (AList ["Perfil profesional"])
             (setdefault "compatibility_percentage" (AInt 50) parsed)))).

Section Parser.
Context {unicode : Text.Unicode}.
(** The builtin [int] applied to a [str]: the integer or [ValueError]. *)
Variable python_int : string → result Z.

(** [line.split(':')[1]] *)
Definition second_field (line : string) : result string :=
  Strings.item 1 (Strings.split_on ":" line).

(** The body of [for line in lines]; the dictionary that the source
    calls [result] is [parsed] here. *)
Definition parse_line (parsed : gmap string AnalysisValue) (line : string)
  : result (gmap string AnalysisValue) :=
  if Text.contains "COMPATIBILIDAD:" line then
    field ← second_field line;
    percentage ← python_int (Strings.remove_char "%" (Text.strip field));
    Ok (<["compatibility_percentage" := AInt percentage]> parsed)
  else if Text.contains "FORTALEZAS:" line then
    field ← second_field line;
    Ok (<["strengths" := AList (Text.strip <$> Strings.split_on "," field)]> parsed)
  else if Text.contains "DEBILIDADES:" line then
    field ← second_field line;
    Ok (<["weaknesses" := AList (Text.strip <$> Strings.split_on "," field)]> parsed)
  else if Text.contains "RECOMENDACION:" line then
    field ← second_field line;
    Ok (<["recommendation" := AStr (Text.strip field)]> parsed)
  else Ok parsed.

Fixpoint parse_lines (lines : list string) (parsed : gmap string AnalysisValue)
  : result (gmap string AnalysisValue) :=
  match lines with
  | [] => Ok parsed
  | line :: rest =>
      parsed ← parse_line parsed line;
      parse_lines rest parsed
  end.

Definition _parse_analysis_response (response : string)
  : result (gmap string AnalysisValue) :=
  try_except
    (parsed ← parse_lines (Strings.split_on newline response) ∅;
     Ok (setdefaults parsed))
    (λ e, Ok default_analysis).
End Parser.

End AIResponses.

(** ** Sample data for the provider's answers *)
Module ResponseSamples.

Definition digit_value (c : ascii) : option Z :=
  let n := nat_of_ascii c in
  if (48 <=? n) && (n <=? 57) then Some (Z.of_nat n - 48)%Z else None.

Fixpoint digits_value (acc : Z) (s : string) : option Z :=
  match s with
  | EmptyString => Some acc
  | String c s' =>
      match digit_value c with
      | Some d => digits_value (10 * acc + d)%Z s'
      | None => None
      end
  end.

(** A stand-in for [int] that reads unsigned decimal literals, surrounded
    by optional whitespace, and raises on anything else. *)
Definition decimal_int (s : string) : result Z :=
  match Text.ascii_strip s with
  | EmptyString => Raise "ValueError: invalid literal for int()"
  | t =>
      match digits_value 0 t with
      | Some z => Ok z
      | None => Raise "ValueError: invalid literal for int()"
      end
  end.

(** A provider that answers every request with the same two lines. *)
Definition two_line_provider (chat : AIService.LlmChat)
    (request : AIResponses.Request) : result string :=
  Ok ("1. Nombre: Ana" +:+ String "010" "" +:+ "Experiencia en ventas").

Definition failing_provider (chat : AIService.LlmChat)
    (request : AIResponses.Request) : result string := Raise "timeout".

Definition questions : list string := ["Nombre completo"; "Experiencia"].

End ResponseSamples.

(** ** server.py: the statistics route *)
Module Stats.
Import Models Store.

(** [timedelta(days=1)], instants being counted in seconds. *)
Definition one_day : Z := 86400.

(** [{"user_id": user_id, "created_at": {"$gte": start_date}}] *)
Definition in_period (user_id : string) (start_date : Z) (a : JobApplication)
  : bool :=
  bool_decide (app_user_id a = user_id) && bool_decide (start_date ≤ created_at a)%Z.

(** [{"$group": {"_id": key, "count": {"$sum": 1}}}]: one group per key
    value, with the number of documents that have it. *)
Definition group_count {A} (key : A → string) (docs : list A) : gmap string nat :=
  foldr (λ d groups, <[key d := S (default 0 (groups !! key d))]> groups) ∅ docs.

(** [aggregate(pipeline).to_list(n)].  The order in which MongoDB yields
    the groups is not specified; [map_to_list] stands for it. *)
Definition aggregate_to_list (n : nat) (groups : gmap string nat)
  : list (string * nat) :=
  take n (map_to_list groups).

(** [$lookup] of the posting by [job_id] followed by [$unwind]: one
    document per pair of an application and a posting with that id. *)
Definition lookup_jobs (apps : list JobApplication) (jobs : list JobDoc)
  : list (JobApplication * JobDoc) :=
  a ← apps;
  (λ d, (a, d)) <$> List.filter (λ d, bool_decide (jd_id d = app_job_id a)) jobs.

(** The value of [success_rate]: [0.0], or the floating-point result of
    [k / total * 100]. *)
Inductive Rate :=
| RateZero
| RateOf (k total : nat).

Record UserStats := {
  period_days : Z;
  total_applications : nat;
  total_jobs_found : nat;
  applications_by_status : gmap string nat;
  applications_by_portal : gmap string nat;
  success_rate : Rate
}.

Definition is_success (group : string * nat) : bool :=
  bool_decide (group.1 ∈ ["interview"; "offer"]).

Section Jobs.
(** [scraped_at] of a stored posting. *)
Variable scraped_at : JobDoc → Z.

Definition get_user_stats (now : Z) (user_id : string) (days : Z) (db : DB)
  : UserStats :=
  let start_date := (now - days * one_day)%Z in
  let total_applications :=
    length (List.filter (in_period user_id start_date) (applications db)) in
  let total_jobs_found :=
    length (List.filter (λ d, bool_decide (start_date ≤ scraped_at d)%Z) (jobs db)) in
  let status_stats :=
    aggregate_to_list 10
      (group_count (λ a, status_value (status a))
         (List.filter (in_period user_id start_date) (applications db))) in
  let portal_stats :=
    aggregate_to_list 10
      (group_count (λ ad, jd_portal ad.2)
         (List.filter (λ ad, in_period user_id start_date ad.1)
            (lookup_jobs (applications db) (jobs db)))) in
  {| period_days := days;
     total_applications := total_applications;
     total_jobs_found := total_jobs_found;
     applications_by_status := list_to_map status_stats;
     applications_by_portal := list_to_map portal_stats;
     success_rate :=
       if bool_decide (total_applications = 0) then RateZero
       else RateOf (length (List.filter is_success status_stats))
              total_applications |}.
End Jobs.

(** Three applications of user [u1], all in status [INTERVIEW]. *)
Definition interview_app (id : string) : JobApplication :=
  {| app_id := id; app_user_id := "u1"; app_job_id := "j1"; cv_used := "cv-a";
     cover_letter := None; custom_message := None; portal_data := ∅;
     status := INTERVIEW; applied_at := Some 150%Z; last_update := 160;
     notes := None; created_at := 100 |}.

Definition db_interviews : DB :=
  {| cvs := []; jobs := [];
     applications := [interview_app "a1"; interview_app "a2"; interview_app "a3"] |}.

End Stats.

(** ** Sample data: a stored posting that does not validate *)
Module PostingSamples.
Import Models Store.

(** A text standing for the one pydantic words. *)
Definition sample_error : string := "1 validation error for JobPosting".

(** A document stored under the portal "indeed", which [JobPortal] does
    not have. *)
Definition doc_indeed : JobDoc :=
  {| jd_id := "j9"; jd_portal := "indeed"; jd_validated := Raise sample_error |}.

Definition db_indeed : DB :=
  {| cvs := [Fixtures.cv_ana];
     jobs := [doc_of_JobPosting Fixtures.job_acme; doc_indeed];
     applications := [Fixtures.pending_app "a1" "u1" "j9" "cv-a"] |}.

(** A page whose request failed, and a web that fails on LinkedIn only. *)
Definition web_full (i : nat) : ScraperService.Page := Fixtures.full_page.
Definition web_linkedin_down (i : nat) : ScraperService.Page :=
  if bool_decide (i = 0) then None else Fixtures.full_page.

End PostingSamples.

(** * Properties *)

Import Models.

(** ** Text *)

Lemma starts_with_app (p s : string) : Text.starts_with p (p +:+ s) = true.
Proof.
  induction p as [|a p IH]; simpl; [done|].
  rewrite bool_decide_eq_true_2 by done. exact IH.
Qed.

Lemma contains_here (p s : string) : Text.contains p (p +:+ s) = true.
Proof.
  destruct p, s; simpl; try done;
    rewrite bool_decide_eq_true_2 by done; simpl;
    rewrite starts_with_app; done.
Qed.

Lemma contains_app_r (p a s : string) :
  Text.contains p s = true → Text.contains p (a +:+ s) = true.
Proof.
  intros H. induction a as [|c a IH]; simpl; [done|].
  rewrite IH. apply orb_true_r.
Qed.

Lemma contains_middle (p a s : string) : Text.contains p (a +:+ p +:+ s) = true.
Proof. apply contains_app_r, contains_here. Qed.

(** ** AI content provider: the local fallbacks *)

(** The size of the Python set of common words is the number of distinct
    common words counted on the word lists. *)
Lemma size_common_words {unicode : Text.Unicode}
    (cv : CVData) (job : JobPosting) :
  size (AIService.common_words cv job)
  = Spec.common_word_count (raw_text cv) (AIService.posting_text job).
Proof.
  unfold AIService.common_words, Spec.common_word_count, size, set_size; simpl.
  apply Permutation_length, NoDup_Permutation.
  - apply NoDup_elements.
  - apply NoDup_remove_dups.
  - intros w. rewrite elem_of_elements, elem_of_intersection,
      !elem_of_list_to_set, elem_of_remove_dups, list_elem_of_filter.
    tauto.
Qed.

Lemma chat_of_lookup svc user_id chat :
  AIService.active_chats svc !! user_id = Some chat →
  AIService.chat_of svc user_id = Ok chat.
Proof. unfold AIService.chat_of. by intros ->. Qed.

(** [generate_cover_letter] returns a letter whatever the provider does. *)
Lemma generate_cover_letter_returns send_message svc user_id cv job :
  ∃ letter,
    AIService.generate_cover_letter send_message svc user_id cv job = Ok letter.
Proof.
  unfold AIService.generate_cover_letter. case_bool_decide; [eauto|].
  destruct (AIService.chat_of svc user_id) as [chat|e]; simpl; [|eauto].
  destruct (send_message chat _); simpl; eauto.
Qed.

(** C5, as the code has it.  For every CV and posting, and whatever
    [lower] and [split] make of their texts, the local compatibility
    analysis returns the percentage [min (10 * n) 100], where [n] is the
    number of distinct words common to the lowered CV text and the
    lowered posting text.  Its recommendation is the string ["Tal vez"]
    exactly when that percentage exceeds 30 and the string ["No"]
    otherwise, hence never ["maybe"] nor ["no"]; no common word gives 0
    and ["No"], four common words give 40.  It is what
    [analyze_job_compatibility] answers for a user without a configured
    provider. *)
Theorem basic_compatibility_formula {unicode : Text.Unicode}
    (cv : CVData) (job : JobPosting) :
  let r := AIService._basic_compatibility_analysis cv job in
  let n := Spec.common_word_count (raw_text cv) (AIService.posting_text job) in
  AIService.compatibility_percentage r = (10 * n) `min` 100
  ∧ (AIService.recommendation r =
       if bool_decide (30 < AIService.compatibility_percentage r)%nat
       then "Tal vez" else "No")
  ∧ AIService.recommendation r ≠ "maybe"
  ∧ AIService.recommendation r ≠ "no"
  ∧ (n = 0 → AIService.compatibility_percentage r = 0
             ∧ AIService.recommendation r = "No")
  ∧ (n = 4 → AIService.compatibility_percentage r = 40)
  ∧ (∀ send_message parse svc user_id,
       user_id ∉ dom (AIService.active_chats svc) →
       AIService.analyze_job_compatibility send_message parse svc user_id cv job
       = Ok r).
Proof.
  intros r n.
  assert (Hpct : AIService.compatibility_percentage r = (10 * n) `min` 100).
  { subst r n. unfold AIService._basic_compatibility_analysis.
    cbn [AIService.compatibility_percentage].
    rewrite size_common_words. f_equal. apply Nat.mul_comm. }
  assert (Hrec : AIService.recommendation r =
                 if bool_decide (30 < AIService.compatibility_percentage r)%nat
                 then "Tal vez" else "No") by reflexivity.
  split_and!; [exact Hpct|exact Hrec| | | | |].
  - rewrite Hrec. by case_bool_decide.
  - rewrite Hrec. by case_bool_decide.
  - intros Hn. split; [lia|].
    rewrite Hrec, bool_decide_eq_false_2; [done|lia].
  - intros Hn. lia.
  - intros send_message parse svc user_id Hno.
    unfold AIService.analyze_job_compatibility.
    rewrite bool_decide_eq_true_2 by exact Hno. reflexivity.
Qed.

(** The two worked cases of C5 on sample data made of ASCII text. *)
Example compatibility_four_common_words :
  let r := AIService._basic_compatibility_analysis (unicode := Text.ascii_text)
             Fixtures.cv_ana Fixtures.job_acme in
  Spec.common_word_count (unicode := Text.ascii_text) (raw_text Fixtures.cv_ana)
    (AIService.posting_text Fixtures.job_acme) = 4
  ∧ AIService.compatibility_percentage r = 40
  ∧ AIService.recommendation r = "Tal vez".
Proof. vm_compute. done. Qed.

Example compatibility_no_common_word :
  let r := AIService._basic_compatibility_analysis (unicode := Text.ascii_text)
             Fixtures.cv_ana Fixtures.job_bakery in
  Spec.common_word_count (unicode := Text.ascii_text) (raw_text Fixtures.cv_ana)
    (AIService.posting_text Fixtures.job_bakery) = 0
  ∧ AIService.compatibility_percentage r = 0
  ∧ AIService.recommendation r = "No".
Proof. vm_compute. done. Qed.

(** The conditional parts of [basic_compatibility_formula] on sample
    data: four common words, none, and a user without provider. *)
Lemma basic_compatibility_formula_witness :
  AIService.compatibility_percentage
    (AIService._basic_compatibility_analysis (unicode := Text.ascii_text)
       Fixtures.cv_ana Fixtures.job_acme) = 40
  ∧ (AIService.compatibility_percentage
       (AIService._basic_compatibility_analysis (unicode := Text.ascii_text)
          Fixtures.cv_ana Fixtures.job_bakery) = 0
     ∧ AIService.recommendation
         (AIService._basic_compatibility_analysis (unicode := Text.ascii_text)
            Fixtures.cv_ana Fixtures.job_bakery)
       = "No")
  ∧ AIService.analyze_job_compatibility (unicode := Text.ascii_text)
      Fixtures.failing_provider
      (λ _, AIService._basic_compatibility_analysis (unicode := Text.ascii_text)
              Fixtures.cv_ana Fixtures.job_bakery)
      AIService.__init__ "u1" Fixtures.cv_ana Fixtures.job_acme
    = Ok (AIService._basic_compatibility_analysis (unicode := Text.ascii_text)
            Fixtures.cv_ana Fixtures.job_acme).
Proof.
  split; [|split].
  - apply (basic_compatibility_formula (unicode := Text.ascii_text)
             Fixtures.cv_ana Fixtures.job_acme).
    vm_compute. reflexivity.
  - apply (basic_compatibility_formula (unicode := Text.ascii_text)
             Fixtures.cv_ana Fixtures.job_bakery).
    vm_compute. reflexivity.
  - apply (basic_compatibility_formula (unicode := Text.ascii_text)
             Fixtures.cv_ana Fixtures.job_acme).
    vm_compute. set_solver.
Defined.

(** C5 as stated fails on the recommendation: for a CV and a posting
    that share four words the analysis gives 40 and the recommendation
    ["Tal vez"], not ["maybe"]; for a CV and a posting that share none it
    gives ["No"], not ["no"]. *)
Lemma recommendation_is_not_maybe :
  (let r := AIService._basic_compatibility_analysis (unicode := Text.ascii_text)
              Fixtures.cv_ana Fixtures.job_acme in
   AIService.compatibility_percentage r = 40
   ∧ AIService.recommendation r = "Tal vez")
  ∧ (let r := AIService._basic_compatibility_analysis (unicode := Text.ascii_text)
                Fixtures.cv_ana Fixtures.job_bakery in
     AIService.compatibility_percentage r = 0
     ∧ AIService.recommendation r = "No")
  ∧ ¬ (∀ (unicode : Text.Unicode) (cv : CVData) (job : JobPosting),
         let r := AIService._basic_compatibility_analysis cv job in
         AIService.recommendation r =
           if bool_decide (30 < AIService.compatibility_percentage r)%nat
           then "maybe" else "no").
Proof.
  split; [by vm_compute|]. split; [by vm_compute|].
  intros H. specialize (H Text.ascii_text Fixtures.cv_ana Fixtures.job_acme).
  vm_compute in H. discriminate H.
Qed.

Lemma starts_with_refl (p : string) : Text.starts_with p p = true.
Proof.
  induction p as [|a p IH]; simpl; [done|].
  rewrite bool_decide_eq_true_2 by done. exact IH.
Qed.

Lemma contains_refl (p : string) : Text.contains p p = true.
Proof. destruct p; simpl; [done|]. by rewrite bool_decide_eq_true_2, starts_with_refl. Qed.

(** Both templates quote the company and the title; the error template
    ends with the name. *)
Lemma letter_without_provider_quotes (company title : string) :
  Text.contains company (AIService.letter_without_provider company title) = true
  ∧ Text.contains title (AIService.letter_without_provider company title) = true.
Proof.
  unfold AIService.letter_without_provider. split.
  - apply contains_middle.
  - do 2 apply contains_app_r. apply contains_middle.
Qed.

Lemma letter_on_error_quotes (company title name : string) :
  Text.contains company (AIService.letter_on_error company title name) = true
  ∧ Text.contains title (AIService.letter_on_error company title name) = true
  ∧ Text.contains name (AIService.letter_on_error company title name) = true.
Proof.
  unfold AIService.letter_on_error. split; [|split].
  - apply contains_middle.
  - do 5 apply contains_app_r. apply contains_middle.
  - do 12 apply contains_app_r. apply contains_refl.
Qed.

(** C6, as the code has it.  For every user, CV and posting,
    [generate_cover_letter] returns without raising.  When the user has no
    configured provider the result is the fixed one-sentence template
    filled with the posting's company and title, and nothing else; when
    the provider call raises it is the fixed three-paragraph template
    filled with the company, the title and the name found in the CV's
    [personal_info] (empty when there is none).  Neither depends on what
    the provider would have answered. *)
Theorem cover_letter_fallbacks send_message svc user_id cv job :
  (∃ letter,
     AIService.generate_cover_letter send_message svc user_id cv job = Ok letter)
  ∧ (user_id ∉ dom (AIService.active_chats svc) →
     AIService.generate_cover_letter send_message svc user_id cv job
     = Ok (AIService.letter_without_provider (company job) (title job)))
  ∧ (∀ chat e,
       AIService.active_chats svc !! user_id = Some chat →
       send_message chat (AIService.cover_letter_prompt cv job) = Raise e →
       AIService.generate_cover_letter send_message svc user_id cv job
       = Ok (AIService.letter_on_error (company job) (title job)
               (Spec.candidate_name cv)))
  ∧ (Text.contains (company job)
       (AIService.letter_without_provider (company job) (title job)) = true
     ∧ Text.contains (title job)
         (AIService.letter_without_provider (company job) (title job)) = true)
  ∧ (Text.contains (company job)
       (AIService.letter_on_error (company job) (title job) (Spec.candidate_name cv))
     = true
     ∧ Text.contains (title job)
         (AIService.letter_on_error (company job) (title job) (Spec.candidate_name cv))
       = true
     ∧ Text.contains (Spec.candidate_name cv)
         (AIService.letter_on_error (company job) (title job) (Spec.candidate_name cv))
       = true).
Proof.
  split; [apply generate_cover_letter_returns|].
  split; [|split; [|split]].
  - intros Hno. unfold AIService.generate_cover_letter.
    by rewrite bool_decide_eq_true_2.
  - intros chat e Hchat Hsend. unfold AIService.generate_cover_letter.
    rewrite bool_decide_eq_false_2.
    + rewrite (chat_of_lookup _ _ _ Hchat). simpl. by rewrite Hsend.
    + intros Hno. apply Hno, elem_of_dom. eauto.
  - apply letter_without_provider_quotes.
  - apply letter_on_error_quotes.
Qed.

(** The conditional parts of [cover_letter_fallbacks] on sample data: a
    user without chat, and a user whose provider call times out. *)
Lemma cover_letter_fallbacks_witness :
  AIService.generate_cover_letter Fixtures.failing_provider AIService.__init__
    "u1" Fixtures.cv_ana Fixtures.job_acme
  = Ok (AIService.letter_without_provider "Acme" "Dev")
  ∧ AIService.generate_cover_letter Fixtures.failing_provider Fixtures.ai_with_u1
      "u1" Fixtures.cv_ana Fixtures.job_acme
    = Ok (AIService.letter_on_error "Acme" "Dev" "Ana").
Proof.
  split.
  - apply (cover_letter_fallbacks Fixtures.failing_provider AIService.__init__
             "u1" Fixtures.cv_ana Fixtures.job_acme).
    vm_compute. set_solver.
  - apply (cover_letter_fallbacks Fixtures.failing_provider Fixtures.ai_with_u1
             "u1" Fixtures.cv_ana Fixtures.job_acme) with Fixtures.chat_u1 "timeout";
      reflexivity.
Defined.

(** C6 as stated fails: without a configured provider the letter does not
    use the name.  For the CV of Ana and the posting of Acme the letter is
    the one-sentence template, the name does not occur in it, and the same
    CV under another name gets the same letter. *)
Lemma cover_letter_without_provider_omits_name :
  (AIService.generate_cover_letter Fixtures.failing_provider AIService.__init__
     "u1" Fixtures.cv_ana Fixtures.job_acme
   = Ok "Estimados Sres. de Acme, adjunto mi CV para el cargo de Dev. Saludos cordiales."
   ∧ AIService.generate_cover_letter Fixtures.failing_provider AIService.__init__
       "u1" Fixtures.cv_luis Fixtures.job_acme
     = Ok "Estimados Sres. de Acme, adjunto mi CV para el cargo de Dev. Saludos cordiales."
   ∧ Text.contains "Ana"
       "Estimados Sres. de Acme, adjunto mi CV para el cargo de Dev. Saludos cordiales."
     = false)
  ∧ ¬ (∀ send_message svc user_id cv job,
         user_id ∉ dom (AIService.active_chats svc) →
         ∃ letter,
           AIService.generate_cover_letter send_message svc user_id cv job = Ok letter
           ∧ Text.contains (Spec.candidate_name cv) letter = true).
Proof.
  split; [by vm_compute|].
  intros H.
  destruct (H Fixtures.failing_provider AIService.__init__ "u1"
              Fixtures.cv_ana Fixtures.job_acme) as (letter & Hgen & Hname).
  { vm_compute. set_solver. }
  vm_compute in Hgen. injection Hgen as <-. vm_compute in Hname. discriminate.
Qed.

(** ** Quota tracking and the scheduler *)

Lemma omap_length_le {A B} (f : A → option B) (l : list A) :
  length (omap f l) ≤ length l.
Proof.
  induction l as [|x l IH]; csimpl; [lia|].
  destruct (f x); simpl; lia.
Qed.

Section Scheduler.
Import ScraperService.
Context {unicode : Text.Unicode}.

Lemma scrape_portal_length p filters page :
  length (scrape_portal p filters page) ≤ daily_limits p.
Proof.
  destruct page as [cards|]; simpl; [|lia].
  etrans; [apply omap_length_le|]. rewrite length_take. lia.
Qed.

Lemma scrape_portal_portal p filters page j :
  j ∈ scrape_portal p filters page → portal j = p.
Proof.
  destruct page as [cards|]; simpl; [|by intros ?%elem_of_nil].
  intros (c & _ & Hc)%list_elem_of_omap.
  destruct c as [l|]; simplify_eq/=. done.
Qed.

Lemma reset_same_day today s :
  (today ≤ last_reset s)%Z → _reset_daily_limits today s = s.
Proof.
  intros H. unfold _reset_daily_limits. rewrite bool_decide_eq_false_2; [done|lia].
Qed.

Lemma reset_new_day today s :
  (last_reset s < today)%Z →
  _reset_daily_limits today s = {| current_counts := zero_counts; last_reset := today |}.
Proof.
  intros H. unfold _reset_daily_limits. by rewrite bool_decide_eq_true_2.
Qed.


End Scheduler.


Section SampleRuns.
(** The sample data is ASCII text, on which [Text.ascii_text] is what
    Python computes. *)
#[local] Existing Instance Text.ascii_text.


(** What a pass does with the sample service at the LinkedIn ceiling: the
    first portal is logged as refused, the second one is scraped. *)
Example pass_with_linkedin_refused :
  let '(s', out) :=
    ScraperService.search_jobs 5 (λ _, Fixtures.full_page)
      Fixtures.filters_linkedin Fixtures.scraper_full in
  ScraperService.log out
  = [ScraperService.LimitReached LINKEDIN; ScraperService.Found 25 BNE]
  ∧ length (ScraperService.all_jobs out) = 25
  ∧ ScraperService.current_counts s' LINKEDIN = 20
  ∧ ScraperService.current_counts s' BNE = 25.
Proof. vm_compute. done. Qed.
End SampleRuns.

(** C4, as the code has it.  For every portal variant, filters and page a
    single fetch returns at most the portal's full daily ceiling of
    postings, whatever count is already recorded; a page with enough
    well-formed cards yields exactly that many. *)
Theorem fetch_bounded_by_daily_limit {unicode : Text.Unicode}
    (p : JobPortal) (filters : SearchFilters) (page : ScraperService.Page) :
  length (ScraperService.scrape_portal p filters page) ≤ ScraperService.daily_limits p
  ∧ length (ScraperService._scrape_linkedin filters page) ≤ 20
  ∧ length (ScraperService._scrape_laborum filters page) ≤ 15
  ∧ length (ScraperService._scrape_bne filters page) ≤ 25
  ∧ length (ScraperService._scrape_trabajando filters page) ≤ 15
  ∧ length (ScraperService.scrape_portal p filters Fixtures.full_page)
    = ScraperService.daily_limits p.
Proof.
  split; [apply scrape_portal_length|].
  split; [apply (scrape_portal_length LINKEDIN)|].
  split; [apply (scrape_portal_length LABORUM)|].
  split; [apply (scrape_portal_length BNE)|].
  split; [apply (scrape_portal_length TRABAJANDO)|].
  destruct p; reflexivity.
Qed.

Section SampleRuns.
(** The sample data is ASCII text, on which [Text.ascii_text] is what
    Python computes. *)
#[local] Existing Instance Text.ascii_text.

(** C4 as stated fails: with ten LinkedIn postings already recorded the
    remaining quota is ten, yet one fetch returns twenty postings and the
    pass leaves the count at thirty. *)
Lemma fetch_exceeds_remaining_quota :
  (ScraperService.current_counts Fixtures.scraper_ten LINKEDIN = 10
   ∧ ScraperService.daily_limits LINKEDIN = 20
   ∧ length (ScraperService._scrape_linkedin Fixtures.filters_linkedin
               Fixtures.full_page) = 20
   ∧ ScraperService.current_counts
       (ScraperService.search_jobs 5 (λ _, Fixtures.full_page)
          Fixtures.filters_linkedin Fixtures.scraper_ten).1 LINKEDIN = 30)
  ∧ ¬ (∀ (unicode : Text.Unicode) s p filters page,
         length (ScraperService.scrape_portal p filters page)
         ≤ ScraperService.daily_limits p - ScraperService.current_counts s p).
Proof.
  split; [by vm_compute|].
  intros H.
  specialize (H Text.ascii_text Fixtures.scraper_ten LINKEDIN
                Fixtures.filters_linkedin Fixtures.full_page).
  vm_compute in H. lia.
Qed.
End SampleRuns.

(** ** The document store *)

Section StoreFacts.
Context {A : Type} (query : A → bool) (set : A → A).

Lemma update_one_no_match (coll : list A) :
  Store.find_one query coll = None → Store.update_one query set coll = coll.
Proof.
  induction coll as [|d coll IH]; simpl; [done|].
  destruct (query d); [done|]. intros H. by rewrite IH.
Qed.

(** An update that keeps the queried key rewrites the very document
    [find_one] returns. *)
Lemma find_one_update_one (coll : list A) :
  (∀ d, query (set d) = query d) →
  Store.find_one query (Store.update_one query set coll)
  = set <$> Store.find_one query coll.
Proof.
  intros Hkey. induction coll as [|d coll IH]; simpl; [done|].
  destruct (query d) eqn:Hd; simpl.
  - by rewrite Hkey, Hd.
  - by rewrite Hd.
Qed.

Lemma update_one_length (coll : list A) :
  length (Store.update_one query set coll) = length coll.
Proof.
  induction coll as [|d coll IH]; simpl; [done|].
  destruct (query d); simpl; congruence.
Qed.
End StoreFacts.

(** ** The application pipeline *)

Section PipelineFacts.
Import Store ApplicationService.
Variable send_message : AIService.LlmChat → AIService.Prompt → result string.
Variable ai_service : AIService.AIService.

Lemma status_update_lookup application_id st note now db application :
  find_one (has_id application_id) (applications db) = Some application →
  find_one (has_id application_id)
    (applications (_update_application_status application_id st note now db))
  = Some (set_status st note now application).
Proof.
  intros Hfind. unfold _update_application_status; simpl.
  rewrite find_one_update_one by done. by rewrite Hfind.
Qed.

(** Every submission routine reports success and leaves the method it
    used in the [portal_data] of the object it was handed. *)
Lemma submit_succeeds application job cv now :
  (submit application job cv now).1 = true
  ∧ is_Some (portal_data (submit application job cv now).2 !! "method").
Proof.
  unfold submit. destruct (portal job); vm_compute; eauto.
Qed.

Lemma process_body_complete application_id now db application job_doc cv job :
  find_one (has_id application_id) (applications db) = Some application →
  find_one (λ d, bool_decide (jd_id d = app_job_id application)) (jobs db)
    = Some job_doc →
  find_one (λ d, bool_decide (cv_id d = cv_used application)) (cvs db) = Some cv →
  JobPosting_of_doc job_doc = Ok job →
  process_body send_message ai_service application_id now db
  = Ok (_update_application_status application_id APPLIED
          ("Postulación enviada a " +:+ company job) now db).
Proof.
  intros Happ Hjob Hcv Hvalid. unfold process_body.
  rewrite Happ, Hjob, Hcv, Hvalid. simpl.
  destruct (negb (truthy (cover_letter application))).
  - destruct (generate_cover_letter_returns send_message ai_service
                (app_user_id application) cv job) as [letter ->]. simpl.
    pose proof (submit_succeeds (set_cover_letter letter application) job cv now)
      as [Hok _].
    destruct (submit _ job cv now) as [success local]. simpl in Hok. by subst.
  - simpl.
    pose proof (submit_succeeds application job cv now) as [Hok _].
    destruct (submit _ job cv now) as [success local]. simpl in Hok. by subst.
Qed.
End PipelineFacts.

(** C1.  When the application record exists but its posting or its CV is
    not found, [process_application] returns normally and the stored
    record is rejected with the note "Datos incompletos" (which is not
    empty); its [applied_at] is what it was before, and the other
    collections are untouched. *)
Theorem missing_posting_or_cv_rejects
    (send_message : AIService.LlmChat → AIService.Prompt → result string)
    (ai_service : AIService.AIService) (application_id : string) (now : Z)
    (db : Store.DB) (application : JobApplication) :
  Store.find_one (Store.has_id application_id) (Store.applications db)
    = Some application →
  Store.find_one (λ d, bool_decide (jd_id d = app_job_id application)) (Store.jobs db)
    = None
  ∨ Store.find_one (λ d, bool_decide (cv_id d = cv_used application)) (Store.cvs db)
    = None →
  ∃ db' application',
    ApplicationService.process_application send_message ai_service
      application_id now db = Ok db'
    ∧ Store.find_one (Store.has_id application_id) (Store.applications db')
      = Some application'
    ∧ status application' = REJECTED
    ∧ notes application' = Some "Datos incompletos"
    ∧ "Datos incompletos" ≠ ""
    ∧ applied_at application' = applied_at application
    ∧ Store.cvs db' = Store.cvs db
    ∧ Store.jobs db' = Store.jobs db.
Proof.
  intros Happ Hmissing.
  exists (ApplicationService._update_application_status application_id REJECTED
            "Datos incompletos" now db),
         (ApplicationService.set_status REJECTED "Datos incompletos" now application).
  split.
  - unfold ApplicationService.process_application, ApplicationService.process_body.
    rewrite Happ.
    destruct Hmissing as [-> | ->]; [done|].
    by destruct (Store.find_one _ (Store.jobs db)).
  - split; [by apply status_update_lookup|]. by repeat split.
Qed.

(** [missing_posting_or_cv_rejects] on sample data: the pending
    application [a1] refers to a posting that is not stored. *)
Lemma missing_posting_or_cv_rejects_witness :
  ∃ db' application',
    ApplicationService.process_application Fixtures.failing_provider
      AIService.__init__ "a1" 200 Fixtures.db_missing_job = Ok db'
    ∧ Store.find_one (Store.has_id "a1") (Store.applications db') = Some application'
    ∧ status application' = REJECTED
    ∧ notes application' = Some "Datos incompletos"
    ∧ "Datos incompletos" ≠ ""
    ∧ applied_at application' = None
    ∧ Store.cvs db' = Store.cvs Fixtures.db_missing_job
    ∧ Store.jobs db' = Store.jobs Fixtures.db_missing_job.
Proof.
  apply (missing_posting_or_cv_rejects Fixtures.failing_provider AIService.__init__
           "a1" 200 Fixtures.db_missing_job
           (Fixtures.pending_app "a1" "u1" "j-gone" "cv-a")).
  - reflexivity.
  - left. reflexivity.
Defined.

(** C10.  When no application record has the given id,
    [process_application] returns normally and the store it leaves is the
    store it found: nothing is written, nothing is rejected. *)
Theorem unknown_application_leaves_store
    (send_message : AIService.LlmChat → AIService.Prompt → result string)
    (ai_service : AIService.AIService) (application_id : string) (now : Z)
    (db : Store.DB) :
  Store.find_one (Store.has_id application_id) (Store.applications db) = None →
  ApplicationService.process_application send_message ai_service
    application_id now db = Ok db.
Proof.
  intros Hnone.
  unfold ApplicationService.process_application, ApplicationService.process_body.
  by rewrite Hnone.
Qed.

(** [unknown_application_leaves_store] on sample data: no record has the
    id [a9]. *)
Lemma unknown_application_leaves_store_witness :
  ApplicationService.process_application Fixtures.failing_provider
    AIService.__init__ "a9" 200 Fixtures.db_ready = Ok Fixtures.db_ready.
Proof.
  apply (unknown_application_leaves_store Fixtures.failing_provider
           AIService.__init__ "a9" 200 Fixtures.db_ready).
  reflexivity.
Defined.

(** C2.  For every run that finds the application, its posting (with a
    valid portal) and its CV, the submission routine reports success and
    the stored record becomes [APPLIED] with [applied_at] stamped.  The
    method and evidence, however, are assigned to the local [application]
    object only: the [portal_data] of the stored record is what it was
    before the run. *)
Theorem submission_evidence_not_persisted
    (send_message : AIService.LlmChat → AIService.Prompt → result string)
    (ai_service : AIService.AIService) (application_id : string) (now : Z)
    (db : Store.DB) (application : JobApplication) (job_doc : JobDoc)
    (cv : CVData) (job : JobPosting) :
  Store.find_one (Store.has_id application_id) (Store.applications db)
    = Some application →
  Store.find_one (λ d, bool_decide (jd_id d = app_job_id application)) (Store.jobs db)
    = Some job_doc →
  Store.find_one (λ d, bool_decide (cv_id d = cv_used application)) (Store.cvs db)
    = Some cv →
  JobPosting_of_doc job_doc = Ok job →
  ∃ db' application',
    ApplicationService.process_application send_message ai_service
      application_id now db = Ok db'
    ∧ Store.find_one (Store.has_id application_id) (Store.applications db')
      = Some application'
    ∧ status application' = APPLIED
    ∧ applied_at application' = Some now
    ∧ last_update application' = now
    ∧ portal_data application' = portal_data application
    ∧ cover_letter application' = cover_letter application
    ∧ (∀ local,
         (ApplicationService.submit local job cv now).1 = true
         ∧ is_Some (portal_data (ApplicationService.submit local job cv now).2
                    !! "method")).
Proof.
  intros Happ Hjob Hcv Hvalid.
  exists (ApplicationService._update_application_status application_id APPLIED
            ("Postulación enviada a " +:+ company job) now db),
         (ApplicationService.set_status APPLIED
            ("Postulación enviada a " +:+ company job) now application).
  split.
  - unfold ApplicationService.process_application.
    by rewrite (process_body_complete _ _ _ _ _ _ _ _ _ Happ Hjob Hcv Hvalid).
  - split; [by apply status_update_lookup|].
    repeat split; try done; apply submit_succeeds.
Qed.

(** [submission_evidence_not_persisted] on sample data: after the run on
    the pending LinkedIn application [a1] the stored record is applied and
    stamped, and its [portal_data] is still empty. *)
Lemma submission_evidence_not_persisted_witness :
  ∃ db' application',
    ApplicationService.process_application Fixtures.failing_provider
      AIService.__init__ "a1" 200 Fixtures.db_ready = Ok db'
    ∧ Store.find_one (Store.has_id "a1") (Store.applications db') = Some application'
    ∧ status application' = APPLIED
    ∧ applied_at application' = Some 200%Z
    ∧ last_update application' = 200%Z
    ∧ portal_data application' = ∅
    ∧ cover_letter application' = None
    ∧ (∀ local,
         (ApplicationService.submit local Fixtures.job_acme Fixtures.cv_ana 200).1
         = true
         ∧ is_Some (portal_data
                      (ApplicationService.submit local Fixtures.job_acme
                         Fixtures.cv_ana 200).2 !! "method")).
Proof.
  apply (submission_evidence_not_persisted Fixtures.failing_provider
           AIService.__init__ "a1" 200 Fixtures.db_ready
           (Fixtures.pending_app "a1" "u1" "j1" "cv-a")
           (doc_of_JobPosting Fixtures.job_acme) Fixtures.cv_ana Fixtures.job_acme);
    reflexivity.
Defined.

(** The same run, evaluated: what the routine assigned in memory and what
    the store holds afterwards. *)
Example linkedin_run_evaluated :
  portal_data
    (ApplicationService._apply_linkedin (Fixtures.pending_app "a1" "u1" "j1" "cv-a")
       Fixtures.job_acme Fixtures.cv_ana 200).2 !! "method"
  = Some (PStr "linkedin_easy_apply")
  ∧ (db' ← ApplicationService.process_application Fixtures.failing_provider
             AIService.__init__ "a1" 200 Fixtures.db_ready;
     Ok ((λ a, (status a, applied_at a, portal_data a !! "method", notes a))
           <$> Store.find_one (Store.has_id "a1") (Store.applications db')))
    = Ok (Some (APPLIED, Some 200%Z, None, Some "Postulación enviada a Acme")).
Proof. vm_compute. done. Qed.

(** ** The CV, posting and application routes *)

Lemma JobPosting_doc_roundtrip (j : JobPosting) :
  JobPosting_of_doc (doc_of_JobPosting j) = Ok j.
Proof. reflexivity. Qed.

Lemma mapM_docs (js : list JobPosting) :
  mapM JobPosting_of_doc (doc_of_JobPosting <$> js) = Ok js.
Proof.
  induction js as [|j js IH]; [done|].
  rewrite fmap_cons. simpl. by rewrite IH.
Qed.

Lemma filter_all {A} (l : list A) : List.filter (λ _, true) l = l.
Proof. induction l; simpl; congruence. Qed.

(** C9, as the code has it.  A posting carries no [user_id], and the
    per-user jobs listing does not read the [user_id] of the route: for the
    same portal, limit and skip it answers every user alike, and with a
    limit as large as the collection every user is shown every stored
    posting. *)
Theorem jobs_listing_ignores_user (u1 u2 : string) (portal : option JobPortal)
    (limit skip : nat) (db : Store.DB) :
  Server.get_user_jobs u1 portal limit skip db
  = Server.get_user_jobs u2 portal limit skip db
  ∧ (∀ (js : list JobPosting) cvs applications,
       Server.get_user_jobs u1 None (length js) 0
         {| Store.cvs := cvs; Store.jobs := doc_of_JobPosting <$> js;
            Store.applications := applications |}
       = Ok js).
Proof.
  split; [reflexivity|].
  intros js cvs applications. unfold Server.get_user_jobs, Store.find_many; simpl.
  rewrite filter_all, drop_0, take_ge by (by rewrite length_fmap).
  apply mapM_docs.
Qed.

(** C9 as stated fails: the posting of the sample store is listed to two
    different users. *)
Lemma jobs_listing_shared_across_users :
  (Server.get_user_jobs "u1" None 50 0 Fixtures.db_ready = Ok [Fixtures.job_acme]
   ∧ Server.get_user_jobs "u2" None 50 0 Fixtures.db_ready = Ok [Fixtures.job_acme])
  ∧ ¬ (∀ db (u1 u2 : string) portal limit skip l1 l2,
         u1 ≠ u2 →
         Server.get_user_jobs u1 portal limit skip db = Ok l1 →
         Server.get_user_jobs u2 portal limit skip db = Ok l2 →
         ∀ j, j ∈ l1 → j ∉ l2).
Proof.
  split; [by vm_compute|].
  intros H.
  apply (H Fixtures.db_ready "u1" "u2" None 50 0 [Fixtures.job_acme] [Fixtures.job_acme]
           ltac:(done) ltac:(by vm_compute) ltac:(by vm_compute) Fixtures.job_acme);
    apply list_elem_of_here.
Qed.

Lemma update_many_clears_defaults (user_id : string) (coll : list CVData) :
  List.filter (λ c, Server.owned_by user_id c && is_default c)
    (Store.update_many (Server.owned_by user_id) Server.unset_default coll) = [].
Proof.
  unfold Store.update_many. induction coll as [|c coll IH]; simpl; [done|].
  destruct (Server.owned_by user_id c) eqn:Hc; simpl.
  - unfold Server.owned_by in *. simpl. rewrite Hc. simpl. exact IH.
  - rewrite Hc. simpl. exact IH.
Qed.

(** X4.  The part of the single-default rule that [create_cv] does
    enforce: after creating a CV marked as default, it is the user's only
    default CV. *)
Lemma create_cv_single_default new_id now user_id cv_data db :
  cc_is_default cv_data = true →
  Server.default_cvs user_id (Server.create_cv new_id now user_id cv_data db).1
  = [Server.new_cv new_id now user_id cv_data].
Proof.
  intros Hdef. unfold Server.create_cv, Server.default_cvs. simpl. rewrite Hdef.
  simpl. unfold Store.insert_one. rewrite List.filter_app, update_many_clears_defaults.
  simpl. unfold Server.owned_by at 1. simpl.
  rewrite bool_decide_eq_true_2 by done. by rewrite Hdef.
Qed.

(** [create_cv_single_default] on sample data: a third CV, created as
    default for user [u1], replaces [cv-a] as the only default. *)
Lemma create_cv_single_default_witness :
  cv_id <$> Server.default_cvs "u1"
              (Server.create_cv "cv-c" 300 "u1" Fixtures.cv_update_default
                 Fixtures.db_ready).1
  = ["cv-c"].
Proof.
  rewrite (create_cv_single_default "cv-c" 300 "u1" Fixtures.cv_update_default
             Fixtures.db_ready eq_refl).
  reflexivity.
Defined.

(** C7.  [update_cv] writes [is_default] on the one CV it is given and
    touches no other: in the sample store, where [cv-a] is the default CV
    of user [u1], updating [cv-b] with [is_default] set succeeds and
    leaves that user with two default CVs. *)
Theorem update_cv_leaves_two_defaults :
  let '(db', answer) :=
    Server.update_cv 300 "cv-b" Fixtures.cv_update_default Fixtures.db_ready in
  cv_id <$> Server.default_cvs "u1" Fixtures.db_ready = ["cv-a"]
  ∧ (is_default <$> (match answer with
                     | Server.Success c => Some c
                     | Server.HTTPException _ _ => None
                     end)) = Some true
  ∧ cv_id <$> Server.default_cvs "u1" db' = ["cv-a"; "cv-b"].
Proof. vm_compute. done. Qed.

(** C8, as the code has it.  [apply_to_job] looks up the posting and
    resolves the CV, and nothing else: whenever the posting exists and a
    CV is given or a default one is found, a new pending application is
    appended and answered with its id, so the user has one more active
    application for that posting than before, whatever applications were
    already stored. *)
Theorem apply_to_job_adds_application
    (new_id : string) (now : Z) (user_id job_id : string)
    (cv_id custom_message : option string) (db : Store.DB)
    (job : JobDoc) (cv : string) :
  Store.find_one (λ d, bool_decide (jd_id d = job_id)) (Store.jobs db) = Some job →
  (cv_id = Some cv ∧ cv ≠ "")
  ∨ ((cv_id = None ∨ cv_id = Some "")
     ∧ Models.cv_id <$>
         Store.find_one (λ c, Server.owned_by user_id c && is_default c) (Store.cvs db)
       = Some cv) →
  let application :=
    Server.new_application new_id now user_id job_id cv custom_message in
  let db' := Store.with_applications (Store.insert_one application) db in
  Server.apply_to_job new_id now user_id job_id cv_id custom_message db
  = (db', Server.Success new_id)
  ∧ Store.applications db' = (Store.applications db ++ [application])%list
  ∧ status application = PENDING
  ∧ length (Server.active_applications user_id job_id db')
    = S (length (Server.active_applications user_id job_id db)).
Proof.
  intros Hjob Hcv application db'. split; [|split; [done|split; [done|]]].
  - unfold Server.apply_to_job. rewrite Hjob.
    destruct Hcv as [[-> Hne] | [[-> | ->] Hdefault]].
    + by rewrite bool_decide_eq_false_2.
    + by rewrite Hdefault.
    + rewrite bool_decide_eq_true_2 by done. by rewrite Hdefault.
  - unfold Server.active_applications, db'. simpl. unfold Store.insert_one.
    rewrite List.filter_app, length_app. simpl.
    rewrite !bool_decide_eq_true_2 by done. simpl. lia.
Qed.

(** [apply_to_job_adds_application] on sample data: user [u1] applies to
    the stored posting while already having a pending application for it. *)
Lemma apply_to_job_adds_application_witness :
  Server.apply_to_job "a2" 101 "u1" "j1" None None Fixtures.db_ready
  = (Store.with_applications
       (Store.insert_one (Server.new_application "a2" 101 "u1" "j1" "cv-a" None))
       Fixtures.db_ready,
     Server.Success "a2")
  ∧ length (Server.active_applications "u1" "j1"
              (Store.with_applications
                 (Store.insert_one (Server.new_application "a2" 101 "u1" "j1" "cv-a" None))
                 Fixtures.db_ready))
    = S (length (Server.active_applications "u1" "j1" Fixtures.db_ready)).
Proof.
  pose proof (apply_to_job_adds_application "a2" 101 "u1" "j1" None None
                Fixtures.db_ready (doc_of_JobPosting Fixtures.job_acme) "cv-a"
                eq_refl (or_intror (conj (or_introl eq_refl) eq_refl))) as H.
  split; [exact (proj1 H)|exact (proj2 (proj2 (proj2 H)))].
Defined.

(** C8 as stated fails: two requests of the same user for the same
    posting are both answered with a new id and leave two pending
    applications; once their background runs have finished both are
    applied. *)
Lemma second_application_accepted :
  (let '(db1, r1) :=
     Server.apply_to_job "a1" 100 "u1" "j1" None None Fixtures.db_no_application in
   let '(db2, r2) := Server.apply_to_job "a2" 101 "u1" "j1" None None db1 in
   r1 = Server.Success "a1" ∧ r2 = Server.Success "a2"
   ∧ (λ a, (app_id a, status a)) <$> Server.active_applications "u1" "j1" db2
     = [("a1", PENDING); ("a2", PENDING)])
  ∧ (db1 ← Server.apply_and_process Fixtures.failing_provider "a1" 100 "u1" "j1"
             None None Fixtures.db_no_application;
     db2 ← Server.apply_and_process Fixtures.failing_provider "a2" 101 "u1" "j1"
             None None db1;
     Ok ((λ a, (app_id a, status a)) <$> Server.active_applications "u1" "j1" db2))
    = Ok [("a1", APPLIED); ("a2", APPLIED)]
  ∧ ¬ (∀ (id1 id2 : string) now1 now2 user_id job_id cv_id custom_message db,
         id1 ≠ id2 →
         Server.active_applications user_id job_id db = [] →
         length (Server.active_applications user_id job_id
                   (Server.apply_to_job id2 now2 user_id job_id cv_id custom_message
                      (Server.apply_to_job id1 now1 user_id job_id cv_id
                         custom_message db).1).1) ≤ 1).
Proof.
  split; [by vm_compute|]. split; [by vm_compute|].
  intros H.
  specialize (H "a1" "a2" 100%Z 101%Z "u1" "j1" None None Fixtures.db_no_application
                ltac:(done) eq_refl).
  vm_compute in H. lia.
Qed.

(** ** Further properties of the scheduler and the pipeline *)

Lemma unknown_application_rest send_message ai_service application_id now db :
  Store.find_one (Store.has_id application_id) (Store.applications db) = None →
  ApplicationService.process_application send_message ai_service
    application_id now db = Ok db.
Proof.
  intros Hnone.
  unfold ApplicationService.process_application, ApplicationService.process_body.
  by rewrite Hnone.
Qed.

(** X2.  Within one day the counters are reset at most once: a second check on
    the same day changes nothing, and after any check the reset date is not
    earlier than the day of the check. *)
Theorem reset_once_per_day (today : Z) (s : ScraperService.ScraperService) :
  ScraperService._reset_daily_limits today
    (ScraperService._reset_daily_limits today s)
  = ScraperService._reset_daily_limits today s
  ∧ (today ≤ ScraperService.last_reset
               (ScraperService._reset_daily_limits today s))%Z.
Proof.
  destruct (decide (ScraperService.last_reset s < today)%Z) as [Hlater|Hsame].
  - rewrite (reset_new_day today s Hlater).
    rewrite reset_same_day by (simpl; lia). simpl. split; [done|lia].
  - rewrite !(reset_same_day today s) by lia. split; [done|lia].
Qed.

(** X3.  A run of the pipeline always returns, whatever the provider does, and
    if the application record exists its stored status afterwards is
    [APPLIED] or [REJECTED]. *)
Theorem pipeline_reaches_terminal_status
    (send_message : AIService.LlmChat → AIService.Prompt → result string)
    (ai_service : AIService.AIService) (application_id : string) (now : Z)
    (db : Store.DB) :
  ∃ db',
    ApplicationService.process_application send_message ai_service
      application_id now db = Ok db'
    ∧ ∀ application,
        Store.find_one (Store.has_id application_id) (Store.applications db)
          = Some application →
        ∃ application',
          Store.find_one (Store.has_id application_id) (Store.applications db')
            = Some application'
          ∧ (status application' = APPLIED ∨ status application' = REJECTED).
Proof.
  destruct (Store.find_one (Store.has_id application_id) (Store.applications db))
    as [application|] eqn:Happ.
  2:{ exists db. split; [by apply unknown_application_rest|]. intros ? [=]. }
  assert (Hdone : ∀ st note,
            st = APPLIED ∨ st = REJECTED →
            ∀ a, Some application = Some a →
            ∃ a', Store.find_one (Store.has_id application_id)
                    (Store.applications
                       (ApplicationService._update_application_status
                          application_id st note now db)) = Some a'
                  ∧ (status a' = APPLIED ∨ status a' = REJECTED)).
  { intros st note Hst a [= <-]. eexists. split.
    - by apply status_update_lookup.
    - exact Hst. }
  unfold ApplicationService.process_application, ApplicationService.process_body.
  rewrite Happ.
  destruct (Store.find_one _ (Store.jobs db)) as [job_doc|];
    [|eexists; split; [reflexivity|apply Hdone; auto]].
  destruct (Store.find_one _ (Store.cvs db)) as [cv|];
    [|eexists; split; [reflexivity|apply Hdone; auto]].
  destruct (JobPosting_of_doc job_doc) as [job|e]; simpl;
    [|eexists; split; [reflexivity|apply Hdone; auto]].
  destruct (negb (truthy (cover_letter application))).
  - destruct (generate_cover_letter_returns send_message ai_service
                (app_user_id application) cv job) as [letter ->]. simpl.
    destruct (ApplicationService.submit _ job cv now) as [[] local]; simpl;
      eexists; (split; [reflexivity|apply Hdone; auto]).
  - simpl.
    destruct (ApplicationService.submit _ job cv now) as [[] local]; simpl;
      eexists; (split; [reflexivity|apply Hdone; auto]).
Qed.

(** ** The scheduler: what a pass returns and what it records *)

Lemma filter_all_match {A} (P : A → Prop) `{!∀ x, Decision (P x)} (l : list A) :
  Forall P l → filter P l = l.
Proof.
  induction 1 as [|x l Hx _ IH]; [done|].
  by rewrite filter_cons_True, IH.
Qed.

Lemma filter_none_match {A} (P : A → Prop) `{!∀ x, Decision (P x)} (l : list A) :
  Forall (λ x, ¬ P x) l → filter P l = [].
Proof.
  induction 1 as [|x l Hx _ IH]; [done|].
  by rewrite filter_cons_False.
Qed.

Lemma scrape_portal_Forall_portal {unicode : Text.Unicode} p filters page :
  Forall (λ j, portal j = p) (ScraperService.scrape_portal p filters page).
Proof. apply Forall_forall. intros j. apply scrape_portal_portal. Qed.

Lemma dispatch_is_scrape_portal {unicode : Text.Unicode}
    (q : JobPortal) filters page :
  match q with
  | LINKEDIN => ScraperService._scrape_linkedin filters page
  | LABORUM => ScraperService._scrape_laborum filters page
  | BNE => ScraperService._scrape_bne filters page
  | TRABAJANDO => ScraperService._scrape_trabajando filters page
  end = ScraperService.scrape_portal q filters page.
Proof. by destruct q. Qed.

Lemma visit_portals_counts {unicode : Text.Unicode} web filters todo : ∀ i s,
  let '(s', out) := ScraperService.visit_portals web filters i todo s in
  (ScraperService.last_reset s' = ScraperService.last_reset s
   ∧ ∀ p, ScraperService.current_counts s' p
          = ScraperService.current_counts s p
            + length (filter (λ j, portal j = p) (ScraperService.all_jobs out))).
Proof.
  induction todo as [|q todo IH]; intros i s; simpl.
  { split; [done|]. intros p. simpl. lia. }
  destruct (ScraperService.limit_reached s q).
  - specialize (IH (S i) s).
    destruct (ScraperService.visit_portals web filters (S i) todo s) as [s' out].
    exact IH.
  - rewrite dispatch_is_scrape_portal.
    set (jobs := ScraperService.scrape_portal q filters (web i)).
    specialize (IH (S i) (ScraperService.add_count q (length jobs) s)).
    destruct (ScraperService.visit_portals web filters (S i) todo _) as [s' out].
    destruct IH as [Hr Hc]. split; [exact Hr|].
    intros p. rewrite Hc. simpl. rewrite filter_app, length_app.
    pose proof (scrape_portal_Forall_portal q filters (web i)) as Hq.
    fold jobs in Hq. case_bool_decide as Hp.
    + subst p. rewrite (filter_all_match _ jobs) by exact Hq. lia.
    + rewrite (filter_none_match _ jobs); [simpl; lia|].
      eapply Forall_impl; [exact Hq|]. simpl. congruence.
Qed.

(** X5.  The counters record exactly what a pass returns: for every
    portal, the count after [search_jobs] is the count left by the daily
    reset check plus the number of postings of that portal in the result. *)
Theorem counts_track_returned_postings {unicode : Text.Unicode} (today : Z)
    (web : nat → ScraperService.Page) (filters : SearchFilters)
    (s : ScraperService.ScraperService) (p : JobPortal) :
  let '(s', out) := ScraperService.search_jobs today web filters s in
  ScraperService.current_counts s' p
  = ScraperService.current_counts (ScraperService._reset_daily_limits today s) p
    + length (filter (λ j, portal j = p) (ScraperService.all_jobs out)).
Proof.
  unfold ScraperService.search_jobs.
  pose proof (visit_portals_counts web filters (portals filters) 0
                (ScraperService._reset_daily_limits today s)) as H.
  destruct (ScraperService.visit_portals _ _ _ _ _) as [s' out].
  apply H.
Qed.

Lemma scrape_portal_shape {unicode : Text.Unicode} p filters page :
  Forall (λ j, portal j = p ∧ description j = "" ∧ requirements j = []
               ∧ keywords_matched j `sublist_of` keywords filters)
    (ScraperService.scrape_portal p filters page).
Proof.
  apply Forall_forall. intros j.
  destruct page as [cards|]; simpl; [|by intros ?%elem_of_nil].
  intros (c & _ & Hc)%list_elem_of_omap.
  destruct c as [l|]; simplify_eq/=.
  repeat split. apply sublist_filter.
Qed.

Lemma visit_portals_shape {unicode : Text.Unicode} web filters todo : ∀ i s,
  let '(s', out) := ScraperService.visit_portals web filters i todo s in
  (ScraperService.scraped out ⊆ todo
   ∧ Forall (λ j, portal j ∈ todo ∧ description j = "" ∧ requirements j = []
                  ∧ keywords_matched j `sublist_of` keywords filters)
       (ScraperService.all_jobs out)).
Proof.
  induction todo as [|q todo IH]; intros i s; simpl.
  { split; [done|constructor]. }
  destruct (ScraperService.limit_reached s q).
  - specialize (IH (S i) s).
    destruct (ScraperService.visit_portals web filters (S i) todo s) as [s' out].
    destruct IH as [Hs Hj]. unfold ScraperService.scraped in *. simpl. split.
    + set_solver.
    + eapply Forall_impl; [exact Hj|]. simpl. intros j (? & ? & ? & ?).
      repeat split; try done. set_solver.
  - rewrite dispatch_is_scrape_portal.
    set (jobs := ScraperService.scrape_portal q filters (web i)).
    specialize (IH (S i) (ScraperService.add_count q (length jobs) s)).
    destruct (ScraperService.visit_portals web filters (S i) todo _) as [s' out].
    destruct IH as [Hs Hj]. unfold ScraperService.scraped in *. simpl. split.
    + set_solver.
    + apply Forall_app. split.
      * eapply Forall_impl; [apply scrape_portal_shape|]. simpl.
        intros j (-> & ? & ? & ?). repeat split; try done. set_solver.
      * eapply Forall_impl; [exact Hj|]. simpl. intros j (? & ? & ? & ?).
        repeat split; try done. set_solver.
Qed.

(** X6.  A pass queries only the portals listed in the filters, and every
    posting it returns comes from one of them, with an empty description,
    no requirements, and matched keywords that form a sub-list of the
    filters' keywords. *)
Theorem pass_stays_within_filters {unicode : Text.Unicode} (today : Z)
    (web : nat → ScraperService.Page) (filters : SearchFilters)
    (s : ScraperService.ScraperService) :
  let '(s', out) := ScraperService.search_jobs today web filters s in
  ScraperService.scraped out ⊆ portals filters
  ∧ Forall (λ j, portal j ∈ portals filters
                 ∧ description j = "" ∧ requirements j = []
                 ∧ keywords_matched j `sublist_of` keywords filters)
      (ScraperService.all_jobs out).
Proof.
  unfold ScraperService.search_jobs.
  pose proof (visit_portals_shape web filters (portals filters) 0
                (ScraperService._reset_daily_limits today s)) as H.
  destruct (ScraperService.visit_portals _ _ _ _ _) as [s' out].
  exact H.
Qed.

Lemma visit_portals_bounded {unicode : Text.Unicode} web filters todo : ∀ i s,
  Invariants.counts_bounded s →
  Invariants.counts_bounded (ScraperService.visit_portals web filters i todo s).1.
Proof.
  induction todo as [|q todo IH]; intros i s Hs; simpl; [done|].
  destruct (ScraperService.limit_reached s q) eqn:Hq.
  - specialize (IH (S i) s Hs).
    by destruct (ScraperService.visit_portals web filters (S i) todo s).
  - rewrite dispatch_is_scrape_portal.
    set (jobs := ScraperService.scrape_portal q filters (web i)).
    assert (Hs' : Invariants.counts_bounded
                    (ScraperService.add_count q (length jobs) s)).
    { intros p. simpl. case_bool_decide as Hp; [|apply Hs]. subst p.
      pose proof (scrape_portal_length q filters (web i)) as Hlen. fold jobs in Hlen.
      unfold ScraperService.limit_reached in Hq.
      apply bool_decide_eq_false in Hq. lia. }
    specialize (IH (S i) _ Hs').
    by destruct (ScraperService.visit_portals web filters (S i) todo _).
Qed.

Lemma reset_bounded today s :
  Invariants.counts_bounded s →
  Invariants.counts_bounded (ScraperService._reset_daily_limits today s).
Proof.
  intros Hs. unfold ScraperService._reset_daily_limits.
  case_bool_decide; [|done]. intros p. simpl.
  unfold ScraperService.zero_counts. destruct p; simpl; lia.
Qed.

Lemma run_passes_bounded {unicode : Text.Unicode} passes : ∀ s,
  Invariants.counts_bounded s →
  Invariants.counts_bounded (ScraperService.run_passes passes s).1.
Proof.
  induction passes as [|q passes IH]; intros s Hs; simpl; [done|].
  unfold ScraperService.search_jobs.
  pose proof (visit_portals_bounded (ScraperService.pass_web q)
                (ScraperService.pass_filters q)
                (portals (ScraperService.pass_filters q)) 0 _
                (reset_bounded (ScraperService.pass_today q) s Hs)) as H1.
  destruct (ScraperService.visit_portals _ _ _ _ _) as [s1 out]. simpl in H1.
  specialize (IH s1 H1).
  by destruct (ScraperService.run_passes passes s1).
Qed.

(** X7.  Whatever passes a freshly built service goes through (any days,
    any filters, any pages, portals listed more than once), the count of a
    portal never reaches twice its daily ceiling; for LinkedIn the value
    39, one short of it, is reached by a page of 19 cards followed by a
    full page on the same day. *)
Theorem counts_stay_below_twice_the_ceiling {unicode : Text.Unicode} (day : Z)
    (passes : list ScraperService.Pass) (p : JobPortal) :
  ScraperService.current_counts
    (ScraperService.run_passes passes (ScraperService.__init__ day)).1 p
  < 2 * ScraperService.daily_limits p
  ∧ ScraperService.current_counts
      (ScraperService.run_passes
         [ {| ScraperService.pass_today := 5;
              ScraperService.pass_filters := Fixtures.filters_linkedin;
              ScraperService.pass_web :=
                λ _, Some (replicate 19 (Some Fixtures.listing)) |};
           Fixtures.pass_on 5 ]
         (ScraperService.__init__ 5)).1 LINKEDIN = 39.
Proof.
  split.
  - apply run_passes_bounded. intros q. simpl.
    unfold ScraperService.zero_counts. destruct q; simpl; lia.
  - by vm_compute.
Qed.

(** ** The apply route and the pipeline together *)

Lemma find_one_insert_one {A} (query : A → bool) (doc : A) (coll : list A) :
  Store.find_one query (Store.insert_one doc coll)
  = match Store.find_one query coll with
    | Some d => Some d
    | None => if query doc then Some doc else None
    end.
Proof.
  unfold Store.find_one, Store.insert_one.
  induction coll as [|d coll IH]; simpl; [by destruct (query doc)|].
  by destruct (query d).
Qed.

(** X8.  [apply_to_job] refuses a request in two cases only, and then
    writes nothing: with 404 exactly when no posting has the given id, and
    with 400 exactly when the posting exists, no CV id is given (absent or
    empty) and the user has no default CV.  In every other case a pending
    application is appended. *)
Theorem apply_to_job_refusals (new_id : string) (now : Z) (user_id job_id : string)
    (cv_id custom_message : option string) (db : Store.DB) :
  let answer :=
    (Server.apply_to_job new_id now user_id job_id cv_id custom_message db).2 in
  let db' :=
    (Server.apply_to_job new_id now user_id job_id cv_id custom_message db).1 in
  let posting :=
    Store.find_one (λ d, bool_decide (jd_id d = job_id)) (Store.jobs db) in
  let default_cv :=
    Store.find_one (λ c, Server.owned_by user_id c && is_default c) (Store.cvs db) in
  (posting = None →
     answer = Server.HTTPException 404 "Trabajo no encontrado" ∧ db' = db)
  ∧ (is_Some posting → truthy cv_id = false → default_cv = None →
     answer = Server.HTTPException 400 "No hay CV por defecto configurado"
     ∧ db' = db)
  ∧ (is_Some posting → truthy cv_id = true ∨ is_Some default_cv →
     answer = Server.Success new_id
     ∧ length (Store.applications db') = S (length (Store.applications db))
     ∧ Store.cvs db' = Store.cvs db ∧ Store.jobs db' = Store.jobs db).
Proof.
  unfold Server.apply_to_job.
  destruct (Store.find_one _ (Store.jobs db)) as [job|]; simpl.
  2:{ split; [done|]. split; intros [? [=]]. }
  split; [done|].
  destruct cv_id as [id|]; simpl.
  - case_bool_decide as Hid; simpl.
    + destruct (Store.find_one _ (Store.cvs db)) as [c|]; simpl.
      * split; [done|]. intros _ _. unfold Store.insert_one.
        rewrite length_app. simpl. repeat split; [lia|done..].
      * split; [done|]. intros _ [[=] | [? [=]]].
    + split; [done|]. intros _ _. unfold Store.insert_one.
      rewrite length_app. simpl. repeat split; [lia|done..].
  - destruct (Store.find_one _ (Store.cvs db)) as [c|]; simpl.
    + split; [done|]. intros _ _. unfold Store.insert_one.
      rewrite length_app. simpl. repeat split; [lia|done..].
    + split; [done|]. intros _ [[=] | [? [=]]].
Qed.

(** The refusals of [apply_to_job] on sample data: an unknown posting, and
    a user without default CV. *)
Lemma apply_to_job_refusals_witness :
  (Server.apply_to_job "a2" 101 "u1" "j-gone" None None Fixtures.db_ready).2
  = Server.HTTPException 404 "Trabajo no encontrado"
  ∧ (Server.apply_to_job "a2" 101 "u2" "j1" (Some "") None Fixtures.db_ready).2
    = Server.HTTPException 400 "No hay CV por defecto configurado"
  ∧ (Server.apply_to_job "a2" 101 "u1" "j1" None None Fixtures.db_ready).2
    = Server.Success "a2".
Proof.
  split; [|split].
  - apply (apply_to_job_refusals "a2" 101 "u1" "j-gone" None None Fixtures.db_ready).
    reflexivity.
  - apply (apply_to_job_refusals "a2" 101 "u2" "j1" (Some "") None Fixtures.db_ready);
      [by eexists|reflexivity..].
  - apply (apply_to_job_refusals "a2" 101 "u1" "j1" None None Fixtures.db_ready);
      [by eexists|right; by eexists].
Defined.

(** X9.  [apply_to_job] does not look the given CV up: a request naming
    a CV id that no stored CV has is accepted, and the background run of
    the new application then ends rejected with "Datos incompletos". *)
Theorem apply_with_unknown_cv_ends_rejected
    (send_message : AIService.LlmChat → AIService.Prompt → result string)
    (new_id : string) (now : Z) (user_id job_id cv : string)
    (custom_message : option string) (db : Store.DB) :
  is_Some (Store.find_one (λ d, bool_decide (jd_id d = job_id)) (Store.jobs db)) →
  cv ≠ "" →
  Store.find_one (λ d, bool_decide (cv_id d = cv)) (Store.cvs db) = None →
  Store.find_one (Store.has_id new_id) (Store.applications db) = None →
  (Server.apply_to_job new_id now user_id job_id (Some cv) custom_message db).2
  = Server.Success new_id
  ∧ ∃ db' application',
      Server.apply_and_process send_message new_id now user_id job_id (Some cv)
        custom_message db = Ok db'
      ∧ Store.find_one (Store.has_id new_id) (Store.applications db')
        = Some application'
      ∧ cv_used application' = cv
      ∧ status application' = REJECTED
      ∧ notes application' = Some "Datos incompletos".
Proof.
  intros [job Hjob] Hcv Hnone Hfresh.
  unfold Server.apply_and_process, Server.apply_to_job. rewrite Hjob.
  rewrite bool_decide_eq_false_2 by done. simpl. split; [done|].
  set (application :=
         Server.new_application new_id now user_id job_id cv custom_message).
  set (db1 := Store.with_applications (Store.insert_one application) db).
  assert (Happ : Store.find_one (Store.has_id new_id) (Store.applications db1)
                 = Some application).
  { unfold db1. simpl. rewrite find_one_insert_one, Hfresh.
    unfold Store.has_id. simpl. by rewrite bool_decide_eq_true_2. }
  exists (ApplicationService._update_application_status new_id REJECTED
            "Datos incompletos" now db1),
         (ApplicationService.set_status REJECTED "Datos incompletos" now application).
  split.
  - unfold ApplicationService.process_application, ApplicationService.process_body.
    rewrite Happ. simpl. rewrite Hnone.
    by destruct (Store.find_one _ (Store.jobs db)).
  - split; [by apply status_update_lookup|]. done.
Qed.

(** [apply_with_unknown_cv_ends_rejected] on sample data: user [u1]
    applies with the id of a CV that was never stored. *)
Lemma apply_with_unknown_cv_ends_rejected_witness :
  ∃ db' application',
    Server.apply_and_process Fixtures.failing_provider "a2" 101 "u1" "j1"
      (Some "cv-none") None Fixtures.db_ready = Ok db'
    ∧ Store.find_one (Store.has_id "a2") (Store.applications db') = Some application'
    ∧ cv_used application' = "cv-none"
    ∧ status application' = REJECTED
    ∧ notes application' = Some "Datos incompletos".
Proof.
  apply (apply_with_unknown_cv_ends_rejected Fixtures.failing_provider "a2" 101
           "u1" "j1" "cv-none" None Fixtures.db_ready);
    [by eexists|done|reflexivity..].
Defined.

Lemma update_one_Forall2 {A} (query : A → bool) (set : A → A) (coll : list A) :
  Forall2 (λ d d', d' = d ∨ (query d = true ∧ d' = set d))
    coll (Store.update_one query set coll).
Proof.
  induction coll as [|d coll IH]; simpl; [constructor|].
  destruct (query d) eqn:Hd.
  - constructor; [by right|]. apply Forall2_same_length_lookup_2; [done|].
    intros i x y Hx Hy. left. congruence.
  - constructor; [by left|exact IH].
Qed.

Lemma update_one_fmap_invariant {A B} (query : A → bool) (set : A → A)
    (key : A → B) (coll : list A) :
  (∀ d, key (set d) = key d) →
  key <$> Store.update_one query set coll = key <$> coll.
Proof.
  intros Hkey. induction coll as [|d coll IH]; simpl; [done|].
  destruct (query d); csimpl; [by rewrite Hkey|by rewrite IH].
Qed.

(** X10.  [update_cv] rewrites at most the first CV with the given id and
    never its id or its owner: the ids and the owners of the stored CVs,
    the postings and the applications are the same afterwards.  When no CV
    has the id it answers 404 and the store is unchanged; otherwise it
    answers with the rewritten CV. *)
Theorem update_cv_keeps_ids_and_owners (now : Z) (id : string)
    (cv_data : CVDataCreate) (db : Store.DB) :
  let db' := (Server.update_cv now id cv_data db).1 in
  let answer := (Server.update_cv now id cv_data db).2 in
  cv_id <$> Store.cvs db' = cv_id <$> Store.cvs db
  ∧ cv_user_id <$> Store.cvs db' = cv_user_id <$> Store.cvs db
  ∧ Store.jobs db' = Store.jobs db
  ∧ Store.applications db' = Store.applications db
  ∧ Forall2 (λ c c', c' = c ∨ (cv_id c = id ∧ c' = Server.set_cv_fields cv_data now c))
      (Store.cvs db) (Store.cvs db')
  ∧ (Store.find_one (Server.cv_has_id id) (Store.cvs db) = None →
     answer = Server.HTTPException 404 "CV no encontrado" ∧ db' = db)
  ∧ (∀ c, Store.find_one (Server.cv_has_id id) (Store.cvs db) = Some c →
          answer = Server.Success (Server.set_cv_fields cv_data now c)).
Proof.
  assert (Hdb : (Server.update_cv now id cv_data db).1
                = Store.with_cvs
                    (Store.update_one (Server.cv_has_id id)
                       (Server.set_cv_fields cv_data now)) db).
  { unfold Server.update_cv. case_bool_decide; [done|].
    by destruct (Store.find_one _ _). }
  simpl. rewrite Hdb. simpl.
  split; [by apply update_one_fmap_invariant|].
  split; [by apply update_one_fmap_invariant|].
  split; [done|]. split; [done|]. split.
  { eapply Forall2_impl; [apply update_one_Forall2|]. simpl.
    intros c c' [->|[Hc ->]]; [by left|right].
    split; [|done]. unfold Server.cv_has_id in Hc. by apply bool_decide_eq_true in Hc. }
  split.
  - intros Hnone. unfold Server.update_cv, Store.matched_count. rewrite Hnone.
    rewrite bool_decide_eq_true_2 by done. simpl. split; [done|].
    unfold Store.with_cvs. rewrite update_one_no_match by done. by destruct db.
  - intros c Hc. unfold Server.update_cv, Store.matched_count. rewrite Hc.
    rewrite bool_decide_eq_false_2 by done. simpl.
    rewrite find_one_update_one by done. by rewrite Hc.
Qed.

(** The conditional parts of [update_cv_keeps_ids_and_owners] on sample
    data: an unknown id, and the id of a stored CV. *)
Lemma update_cv_keeps_ids_and_owners_witness :
  (Server.update_cv 300 "cv-z" Fixtures.cv_update_default Fixtures.db_ready).2
  = Server.HTTPException 404 "CV no encontrado"
  ∧ (Server.update_cv 300 "cv-b" Fixtures.cv_update_default Fixtures.db_ready).2
    = Server.Success
        (Server.set_cv_fields Fixtures.cv_update_default 300 Fixtures.cv_ana_b).
Proof.
  split.
  - apply (update_cv_keeps_ids_and_owners 300 "cv-z" Fixtures.cv_update_default
             Fixtures.db_ready). reflexivity.
  - apply (update_cv_keeps_ids_and_owners 300 "cv-b" Fixtures.cv_update_default
             Fixtures.db_ready). reflexivity.
Defined.

Lemma process_application_cases send_message ai_service application_id now db :
  ApplicationService.process_application send_message ai_service
    application_id now db = Ok db
  ∨ ∃ st note,
      ApplicationService.process_application send_message ai_service
        application_id now db
      = Ok (ApplicationService._update_application_status application_id st note
              now db).
Proof.
  unfold ApplicationService.process_application, ApplicationService.process_body.
  destruct (Store.find_one _ (Store.applications db)) as [application|];
    [|by left].
  right.
  destruct (Store.find_one _ (Store.jobs db)) as [job_doc|]; [|by eauto].
  destruct (Store.find_one _ (Store.cvs db)) as [cv|]; [|by eauto].
  destruct (JobPosting_of_doc job_doc) as [job|e]; simpl; [|by eauto].
  destruct (negb (truthy (cover_letter application))).
  - destruct (generate_cover_letter_returns send_message ai_service
                (app_user_id application) cv job) as [letter ->]. simpl.
    destruct (ApplicationService.submit _ job cv now) as [[] local]; simpl; eauto.
  - simpl.
    destruct (ApplicationService.submit _ job cv now) as [[] local]; simpl; eauto.
Qed.

(** X11.  A pipeline run writes to one application record at most.  The
    CVs and postings are untouched, no application is added or removed,
    every record other than the first one with the given id is left as it
    was, and that one changes in [status], [notes], [last_update] and
    [applied_at] only: the cover letter the run generates and the portal
    data it computes never reach the store. *)
Theorem pipeline_touches_one_record
    (send_message : AIService.LlmChat → AIService.Prompt → result string)
    (ai_service : AIService.AIService) (application_id : string) (now : Z)
    (db : Store.DB) :
  ∃ db',
    ApplicationService.process_application send_message ai_service
      application_id now db = Ok db'
    ∧ Store.cvs db' = Store.cvs db
    ∧ Store.jobs db' = Store.jobs db
    ∧ Forall2 (λ a a',
                 a' = a
                 ∨ (app_id a = application_id
                    ∧ ∃ st note, a' = ApplicationService.set_status st note now a))
        (Store.applications db) (Store.applications db').
Proof.
  destruct (process_application_cases send_message ai_service application_id now db)
    as [H | (st & note & H)]; rewrite H; eexists; (split; [reflexivity|]).
  - repeat split. apply Forall2_same_length_lookup_2; [done|].
    intros i x y Hx Hy. left. congruence.
  - repeat split. simpl.
    eapply Forall2_impl; [apply update_one_Forall2|]. simpl.
    intros a a' [->|[Ha ->]]; [by left|right]. split; [|by eauto].
    unfold Store.has_id in Ha. by apply bool_decide_eq_true in Ha.
Qed.

(** ** The other CV and application routes *)

Lemma List_filter_stdpp {A} (f : A → bool) (l : list A) :
  List.filter f l = filter (λ x, f x = true) l.
Proof.
  induction l as [|x l IH]; [done|]. simpl.
  destruct (f x) eqn:Hx.
  - rewrite filter_cons_True by done. by rewrite IH.
  - rewrite filter_cons_False by (rewrite Hx; done). exact IH.
Qed.

Lemma find_to_list_spec {A} (f : A → bool) (n : nat) (l : list A) :
  Forall (λ x, f x = true) (Routes.find_to_list f n l)
  ∧ Routes.find_to_list f n l `sublist_of` l
  ∧ length (Routes.find_to_list f n l) ≤ n
  ∧ (length (List.filter f l) ≤ n → Routes.find_to_list f n l = List.filter f l).
Proof.
  unfold Routes.find_to_list. rewrite List_filter_stdpp. repeat split.
  - apply Forall_forall. intros x Hx.
    apply subseteq_take in Hx. by apply list_elem_of_filter in Hx as [? _].
  - etrans; [apply sublist_take|apply sublist_filter].
  - rewrite length_take. lia.
  - intros Hn. by apply take_ge.
Qed.

Lemma find_many_spec {A} (f : A → bool) (skip limit : nat) (l : list A) :
  Forall (λ x, f x = true) (Store.find_many f skip limit l)
  ∧ Store.find_many f skip limit l `sublist_of` l
  ∧ length (Store.find_many f skip limit l) ≤ limit.
Proof.
  unfold Store.find_many. rewrite List_filter_stdpp. repeat split.
  - apply Forall_forall. intros x Hx.
    apply subseteq_take, subseteq_drop in Hx.
    by apply list_elem_of_filter in Hx as [? _].
  - etrans; [apply sublist_take|]. etrans; [apply sublist_drop|apply sublist_filter].
  - rewrite length_take. lia.
Qed.

(** X12.  The CV listing and the application listing are per user: every
    document they return belongs to the requesting user (and has the
    requested status, when one is given), in the order of the store; the
    CV listing holds at most 100 CVs, and all of the user's CVs when there
    are no more than that; the application listing holds at most [limit]
    applications. *)
Theorem listings_are_per_user (user_id : string) (st : option ApplicationStatus)
    (limit skip : nat) (db : Store.DB) :
  Forall (λ c, cv_user_id c = user_id) (Routes.get_user_cvs user_id db)
  ∧ Routes.get_user_cvs user_id db `sublist_of` Store.cvs db
  ∧ length (Routes.get_user_cvs user_id db) ≤ 100
  ∧ (length (List.filter (Server.owned_by user_id) (Store.cvs db)) ≤ 100 →
     ∀ c, c ∈ Store.cvs db → cv_user_id c = user_id →
          c ∈ Routes.get_user_cvs user_id db)
  ∧ Forall (λ a, app_user_id a = user_id ∧ ∀ s, st = Some s → status a = s)
      (Routes.get_user_applications user_id st limit skip db)
  ∧ Routes.get_user_applications user_id st limit skip db
    `sublist_of` Store.applications db
  ∧ length (Routes.get_user_applications user_id st limit skip db) ≤ limit.
Proof.
  unfold Routes.get_user_cvs, Routes.get_user_applications.
  destruct (find_to_list_spec (Server.owned_by user_id) 100 (Store.cvs db))
    as (Hown & Hsub & Hlen & Hall).
  destruct (find_many_spec (Routes.applications_query user_id st) skip limit
              (Store.applications db)) as (Hq & Hsub' & Hlen').
  split; [|split; [done|split; [done|split; [|split; [|done]]]]].
  - eapply Forall_impl; [exact Hown|]. simpl. intros c Hc.
    unfold Server.owned_by in Hc. by apply bool_decide_eq_true in Hc.
  - intros Hfew c Hin Hc. rewrite (Hall Hfew), List_filter_stdpp.
    apply list_elem_of_filter. split; [|done].
    unfold Server.owned_by. by apply bool_decide_eq_true.
  - eapply Forall_impl; [exact Hq|]. simpl. intros a Ha.
    unfold Routes.applications_query in Ha.
    apply andb_true_iff in Ha as [Hu Hs]. apply bool_decide_eq_true in Hu.
    split; [done|]. intros s ->. by apply bool_decide_eq_true in Hs.
Qed.

(** The conditional part of [listings_are_per_user] on sample data: both
    CVs of user [u1] are listed. *)
Lemma listings_are_per_user_witness :
  Fixtures.cv_ana_b ∈ Routes.get_user_cvs "u1" Fixtures.db_ready.
Proof.
  apply (listings_are_per_user "u1" None 0 0 Fixtures.db_ready).
  - vm_compute. lia.
  - vm_compute. apply list_elem_of_further, list_elem_of_here.
  - reflexivity.
Defined.

Lemma delete_one_no_match {A} (query : A → bool) (coll : list A) :
  Store.find_one query coll = None → Routes.delete_one query coll = coll.
Proof.
  induction coll as [|d coll IH]; simpl; [done|].
  destruct (query d); [done|]. intros H. by rewrite IH.
Qed.

Lemma delete_one_match {A} (query : A → bool) (coll : list A) (d : A) :
  Store.find_one query coll = Some d →
  coll ≡ₚ d :: Routes.delete_one query coll
  ∧ Routes.delete_one query coll `sublist_of` coll.
Proof.
  induction coll as [|x coll IH]; simpl; [done|].
  destruct (query x).
  - intros [= ->]. split; [done|]. by apply sublist_cons.
  - intros H. destruct (IH H) as [Hp Hs]. split.
    + rewrite Hp at 1. apply Permutation_swap.
    + by apply sublist_skip.
Qed.

(** With distinct keys, nothing with the deleted key is left. *)
Lemma find_one_absent_key {A} (key : A → string) (id : string) (coll : list A) :
  id ∉ key <$> coll →
  Store.find_one (λ d, bool_decide (key d = id)) coll = None.
Proof.
  induction coll as [|y coll IH]; [done|].
  rewrite fmap_cons. intros [Hne Hx]%not_elem_of_cons. simpl.
  rewrite bool_decide_eq_false_2 by done. auto.
Qed.

Lemma delete_one_unique {A} (key : A → string) (id : string) (coll : list A) :
  Invariants.unique_key key coll →
  Store.find_one (λ d, bool_decide (key d = id))
    (Routes.delete_one (λ d, bool_decide (key d = id)) coll) = None.
Proof.
  unfold Invariants.unique_key.
  induction coll as [|x coll IH]; [done|].
  rewrite fmap_cons. intros [Hx Hnd]%NoDup_cons. simpl.
  case_bool_decide as Hid.
  - subst id. by apply find_one_absent_key.
  - simpl. rewrite bool_decide_eq_false_2 by done. auto.
Qed.

(** X13.  [delete_cv] answers 404 and leaves the store unchanged when no
    CV has the id; otherwise it removes exactly one CV, the first with
    that id, keeps the other CVs in order and does not touch postings or
    applications, even those that use the CV.  When CV ids are distinct,
    [get_cv] on the same id answers 404 afterwards. *)
Theorem delete_cv_removes_one_cv (id : string) (db : Store.DB) :
  let db' := (Routes.delete_cv id db).1 in
  let answer := (Routes.delete_cv id db).2 in
  Store.jobs db' = Store.jobs db
  ∧ Store.applications db' = Store.applications db
  ∧ (Store.find_one (Server.cv_has_id id) (Store.cvs db) = None →
     answer = Server.HTTPException 404 "CV no encontrado" ∧ db' = db)
  ∧ (∀ c, Store.find_one (Server.cv_has_id id) (Store.cvs db) = Some c →
          answer = Server.Success "CV eliminado exitosamente"
          ∧ Store.cvs db ≡ₚ c :: Store.cvs db'
          ∧ Store.cvs db' `sublist_of` Store.cvs db)
  ∧ (Invariants.unique_key cv_id (Store.cvs db) →
     Routes.get_cv id db' = Server.HTTPException 404 "CV no encontrado").
Proof.
  assert (Hdb : (Routes.delete_cv id db).1
                = Store.with_cvs (Routes.delete_one (Server.cv_has_id id)) db).
  { unfold Routes.delete_cv. by case_bool_decide. }
  simpl. rewrite Hdb. simpl. split; [done|]. split; [done|]. split; [|split].
  - intros Hnone. unfold Routes.delete_cv, Routes.deleted_count. rewrite Hnone.
    simpl. split; [done|]. unfold Store.with_cvs.
    rewrite delete_one_no_match by done. by destruct db.
  - intros c Hc. unfold Routes.delete_cv, Routes.deleted_count. rewrite Hc.
    simpl. split; [done|]. by apply delete_one_match.
  - intros Huniq. unfold Routes.get_cv. simpl.
    unfold Server.cv_has_id.
    by rewrite (delete_one_unique cv_id id (Store.cvs db) Huniq).
Qed.

(** The conditional parts of [delete_cv_removes_one_cv] on sample data. *)
Lemma delete_cv_removes_one_cv_witness :
  (Routes.delete_cv "cv-z" Fixtures.db_ready).2
  = Server.HTTPException 404 "CV no encontrado"
  ∧ (Routes.delete_cv "cv-a" Fixtures.db_ready).2
    = Server.Success "CV eliminado exitosamente"
  ∧ Routes.get_cv "cv-a" (Routes.delete_cv "cv-a" Fixtures.db_ready).1
    = Server.HTTPException 404 "CV no encontrado".
Proof.
  split; [|split].
  - apply (delete_cv_removes_one_cv "cv-z" Fixtures.db_ready). reflexivity.
  - apply (delete_cv_removes_one_cv "cv-a" Fixtures.db_ready) with Fixtures.cv_ana.
    reflexivity.
  - apply (delete_cv_removes_one_cv "cv-a" Fixtures.db_ready).
    unfold Invariants.unique_key. simpl.
    repeat constructor; set_solver.
Defined.

(** X14.  Deleting the CV a stored application uses makes the next
    pipeline run of that application end rejected with "Datos
    incompletos" (CV ids being distinct). *)
Theorem deleting_cv_in_use_rejects_application
    (send_message : AIService.LlmChat → AIService.Prompt → result string)
    (ai_service : AIService.AIService) (application_id : string) (now : Z)
    (db : Store.DB) (application : JobApplication) :
  Invariants.unique_key cv_id (Store.cvs db) →
  Store.find_one (Store.has_id application_id) (Store.applications db)
    = Some application →
  ∃ db' application',
    ApplicationService.process_application send_message ai_service
      application_id now (Routes.delete_cv (cv_used application) db).1 = Ok db'
    ∧ Store.find_one (Store.has_id application_id) (Store.applications db')
      = Some application'
    ∧ status application' = REJECTED
    ∧ notes application' = Some "Datos incompletos".
Proof.
  intros Huniq Happ.
  assert (Hdb : (Routes.delete_cv (cv_used application) db).1
                = Store.with_cvs
                    (Routes.delete_one (Server.cv_has_id (cv_used application))) db).
  { unfold Routes.delete_cv. by case_bool_decide. }
  rewrite Hdb.
  set (db1 := Store.with_cvs _ db).
  assert (Happ1 : Store.find_one (Store.has_id application_id)
                    (Store.applications db1) = Some application) by done.
  exists (ApplicationService._update_application_status application_id REJECTED
            "Datos incompletos" now db1),
         (ApplicationService.set_status REJECTED "Datos incompletos" now application).
  split.
  - unfold ApplicationService.process_application, ApplicationService.process_body.
    rewrite Happ1.
    assert (Hcv : Store.find_one
                    (λ d, bool_decide (cv_id d = cv_used application))
                    (Store.cvs db1) = None).
    { exact (delete_one_unique cv_id (cv_used application) (Store.cvs db) Huniq). }
    rewrite Hcv.
    destruct (Store.find_one _ (Store.jobs db1)); reflexivity.
  - split; [by apply status_update_lookup|]. done.
Qed.

(** [deleting_cv_in_use_rejects_application] on sample data: the CV of
    the pending application [a1] is deleted before its run. *)
Lemma deleting_cv_in_use_rejects_application_witness :
  ∃ db' application',
    ApplicationService.process_application Fixtures.failing_provider
      AIService.__init__ "a1" 200 (Routes.delete_cv "cv-a" Fixtures.db_ready).1
    = Ok db'
    ∧ Store.find_one (Store.has_id "a1") (Store.applications db') = Some application'
    ∧ status application' = REJECTED
    ∧ notes application' = Some "Datos incompletos".
Proof.
  apply (deleting_cv_in_use_rejects_application Fixtures.failing_provider
           AIService.__init__ "a1" 200 Fixtures.db_ready
           (Fixtures.pending_app "a1" "u1" "j1" "cv-a")).
  - unfold Invariants.unique_key. simpl. repeat constructor; set_solver.
  - reflexivity.
Defined.

(** ** Search filters: starting and stopping the automatic search *)

Lemma start_automatic_search_existsb user_id search_filters :
  Routes.start_automatic_search user_id search_filters
  = if existsb (λ f, Routes.filters_of user_id f
                     && is_active (Routes.filters_doc f)) search_filters
    then Server.Success "Búsqueda automática iniciada"
    else Server.HTTPException 400 "No hay filtros de búsqueda activos configurados".
Proof.
  unfold Routes.start_automatic_search, Store.find_one.
  induction search_filters as [|f fs IH]; simpl; [done|].
  by destruct (Routes.filters_of user_id f && is_active (Routes.filters_doc f)).
Qed.

Lemma existsb_update_one {A} (q p : A → bool) (g : A → A) (l : list A) :
  (∀ d, q (g d) = q d) →
  existsb q (Store.update_one p g l) = existsb q l.
Proof.
  intros Hq. induction l as [|d l IH]; simpl; [done|].
  destruct (p d); simpl; [by rewrite Hq|by rewrite IH].
Qed.

Lemma existsb_update_many {A} (q p : A → bool) (g : A → A) (l : list A) :
  (∀ d, p d = true → q (g d) = q d) →
  existsb q (Store.update_many p g l) = existsb q l.
Proof.
  intros Hq. unfold Store.update_many.
  induction l as [|d l IH]; simpl; [done|].
  rewrite IH. destruct (p d) eqn:Hp; [by rewrite Hq|done].
Qed.

Lemma update_many_Forall2 {A} (p : A → bool) (g : A → A) (l : list A) :
  Forall2 (λ d d', d' = d ∨ (p d = true ∧ d' = g d)) l (Store.update_many p g l).
Proof.
  unfold Store.update_many. induction l as [|d l IH]; simpl; [constructor|].
  constructor; [|exact IH]. destruct (p d); [by right|by left].
Qed.

(** X15.  After [stop_automatic_search] for a user, [start_automatic_search]
    for that user answers 400, whatever filters were stored; every filter
    of that user is deactivated and nothing else changes, so the answer to
    any other user is what it was. *)
Theorem stop_search_blocks_start (now : Z) (user_id : string)
    (search_filters : list Routes.StoredFilters) :
  let search_filters' :=
    (Routes.stop_automatic_search now user_id search_filters).1 in
  Routes.start_automatic_search user_id search_filters'
  = Server.HTTPException 400 "No hay filtros de búsqueda activos configurados"
  ∧ (∀ other, other ≠ user_id →
       Routes.start_automatic_search other search_filters'
       = Routes.start_automatic_search other search_filters)
  ∧ Forall2 (λ f f',
               f' = f
               ∨ (sf_user_id (Routes.filters_doc f) = user_id
                  ∧ f' = Routes.deactivate now f))
      search_filters search_filters'.
Proof.
  simpl. split; [|split].
  - rewrite start_automatic_search_existsb.
    assert (H : existsb (λ f, Routes.filters_of user_id f
                              && is_active (Routes.filters_doc f))
                  (Store.update_many (Routes.filters_of user_id)
                     (Routes.deactivate now) search_filters) = false).
    { unfold Store.update_many.
      induction search_filters as [|f fs IH]; simpl; [done|].
      rewrite IH. destruct (Routes.filters_of user_id f) eqn:Hf; simpl.
      - by rewrite andb_false_r.
      - by rewrite Hf. }
    by rewrite H.
  - intros other Hother. rewrite !start_automatic_search_existsb.
    rewrite existsb_update_many; [done|].
    intros f Hf. unfold Routes.filters_of in *. simpl.
    apply bool_decide_eq_true in Hf.
    rewrite !bool_decide_eq_false_2 by congruence. done.
  - eapply Forall2_impl; [apply update_many_Forall2|]. simpl.
    intros f f' [->|[Hf ->]]; [by left|right]. split; [|done].
    unfold Routes.filters_of in Hf. by apply bool_decide_eq_true in Hf.
Qed.

(** The conditional part of [stop_search_blocks_start] on sample data:
    stopping the search of [u1] leaves that of [u2] startable. *)
Lemma stop_search_blocks_start_witness :
  Routes.start_automatic_search "u2"
    (Routes.stop_automatic_search 20 "u1" Samples.stored_filters).1
  = Server.Success "Búsqueda automática iniciada".
Proof.
  rewrite (proj1 (proj2 (stop_search_blocks_start 20 "u1" Samples.stored_filters))
             "u2" ltac:(done)).
  reflexivity.
Defined.

(** X16.  [update_search_filters] never changes the id, the owner or the
    [is_active] flag of a stored filter, so it changes no user's answer
    from [start_automatic_search]: a search that was stopped is not
    re-enabled by updating a filter.  Creating a filter does re-enable it,
    since new filters are active. *)
Theorem update_search_filters_keeps_activation (now : Z) (filter_id : string)
    (filters_data : Routes.SearchFiltersCreate)
    (search_filters : list Routes.StoredFilters) (user_id : string) :
  let search_filters' :=
    (Routes.update_search_filters now filter_id filters_data search_filters).1 in
  (λ f, (Routes.filters_id f, sf_user_id (Routes.filters_doc f),
         is_active (Routes.filters_doc f))) <$> search_filters'
  = (λ f, (Routes.filters_id f, sf_user_id (Routes.filters_doc f),
           is_active (Routes.filters_doc f))) <$> search_filters
  ∧ Routes.start_automatic_search user_id search_filters'
    = Routes.start_automatic_search user_id search_filters
  ∧ (∀ new_id,
       Routes.start_automatic_search user_id
         (Routes.create_search_filters new_id now user_id filters_data
            search_filters').1
       = Server.Success "Búsqueda automática iniciada").
Proof.
  assert (Hfs : (Routes.update_search_filters now filter_id filters_data
                   search_filters).1
                = Store.update_one (Routes.has_filters_id filter_id)
                    (Routes.set_filters_fields filters_data now) search_filters).
  { unfold Routes.update_search_filters. case_bool_decide; [done|].
    by destruct (Store.find_one _ _). }
  simpl. rewrite Hfs. split; [|split].
  - by apply update_one_fmap_invariant.
  - rewrite !start_automatic_search_existsb.
    by rewrite existsb_update_one.
  - intros new_id. rewrite start_automatic_search_existsb. simpl.
    unfold Store.insert_one. rewrite existsb_app. simpl.
    unfold Routes.filters_of at 2. simpl.
    rewrite bool_decide_eq_true_2 by done. simpl. by rewrite orb_true_r.
Qed.

(** ** AI configuration *)

Lemma delete_many_insert_filter {A} (q : A → bool) (doc : A) (coll : list A) :
  q doc = true →
  List.filter q (Store.insert_one doc (Routes.delete_many q coll)) = [doc].
Proof.
  intros Hdoc. unfold Store.insert_one, Routes.delete_many.
  rewrite List.filter_app. simpl. rewrite Hdoc.
  assert (H : List.filter q (List.filter (λ d, negb (q d)) coll) = []).
  { induction coll as [|d coll IH]; simpl; [done|].
    destruct (q d) eqn:Hd; simpl; [done|]. by rewrite Hd. }
  by rewrite H.
Qed.

Lemma delete_many_insert_other {A} (q r : A → bool) (doc : A) (coll : list A) :
  r doc = false →
  (∀ d, r d = true → q d = false) →
  List.filter r (Store.insert_one doc (Routes.delete_many q coll))
  = List.filter r coll.
Proof.
  intros Hdoc Hdisj. unfold Store.insert_one, Routes.delete_many.
  rewrite List.filter_app. simpl. rewrite Hdoc, app_nil_r.
  induction coll as [|d coll IH]; simpl; [done|].
  destruct (r d) eqn:Hr.
  - rewrite (Hdisj d Hr). simpl. by rewrite Hr, IH.
  - destruct (q d); simpl; [done|]. by rewrite Hr.
Qed.

Lemma find_one_filter_head {A} (q : A → bool) (coll : list A) (doc : A) :
  List.filter q coll = [doc] → Store.find_one q coll = Some doc.
Proof.
  unfold Store.find_one. induction coll as [|d coll IH]; simpl; [done|].
  destruct (q d); [by intros [= ->]|done].
Qed.

Lemma update_config_cases LlmChat_init user_id config st :
  ∃ st',
    AIConfiguration.update_config LlmChat_init user_id config st = Ok st'
    ∧ AIConfiguration.user_configs st'
      = <[user_id := config]> (AIConfiguration.user_configs st).
Proof.
  unfold AIConfiguration.update_config.
  destruct (AIConfiguration.gemini_api_key config) as [key|]; [|by eauto].
  case_bool_decide; [by eauto|].
  destruct (LlmChat_init key _ _); simpl; eauto.
Qed.

(** X17.  [create_ai_config] always answers with the new configuration,
    and afterwards it is the only stored configuration of that user: the
    earlier ones are replaced, those of other users are kept, and
    [get_ai_config] returns the new one. *)
Theorem create_ai_config_keeps_one_config
    (LlmChat_init : string → string → string → result unit)
    (new_id : string) (now : Z) (user_id : string)
    (config_data : AIConfiguration.AIConfigCreate)
    (ai_config : list AIConfiguration.AIConfig) (st : AIConfiguration.AIState) :
  ∃ ai_config' st',
    AIConfiguration.create_ai_config LlmChat_init new_id now user_id config_data
      ai_config st
    = Ok (ai_config', st',
          AIConfiguration.new_config new_id now user_id config_data)
    ∧ List.filter (AIConfiguration.config_of user_id) ai_config'
      = [AIConfiguration.new_config new_id now user_id config_data]
    ∧ (∀ other, other ≠ user_id →
         List.filter (AIConfiguration.config_of other) ai_config'
         = List.filter (AIConfiguration.config_of other) ai_config)
    ∧ AIConfiguration.get_ai_config user_id ai_config'
      = Server.Success (AIConfiguration.new_config new_id now user_id config_data).
Proof.
  set (config := AIConfiguration.new_config new_id now user_id config_data).
  assert (Hmine : AIConfiguration.config_of user_id config = true).
  { unfold AIConfiguration.config_of. by apply bool_decide_eq_true. }
  pose proof (delete_many_insert_filter (AIConfiguration.config_of user_id)
                config ai_config Hmine) as Hone.
  assert (∃ st', AIConfiguration.create_ai_config LlmChat_init new_id now user_id
                   config_data ai_config st
                 = Ok (Store.insert_one config
                         (Routes.delete_many (AIConfiguration.config_of user_id)
                            ai_config), st', config)) as [st' Hst'].
  { unfold AIConfiguration.create_ai_config. fold config.
    destruct (truthy (AIConfiguration.gemini_api_key config)); [|by eauto].
    destruct (update_config_cases LlmChat_init user_id config st) as (st' & -> & _).
    simpl. eauto. }
  eexists _, st'. split; [exact Hst'|]. split; [exact Hone|]. split.
  - intros other Hother. apply delete_many_insert_other.
    + unfold AIConfiguration.config_of. by apply bool_decide_eq_false.
    + intros d Hd. unfold AIConfiguration.config_of in *.
      apply bool_decide_eq_true in Hd. apply bool_decide_eq_false. congruence.
  - unfold AIConfiguration.get_ai_config.
    by rewrite (find_one_filter_head _ _ _ Hone).
Qed.

(** The conditional part of [create_ai_config_keeps_one_config] on sample
    data: replacing the configuration of [u1] keeps that of [u2]. *)
Lemma create_ai_config_keeps_one_config_witness :
  ∃ ai_config' st',
    AIConfiguration.create_ai_config Samples.chat_ok "c2" 2 "u1"
      Samples.config_without_key Samples.stored_configs Samples.ai_state_u1
    = Ok (ai_config', st',
          AIConfiguration.new_config "c2" 2 "u1" Samples.config_without_key)
    ∧ List.filter (AIConfiguration.config_of "u2") ai_config'
      = [AIConfiguration.new_config "c0" 0 "u2" Samples.config_without_key].
Proof.
  destruct (create_ai_config_keeps_one_config Samples.chat_ok "c2" 2 "u1"
              Samples.config_without_key Samples.stored_configs
              Samples.ai_state_u1) as (ai_config' & st' & H1 & _ & H3 & _).
  exists ai_config', st'. split; [exact H1|].
  rewrite (H3 "u2" ltac:(done)). reflexivity.
Defined.

(** X18.  How the AI service follows a new configuration.  Without a key
    (absent or empty) the service is not told at all: its configurations
    and its chats are what they were, so a chat built from an earlier key
    stays in use.  With a key the service records the configuration, and
    the user's chat becomes one with that key, the session ["user_" + id]
    and the system message of the configured style if the constructor
    succeeds; if it raises, the chats are left as they were.  The entries
    of other users are never touched. *)
Theorem ai_service_follows_configuration
    (LlmChat_init : string → string → string → result unit)
    (new_id : string) (now : Z) (user_id : string)
    (config_data : AIConfiguration.AIConfigCreate)
    (ai_config : list AIConfiguration.AIConfig) (st : AIConfiguration.AIState) :
  let config := AIConfiguration.new_config new_id now user_id config_data in
  let session := "user_" +:+ user_id in
  let message := AIConfiguration._get_system_message config in
  ∃ ai_config' st',
    AIConfiguration.create_ai_config LlmChat_init new_id now user_id config_data
      ai_config st = Ok (ai_config', st', config)
    ∧ (truthy (AIConfiguration.gemini_api_key config) = false → st' = st)
    ∧ (truthy (AIConfiguration.gemini_api_key config) = true →
       AIConfiguration.user_configs st' !! user_id = Some config)
    ∧ (∀ key, AIConfiguration.gemini_api_key config = Some key → key ≠ "" →
         (LlmChat_init key session message = Ok () →
          AIService.active_chats (AIConfiguration.service st') !! user_id
          = Some {| AIService.api_key := key; AIService.session_id := session;
                    AIService.system_message := message |})
         ∧ (∀ e, LlmChat_init key session message = Raise e →
                 AIConfiguration.service st' = AIConfiguration.service st))
    ∧ (∀ other, other ≠ user_id →
         AIConfiguration.user_configs st' !! other
         = AIConfiguration.user_configs st !! other
         ∧ AIService.active_chats (AIConfiguration.service st') !! other
           = AIService.active_chats (AIConfiguration.service st) !! other).
Proof.
  intros config session message.
  unfold AIConfiguration.create_ai_config. fold config.
  destruct (AIConfiguration.gemini_api_key config) as [key|] eqn:Hkey; simpl.
  2:{ eexists _, st. split_and!; [reflexivity|done|done|intros k [=]|done]. }
  case_bool_decide as Hempty; simpl.
  { eexists _, st. split_and!; [reflexivity|done|done| |done].
    intros k [= <-] Hk. done. }
  unfold AIConfiguration.update_config. rewrite Hkey.
  rewrite bool_decide_eq_false_2 by done. fold session message.
  destruct (LlmChat_init key session message) as [[]|e] eqn:Hinit; simpl.
  - eexists _, _. split_and!; [reflexivity|done| | |]; simpl.
    + intros _. by rewrite lookup_insert_eq.
    + intros k [= <-] _. split; [intros _; by rewrite lookup_insert_eq|].
      intros e He. congruence.
    + intros other Hother. by rewrite !lookup_insert_ne.
  - eexists _, _. split_and!; [reflexivity|done| | |]; simpl.
    + intros _. by rewrite lookup_insert_eq.
    + intros k [= <-] _. split; [intros He; congruence|done].
    + intros other Hother. by rewrite lookup_insert_ne.
Qed.

(** The conditional parts of [ai_service_follows_configuration] on sample
    data: user [u1], whose chat was built from an earlier key, stores a
    configuration without key, and then one with a key. *)
Lemma ai_service_follows_configuration_witness :
  (∃ ai_config' st',
     AIConfiguration.create_ai_config Samples.chat_ok "c2" 2 "u1"
       Samples.config_without_key Samples.stored_configs Samples.ai_state_u1
     = Ok (ai_config', st',
           AIConfiguration.new_config "c2" 2 "u1" Samples.config_without_key)
     ∧ st' = Samples.ai_state_u1)
  ∧ (∃ ai_config' st',
       AIConfiguration.create_ai_config Samples.chat_ok "c3" 3 "u1"
         Samples.config_with_key Samples.stored_configs Samples.ai_state_u1
       = Ok (ai_config', st',
             AIConfiguration.new_config "c3" 3 "u1" Samples.config_with_key)
       ∧ AIService.api_key
         <$> AIService.active_chats (AIConfiguration.service st') !! "u1"
         = Some "key-2").
Proof.
  split.
  - destruct (ai_service_follows_configuration Samples.chat_ok "c2" 2 "u1"
                Samples.config_without_key Samples.stored_configs
                Samples.ai_state_u1) as (ai_config' & st' & H1 & H2 & _).
    exists ai_config', st'. split; [exact H1|]. apply H2. reflexivity.
  - destruct (ai_service_follows_configuration Samples.chat_ok "c3" 3 "u1"
                Samples.config_with_key Samples.stored_configs
                Samples.ai_state_u1) as (ai_config' & st' & H1 & _ & _ & H4 & _).
    exists ai_config', st'. split; [exact H1|].
    destruct (H4 "key-2" eq_refl ltac:(done)) as [Hok _].
    by rewrite (Hok eq_refl).
Defined.

(** ** The other requests to the AI provider *)

(** X19.  [personalize_cv] returns without raising: the provider's answer
    when the call succeeds, and the CV's own [raw_text], unchanged, when
    the user has no chat or the call raises. *)
Theorem personalize_cv_fallbacks
    (send_message : AIService.LlmChat → AIResponses.Request → result string)
    (svc : AIService.AIService) (user_id : string) (cv : CVData) (job : JobPosting) :
  let request :=
    AIResponses.PersonalizeRequest (default "N/A" (personal_info cv !! "name"))
      (experience cv) (skills cv) (company job) (title job) (description job)
      (requirements job) in
  (∃ text, AIResponses.personalize_cv send_message svc user_id cv job = Ok text)
  ∧ (user_id ∉ dom (AIService.active_chats svc) →
     AIResponses.personalize_cv send_message svc user_id cv job = Ok (raw_text cv))
  ∧ (∀ chat e,
       AIService.active_chats svc !! user_id = Some chat →
       send_message chat request = Raise e →
       AIResponses.personalize_cv send_message svc user_id cv job
       = Ok (raw_text cv))
  ∧ (∀ chat response,
       AIService.active_chats svc !! user_id = Some chat →
       send_message chat request = Ok response →
       AIResponses.personalize_cv send_message svc user_id cv job = Ok response).
Proof.
  intros request. unfold AIResponses.personalize_cv. fold request.
  split_and!.
  - case_bool_decide; [by eauto|].
    destruct (AIService.chat_of svc user_id) as [chat|e]; simpl; [|by eauto].
    destruct (send_message chat request); simpl; eauto.
  - intros Hno. by rewrite bool_decide_eq_true_2.
  - intros chat e Hchat Hsend.
    rewrite bool_decide_eq_false_2
      by (intros Hno; apply Hno, elem_of_dom; eauto).
    rewrite (chat_of_lookup _ _ _ Hchat). simpl. by rewrite Hsend.
  - intros chat response Hchat Hsend.
    rewrite bool_decide_eq_false_2
      by (intros Hno; apply Hno, elem_of_dom; eauto).
    rewrite (chat_of_lookup _ _ _ Hchat). simpl. by rewrite Hsend.
Qed.

(** The conditional parts of [personalize_cv_fallbacks] on sample data. *)
Lemma personalize_cv_fallbacks_witness :
  AIResponses.personalize_cv ResponseSamples.failing_provider AIService.__init__
    "u1" Fixtures.cv_ana Fixtures.job_acme = Ok (raw_text Fixtures.cv_ana)
  ∧ AIResponses.personalize_cv ResponseSamples.failing_provider Fixtures.ai_with_u1
      "u1" Fixtures.cv_ana Fixtures.job_acme = Ok (raw_text Fixtures.cv_ana).
Proof.
  split.
  - apply (personalize_cv_fallbacks ResponseSamples.failing_provider
             AIService.__init__ "u1" Fixtures.cv_ana Fixtures.job_acme).
    vm_compute. set_solver.
  - apply (proj1 (proj2 (proj2 (personalize_cv_fallbacks
             ResponseSamples.failing_provider Fixtures.ai_with_u1 "u1"
             Fixtures.cv_ana Fixtures.job_acme))) Fixtures.chat_u1 "timeout");
      reflexivity.
Defined.

Lemma fallback_answers_acc (qs : list string) : ∀ acc : gmap string string,
  dom (foldl (λ responses q, <[q := AIResponses.fallback_answer]> responses) acc qs)
  = dom acc ∪ list_to_set qs
  ∧ ∀ q, q ∈ qs →
         foldl (λ responses q, <[q := AIResponses.fallback_answer]> responses) acc qs
         !! q = Some AIResponses.fallback_answer.
Proof.
  induction qs as [|x qs IH]; intros acc; simpl.
  { split; [set_solver|]. by intros q ?%elem_of_nil. }
  destruct (IH (<[x := AIResponses.fallback_answer]> acc)) as [Hdom Hval].
  split.
  - rewrite Hdom, dom_insert_L. set_solver.
  - intros q Hq.
    destruct (decide (q ∈ qs)) as [Hin|Hout]; [by apply Hval|].
    apply elem_of_cons in Hq as [Heq|Hq]; [subst x|done].
    clear IH Hdom Hval.
    assert (H : ∀ acc' : gmap string string,
              acc' !! q = Some AIResponses.fallback_answer →
              foldl (λ responses q, <[q := AIResponses.fallback_answer]> responses)
                acc' qs !! q = Some AIResponses.fallback_answer).
    { induction qs as [|y qs IHqs]; intros acc' Hacc; simpl; [done|].
      apply not_elem_of_cons in Hout as [Hne Hout].
      apply IHqs; [done|]. by rewrite lookup_insert_ne. }
    apply H. by rewrite lookup_insert_eq.
Qed.

(** An answer read from the provider's text: the default, or a piece of
    one of its lines handed to [strip]. *)
Lemma answer_in_origin {unicode : Text.Unicode}
    (lines : list string) (i : nat) (question : string) :
  AIResponses.answer_in lines i question = AIResponses.missing_answer
  ∨ ∃ line, line ∈ lines
            ∧ AIResponses.answer_in lines i question
              = Text.strip (Strings.after_first ": " line).
Proof.
  unfold AIResponses.answer_in.
  destruct (List.find _ lines) as [line|] eqn:Hfind; [right|by left].
  apply List.find_some in Hfind as [Hin _].
  exists line. split; [by apply list_elem_of_In|done].
Qed.

Lemma collect_answers_acc {unicode : Text.Unicode} (lines qs : list string) :
  ∀ i (acc : gmap string string),
  dom (AIResponses.collect_answers lines i qs acc) = dom acc ∪ list_to_set qs
  ∧ ∀ q a, AIResponses.collect_answers lines i qs acc !! q = Some a →
           acc !! q = Some a
           ∨ a = AIResponses.missing_answer
           ∨ ∃ line, line ∈ lines ∧ a = Text.strip (Strings.after_first ": " line).
Proof.
  induction qs as [|x qs IH]; intros i acc; simpl.
  { split; [set_solver|]. intros q a Hq. by left. }
  destruct (IH (S i) (<[x := AIResponses.answer_in lines i x]> acc)) as [Hdom Hval].
  split.
  - rewrite Hdom, dom_insert_L. set_solver.
  - intros q a Hq. destruct (Hval q a Hq) as [Hacc|Hnew]; [|by right].
    destruct (decide (x = q)) as [->|Hne].
    + rewrite lookup_insert_eq in Hacc. injection Hacc as <-. right.
      destruct (answer_in_origin lines i q) as [->|(line & Hin & ->)]; eauto.
    + rewrite lookup_insert_ne in Hacc by done. by left.
Qed.

(** X20.  [generate_form_responses] returns without raising a dictionary
    whose keys are exactly the questions asked, whatever the provider
    does.  Without a chat, or when the call raises, every answer is the
    fixed sentence; when the provider answers, every answer is either the
    default "Ver información en CV adjunto" or what [strip] returns on the
    text after the first ": " of one line of the answer (the whole line
    when it has none). *)
Theorem form_responses_answer_every_question {unicode : Text.Unicode}
    (send_message : AIService.LlmChat → AIResponses.Request → result string)
    (svc : AIService.AIService) (user_id : string) (cv : CVData)
    (form_questions : list string) :
  let request := AIResponses.FormRequest (raw_text cv) form_questions in
  ∃ responses,
    AIResponses.generate_form_responses send_message svc user_id cv form_questions
    = Ok responses
    ∧ dom responses = list_to_set form_questions
    ∧ (user_id ∉ dom (AIService.active_chats svc)
       ∨ (∃ chat e, AIService.active_chats svc !! user_id = Some chat
                    ∧ send_message chat request = Raise e) →
       ∀ q, q ∈ form_questions →
            responses !! q = Some AIResponses.fallback_answer)
    ∧ (∀ chat response,
         AIService.active_chats svc !! user_id = Some chat →
         send_message chat request = Ok response →
         ∀ q a, responses !! q = Some a →
                a = AIResponses.missing_answer
                ∨ ∃ line, line ∈ Strings.split_on AIResponses.newline response
                          ∧ a = Text.strip (Strings.after_first ": " line)).
Proof.
  intros request. unfold AIResponses.generate_form_responses. fold request.
  destruct (fallback_answers_acc form_questions ∅) as [Hfdom Hfval].
  rewrite dom_empty_L, (left_id_L ∅ (∪)) in Hfdom.
  case_bool_decide as Hno.
  { eexists. split_and!; [reflexivity|exact Hfdom|auto|].
    intros chat response Hchat. exfalso. apply Hno, elem_of_dom. eauto. }
  apply elem_of_dom in Hno as [chat Hchat].
  rewrite (chat_of_lookup _ _ _ Hchat). simpl.
  destruct (send_message chat request) as [response|e] eqn:Hsend; simpl.
  - destruct (collect_answers_acc
                (Strings.split_on AIResponses.newline response) form_questions 0 ∅)
      as [Hdom Hval].
    rewrite dom_empty_L, (left_id_L ∅ (∪)) in Hdom.
    eexists. split_and!; [reflexivity|exact Hdom| |].
    + intros [Habs | (chat' & e & Hchat' & Hraise)].
      * exfalso. apply Habs, elem_of_dom. eauto.
      * congruence.
    + intros chat' response' Hchat' Hsend' q a Hq.
      assert (response' = response) as -> by congruence.
      destruct (Hval q a Hq) as [Hempty|H]; [|exact H].
      by rewrite lookup_empty in Hempty.
  - eexists. split_and!; [reflexivity|exact Hfdom|auto|].
    intros chat' response' Hchat' Hsend'. congruence.
Qed.

Section SampleRuns.
(** The sample data is ASCII text, on which [Text.ascii_text] is what
    Python computes. *)
#[local] Existing Instance Text.ascii_text.

(** The conditional parts of [form_responses_answer_every_question] on
    sample data: a user without chat, and a provider answering two lines. *)
Lemma form_responses_answer_every_question_witness :
  (∃ responses,
     AIResponses.generate_form_responses ResponseSamples.two_line_provider
       AIService.__init__ "u1" Fixtures.cv_ana ResponseSamples.questions
     = Ok responses
     ∧ responses !! "Experiencia" = Some AIResponses.fallback_answer)
  ∧ (∃ responses,
       AIResponses.generate_form_responses ResponseSamples.two_line_provider
         Fixtures.ai_with_u1 "u1" Fixtures.cv_ana ResponseSamples.questions
       = Ok responses
       ∧ responses !! "Nombre completo" = Some "Ana").
Proof.
  split.
  - destruct (form_responses_answer_every_question
                ResponseSamples.two_line_provider AIService.__init__ "u1"
                Fixtures.cv_ana ResponseSamples.questions)
      as (responses & Hr & _ & Hfallback & _).
    exists responses. split; [exact Hr|]. apply Hfallback.
    + left. vm_compute. set_solver.
    + apply list_elem_of_further, list_elem_of_here.
  - destruct (form_responses_answer_every_question
                ResponseSamples.two_line_provider Fixtures.ai_with_u1 "u1"
                Fixtures.cv_ana ResponseSamples.questions)
      as (responses & Hr & _ & _ & _).
    exists responses. split; [exact Hr|].
    vm_compute in Hr. injection Hr as <-. reflexivity.
Defined.
End SampleRuns.

(** ** The parser of the provider's compatibility answer *)

Lemma dom_setdefault key value (parsed : gmap string AIResponses.AnalysisValue) :
  dom (AIResponses.setdefault key value parsed) = {[key]} ∪ dom parsed.
Proof.
  unfold AIResponses.setdefault.
  destruct (parsed !! key) eqn:Hk; [|by rewrite dom_insert_L].
  apply (elem_of_dom_2 parsed) in Hk. set_solver.
Qed.

Lemma setdefault_other key key' value (parsed : gmap string AIResponses.AnalysisValue) :
  key ≠ key' →
  AIResponses.setdefault key value parsed !! key' = parsed !! key'.
Proof.
  intros Hne. unfold AIResponses.setdefault.
  destruct (parsed !! key); [done|]. by rewrite lookup_insert_ne.
Qed.

Section ParserFacts.
Context {unicode : Text.Unicode}.
Variable python_int : string → result Z.

Lemma parse_line_keeps python_int' parsed line parsed' :
  AIResponses.parse_line python_int' parsed line = Ok parsed' →
  dom parsed' ⊆ dom parsed
               ∪ list_to_set ["compatibility_percentage"; "strengths";
                              "weaknesses"; "recommendation"]
  ∧ parsed' !! "matched_keywords" = parsed !! "matched_keywords".
Proof.
  unfold AIResponses.parse_line.
  repeat (destruct (Text.contains _ line));
    destruct (AIResponses.second_field line) as [field|e]; simpl; try done;
    try destruct (python_int' _); simpl; try done;
    intros [= <-]; (split; [try rewrite dom_insert_L; set_solver|]);
    try done; by rewrite lookup_insert_ne.
Qed.

Lemma parse_lines_keeps lines : ∀ parsed parsed',
  AIResponses.parse_lines python_int lines parsed = Ok parsed' →
  dom parsed' ⊆ dom parsed
               ∪ list_to_set ["compatibility_percentage"; "strengths";
                              "weaknesses"; "recommendation"]
  ∧ parsed' !! "matched_keywords" = parsed !! "matched_keywords".
Proof.
  induction lines as [|line lines IH]; intros parsed parsed'; simpl.
  { intros [= <-]. split; [set_solver|done]. }
  destruct (AIResponses.parse_line python_int parsed line) as [p1|e] eqn:H1;
    simpl; [|done].
  intros H2. destruct (parse_line_keeps _ _ _ _ H1) as [Hd1 Hm1].
  destruct (IH _ _ H2) as [Hd2 Hm2]. split; [set_solver|congruence].
Qed.

Lemma parse_lines_no_label lines parsed :
  Forall (λ line, Text.contains "COMPATIBILIDAD:" line = false
                  ∧ Text.contains "FORTALEZAS:" line = false
                  ∧ Text.contains "DEBILIDADES:" line = false
                  ∧ Text.contains "RECOMENDACION:" line = false) lines →
  AIResponses.parse_lines python_int lines parsed = Ok parsed.
Proof.
  induction 1 as [|line lines (H1 & H2 & H3 & H4) _ IH]; simpl; [done|].
  unfold AIResponses.parse_line. rewrite H1, H2, H3, H4. simpl. exact IH.
Qed.

Lemma parse_lines_bad_percentage lines :
  Exists (λ line, Text.contains "COMPATIBILIDAD:" line = true
                  ∧ ∃ field e,
                      AIResponses.second_field line = Ok field
                      ∧ python_int (Strings.remove_char "%" (Text.strip field))
                        = Raise e) lines →
  ∀ parsed, ∃ e, AIResponses.parse_lines python_int lines parsed = Raise e.
Proof.
  induction 1 as [line lines (Hc & field & e & Hf & Hi) | line lines _ IH];
    intros parsed; simpl.
  - unfold AIResponses.parse_line. rewrite Hc, Hf. simpl. rewrite Hi. simpl. eauto.
  - destruct (AIResponses.parse_line python_int parsed line); simpl; eauto.
Qed.
End ParserFacts.

Lemma dom_default_analysis :
  dom AIResponses.default_analysis
  = list_to_set ["compatibility_percentage"; "strengths"; "weaknesses";
                 "recommendation"; "matched_keywords"].
Proof.
  unfold AIResponses.default_analysis.
  rewrite !dom_insert_L, ?dom_singleton_L, ?dom_empty_L. set_solver.
Qed.

(** X21.  [_parse_analysis_response] never raises and always returns a
    dictionary with exactly the five keys of an analysis, in which
    [matched_keywords] is the empty list.  It is the dictionary of
    defaults when no line of the answer holds one of the four labels, and
    also whenever one line holding [COMPATIBILIDAD:] has a second field
    that [int] rejects: what the other lines gave is then discarded. *)
Theorem parse_analysis_response_defaults {unicode : Text.Unicode}
    (python_int : string → result Z)
    (response : string) :
  let lines := Strings.split_on AIResponses.newline response in
  ∃ parsed,
    AIResponses._parse_analysis_response python_int response = Ok parsed
    ∧ dom parsed
      = list_to_set ["compatibility_percentage"; "strengths"; "weaknesses";
                     "recommendation"; "matched_keywords"]
    ∧ parsed !! "matched_keywords" = Some (AIResponses.AList [])
    ∧ (Forall (λ line, Text.contains "COMPATIBILIDAD:" line = false
                       ∧ Text.contains "FORTALEZAS:" line = false
                       ∧ Text.contains "DEBILIDADES:" line = false
                       ∧ Text.contains "RECOMENDACION:" line = false) lines →
       parsed = AIResponses.default_analysis)
    ∧ (Exists (λ line, Text.contains "COMPATIBILIDAD:" line = true
                       ∧ ∃ field e,
                           AIResponses.second_field line = Ok field
                           ∧ python_int
                               (Strings.remove_char "%" (Text.strip field))
                             = Raise e) lines →
       parsed = AIResponses.default_analysis).
Proof.
  intros lines. unfold AIResponses._parse_analysis_response. fold lines.
  destruct (AIResponses.parse_lines python_int lines ∅) as [parsed|e] eqn:Hparse;
    simpl.
  - destruct (parse_lines_keeps python_int lines ∅ parsed Hparse) as [Hdom Hmk].
    rewrite dom_empty_L in Hdom. rewrite lookup_empty in Hmk.
    eexists. split_and!; [reflexivity| | | |].
    + unfold AIResponses.setdefaults. rewrite !dom_setdefault. set_solver.
    + unfold AIResponses.setdefaults, AIResponses.setdefault at 1.
      rewrite !setdefault_other by done. rewrite Hmk.
      by rewrite lookup_insert_eq.
    + intros Hnone. rewrite parse_lines_no_label in Hparse by done.
      injection Hparse as <-. vm_compute. reflexivity.
    + intros Hbad.
      destruct (parse_lines_bad_percentage python_int lines Hbad ∅) as [e He].
      congruence.
  - exists AIResponses.default_analysis.
    split_and!; [reflexivity|apply dom_default_analysis|reflexivity|done|done].
Qed.

Section SampleRuns.
(** The sample data is ASCII text, on which [Text.ascii_text] is what
    Python computes. *)
#[local] Existing Instance Text.ascii_text.

(** The conditional parts of [parse_analysis_response_defaults] on sample
    data: an answer without labels, and an answer whose percentage is a
    word although its strengths are well formed. *)
Lemma parse_analysis_response_defaults_witness :
  AIResponses._parse_analysis_response ResponseSamples.decimal_int
    "El candidato parece adecuado." = Ok AIResponses.default_analysis
  ∧ AIResponses._parse_analysis_response ResponseSamples.decimal_int
      ("FORTALEZAS: ventas, liderazgo" +:+ String "010" ""
         +:+ "COMPATIBILIDAD: alta")
    = Ok AIResponses.default_analysis.
Proof.
  split.
  - destruct (parse_analysis_response_defaults ResponseSamples.decimal_int
                "El candidato parece adecuado.") as (parsed & Hp & _ & _ & Hnone & _).
    rewrite Hp. f_equal. apply Hnone.
    vm_compute. repeat constructor.
  - destruct (parse_analysis_response_defaults ResponseSamples.decimal_int
                ("FORTALEZAS: ventas, liderazgo" +:+ String "010" ""
                   +:+ "COMPATIBILIDAD: alta")) as (parsed & Hp & _ & _ & _ & Hbad).
    rewrite Hp. f_equal. apply Hbad.
    vm_compute. apply Exists_cons_tl, Exists_cons_hd. split; [reflexivity|].
    exists " alta", "ValueError: invalid literal for int()".
    split; vm_compute; reflexivity.
Defined.
End SampleRuns.

(** ** The statistics route *)

(** A group holds the number of documents that have its key; keys that no
    document has form no group. *)
Lemma group_count_lookup {A} (key : A → string) (docs : list A) (k : string) :
  Stats.group_count key docs !! k
  = match length (filter (λ d, key d = k) docs) with
    | 0 => None
    | S n => Some (S n)
    end.
Proof.
  induction docs as [|d docs IH]; [done|].
  change (Stats.group_count key (d :: docs))
    with (<[key d := S (default 0 (Stats.group_count key docs !! key d))]>
            (Stats.group_count key docs)).
  destruct (decide (key d = k)) as [Hk|Hne].
  - rewrite filter_cons_True by done. rewrite Hk, lookup_insert_eq. simpl.
    rewrite IH. by destruct (length _).
  - rewrite lookup_insert_ne, filter_cons_False by done. exact IH.
Qed.

Lemma group_count_sum {A} (key : A → string) (docs : list A) :
  sum_list_with snd (map_to_list (Stats.group_count key docs)) = length docs.
Proof.
  induction docs as [|d docs IH].
  { unfold Stats.group_count. simpl. by rewrite map_to_list_empty. }
  change (Stats.group_count key (d :: docs))
    with (<[key d := S (default 0 (Stats.group_count key docs !! key d))]>
            (Stats.group_count key docs)).
  set (m := Stats.group_count key docs) in *.
  destruct (m !! key d) as [n|] eqn:Hk; simpl.
  - rewrite <- insert_delete_eq.
    rewrite map_to_list_insert by apply lookup_delete_eq.
    rewrite <- (map_to_list_delete m (key d) n Hk) in IH.
    simpl in *. lia.
  - rewrite map_to_list_insert by done. simpl. lia.
Qed.

Lemma group_count_keys {A} (key : A → string) (docs : list A) :
  ∀ k, k ∈ (map_to_list (Stats.group_count key docs)).*1 → k ∈ key <$> docs.
Proof.
  intros k ([k' n] & -> & Hin)%list_elem_of_fmap. simpl.
  apply elem_of_map_to_list in Hin. rewrite group_count_lookup in Hin.
  destruct (length _) eqn:Hlen; [done|].
  destruct (filter (λ d, key d = k') docs) as [|d ds] eqn:Hf; [done|].
  assert (Hd : d ∈ filter (λ d, key d = k') docs) by (rewrite Hf; apply list_elem_of_here).
  apply list_elem_of_filter in Hd as [<- Hd].
  by apply list_elem_of_fmap_2.
Qed.

(** At most six groups of statuses exist, so [to_list(10)] keeps them all. *)
Lemma status_groups_fit (apps : list JobApplication) :
  Stats.aggregate_to_list 10
    (Stats.group_count (λ a, status_value (status a)) apps)
  = map_to_list (Stats.group_count (λ a, status_value (status a)) apps).
Proof.
  unfold Stats.aggregate_to_list. apply take_ge.
  set (m := Stats.group_count _ apps).
  assert (H : (map_to_list m).*1
              ⊆+ status_value <$> [PENDING; APPLIED; VIEWED; REJECTED; INTERVIEW; OFFER]).
  { apply NoDup_submseteq; [apply NoDup_fst_map_to_list|].
    intros k Hk. apply group_count_keys in Hk.
    apply list_elem_of_fmap in Hk as (a & -> & _).
    apply list_elem_of_fmap_2. destruct (status a); set_solver. }
  apply submseteq_length in H. rewrite length_fmap in H. simpl in H. lia.
Qed.

Lemma success_groups_at_most_two (groups : gmap string nat) (n : nat) :
  length (List.filter Stats.is_success (Stats.aggregate_to_list n groups)) ≤ 2.
Proof.
  rewrite List_filter_stdpp.
  set (l := filter _ _).
  assert (Hsub : l `sublist_of` map_to_list groups).
  { unfold l, Stats.aggregate_to_list.
    etrans; [apply sublist_filter|apply sublist_take]. }
  assert (H : l.*1 ⊆+ ["interview"; "offer"]).
  { apply NoDup_submseteq.
    - apply (sublist_NoDup _ ((map_to_list groups).*1));
        [apply NoDup_fst_map_to_list|by apply fmap_sublist].
    - intros k ([k' c] & -> & Hin)%list_elem_of_fmap.
      apply list_elem_of_filter in Hin as [Hs _].
      unfold Stats.is_success in Hs. by apply bool_decide_eq_true in Hs. }
  apply submseteq_length in H. rewrite length_fmap in H. simpl in H. lia.
Qed.

(** X22.  In the statistics of a user the counts per status add up to
    the total number of applications, and the count of each status is the
    number of the user's applications of the period in that status.  The
    numerator of the success rate, however, is the number of status groups
    among "interview" and "offer", not the number of such applications: it
    never exceeds 2, so that three interviews out of three applications
    give [1 / 3 * 100].  Without applications the rate is 0.0. *)
Theorem user_stats_by_status (scraped_at : JobDoc → Z) (now : Z)
    (user_id : string) (days : Z) (db : Store.DB) :
  let stats := Stats.get_user_stats scraped_at now user_id days db in
  let mine :=
    List.filter (Stats.in_period user_id (now - days * Stats.one_day))
      (Store.applications db) in
  Stats.total_applications stats = length mine
  ∧ sum_list_with snd (map_to_list (Stats.applications_by_status stats))
    = Stats.total_applications stats
  ∧ (∀ st, Stats.applications_by_status stats !! status_value st
           = match length (filter (λ a, status a = st) mine) with
             | 0 => None
             | S n => Some (S n)
             end)
  ∧ (Stats.total_applications stats = 0 → Stats.success_rate stats = Stats.RateZero)
  ∧ (Stats.total_applications stats ≠ 0 →
     ∃ k, Stats.success_rate stats
          = Stats.RateOf k (Stats.total_applications stats)
          ∧ k ≤ 2)
  ∧ Stats.success_rate
      (Stats.get_user_stats scraped_at 200 "u1" 30 Stats.db_interviews)
    = Stats.RateOf 1 3.
Proof.
  intros stats mine. unfold stats, Stats.get_user_stats. simpl. fold mine.
  rewrite status_groups_fit, list_to_map_to_list.
  split_and!.
  - done.
  - apply group_count_sum.
  - intros st. rewrite group_count_lookup.
    assert (Hf : filter (λ a, status_value (status a) = status_value st) mine
                 = filter (λ a, status a = st) mine).
    { apply list_filter_iff. intros a. split; [|by intros ->].
      by destruct (status a), st. }
    by rewrite Hf.
  - intros ->. done.
  - intros Hne. rewrite bool_decide_eq_false_2 by done.
    eexists. split; [reflexivity|].
    rewrite <- status_groups_fit. apply success_groups_at_most_two.
  - by vm_compute.
Qed.

(** The conditional parts of [user_stats_by_status] on sample data: a
    user without applications, and the user with three interviews. *)
Lemma user_stats_by_status_witness :
  Stats.success_rate
    (Stats.get_user_stats (λ _, 0%Z) 200 "u9" 30 Stats.db_interviews)
  = Stats.RateZero
  ∧ ∃ k, Stats.success_rate
           (Stats.get_user_stats (λ _, 0%Z) 200 "u1" 30 Stats.db_interviews)
         = Stats.RateOf k
             (Stats.total_applications
                (Stats.get_user_stats (λ _, 0%Z) 200 "u1" 30 Stats.db_interviews))
         ∧ k ≤ 2.
Proof.
  split.
  - apply (user_stats_by_status (λ _, 0%Z) 200 "u9" 30 Stats.db_interviews).
    reflexivity.
  - apply (user_stats_by_status (λ _, 0%Z) 200 "u1" 30 Stats.db_interviews).
    vm_compute. discriminate.
Defined.

(** ** Stored postings that do not validate *)

(** X23.  A stored posting that the [JobPosting] constructor refuses
    cannot be applied to: for an application whose posting and CV are both
    found, the run ends in the [except] branch without asking the provider
    for a letter, and the stored record is rejected with the text of the
    validation error as its notes; [applied_at], the cover letter and
    [portal_data] stay as they were, and no other record changes. *)
Theorem unvalidated_posting_rejects_application
    (send_message : AIService.LlmChat → AIService.Prompt → result string)
    (ai_service : AIService.AIService) (application_id : string) (now : Z)
    (db : Store.DB) (application : JobApplication) (job_doc : JobDoc) (cv : CVData)
    (e : string) :
  Store.find_one (Store.has_id application_id) (Store.applications db)
    = Some application →
  Store.find_one (λ d, bool_decide (jd_id d = app_job_id application)) (Store.jobs db)
    = Some job_doc →
  Store.find_one (λ d, bool_decide (cv_id d = cv_used application)) (Store.cvs db)
    = Some cv →
  JobPosting_of_doc job_doc = Raise e →
  ∃ db' application',
    ApplicationService.process_application send_message ai_service
      application_id now db = Ok db'
    ∧ Store.find_one (Store.has_id application_id) (Store.applications db')
      = Some application'
    ∧ status application' = REJECTED
    ∧ notes application' = Some e
    ∧ last_update application' = now
    ∧ applied_at application' = applied_at application
    ∧ cover_letter application' = cover_letter application
    ∧ portal_data application' = portal_data application
    ∧ Store.cvs db' = Store.cvs db
    ∧ Store.jobs db' = Store.jobs db
    ∧ Forall2 (λ a a', Store.has_id application_id a = false → a' = a)
        (Store.applications db) (Store.applications db').
Proof.
  intros Happ Hjob Hcv Hraise.
  exists (ApplicationService._update_application_status application_id REJECTED
            e now db),
         (ApplicationService.set_status REJECTED e now application).
  split.
  - unfold ApplicationService.process_application, ApplicationService.process_body.
    rewrite Happ, Hjob, Hcv, Hraise. reflexivity.
  - split; [by apply status_update_lookup|].
    split_and!; try reflexivity.
    unfold ApplicationService._update_application_status, Store.with_applications.
    simpl. generalize (Store.applications db). intros coll.
    induction coll as [|a coll IH]; simpl; [constructor|].
    destruct (Store.has_id application_id a) eqn:Ha.
    + constructor; [congruence|]. apply Forall2_same_length_lookup_2; [done|].
      intros i x y Hx Hy _. congruence.
    + constructor; [done|exact IH].
Qed.

(** [unvalidated_posting_rejects_application] on sample data: the
    application [a1] refers to a posting stored under the portal
    "indeed". *)
Lemma unvalidated_posting_rejects_application_witness :
  ∃ db' application',
    ApplicationService.process_application Fixtures.failing_provider
      AIService.__init__ "a1" 200 PostingSamples.db_indeed = Ok db'
    ∧ Store.find_one (Store.has_id "a1") (Store.applications db') = Some application'
    ∧ status application' = REJECTED
    ∧ notes application' = Some PostingSamples.sample_error
    ∧ applied_at application' = None.
Proof.
  destruct (unvalidated_posting_rejects_application Fixtures.failing_provider
              AIService.__init__ "a1" 200 PostingSamples.db_indeed
              (Fixtures.pending_app "a1" "u1" "j9" "cv-a") PostingSamples.doc_indeed
              Fixtures.cv_ana PostingSamples.sample_error
              ltac:(reflexivity) ltac:(reflexivity) ltac:(reflexivity)
              ltac:(reflexivity))
    as (db' & application' & Hrun & Hfind & Hst & Hnotes & _ & Hat & _).
  exists db', application'. split_and!; done.
Defined.

(** ** Portals are scheduled independently of each other *)

Lemma filter_other_portal_nil {unicode : Text.Unicode} (X : JobPortal) filters page :
  filter (λ j, portal j ≠ X) (ScraperService.scrape_portal X filters page) = [].
Proof.
  apply filter_none_match.
  eapply Forall_impl; [apply scrape_portal_Forall_portal|]. simpl.
  intros j Hj Hne. done.
Qed.

Lemma visit_portals_independent {unicode : Text.Unicode}
    (X : JobPortal) web1 web2 filters todo :
  ∀ i s1 s2,
  (∀ k q, todo !! k = Some q → q ≠ X → web1 (i + k) = web2 (i + k)) →
  (∀ p, p ≠ X → ScraperService.current_counts s1 p
                = ScraperService.current_counts s2 p) →
  (∀ p, p ≠ X →
        ScraperService.current_counts
          (ScraperService.visit_portals web1 filters i todo s1).1 p
        = ScraperService.current_counts
            (ScraperService.visit_portals web2 filters i todo s2).1 p)
  ∧ filter (λ j, portal j ≠ X)
      (ScraperService.all_jobs (ScraperService.visit_portals web1 filters i todo s1).2)
    = filter (λ j, portal j ≠ X)
        (ScraperService.all_jobs (ScraperService.visit_portals web2 filters i todo s2).2).
Proof.
  induction todo as [|q todo IH]; intros i s1 s2 Hweb Hcounts; simpl; [done|].
  assert (Hweb' : ∀ k q', todo !! k = Some q' → q' ≠ X →
                          web1 (S i + k) = web2 (S i + k)).
  { intros k q' Hk Hq'. specialize (Hweb (S k) q' Hk Hq').
    by replace (i + S k) with (S i + k) in Hweb by lia. }
  rewrite !dispatch_is_scrape_portal.
  destruct (decide (q = X)) as [->|Hq].
  - (* the portal [X] itself: whatever each side does stays within [X] *)
    set (n1 := length (ScraperService.scrape_portal X filters (web1 i))).
    set (n2 := length (ScraperService.scrape_portal X filters (web2 i))).
    assert (Hadd : ∀ (t1 t2 : ScraperService.ScraperService) (a b : bool),
              (∀ p, p ≠ X → ScraperService.current_counts t1 p
                            = ScraperService.current_counts t2 p) →
              (∀ p, p ≠ X →
                    ScraperService.current_counts
                      (if a then t1 else ScraperService.add_count X n1 t1) p
                    = ScraperService.current_counts
                        (if b then t2 else ScraperService.add_count X n2 t2) p)).
    { intros t1 t2 a b Ht p Hp. destruct a, b; simpl;
        rewrite ?bool_decide_eq_false_2 by done; by apply Ht. }
    destruct (ScraperService.limit_reached s1 X) eqn:H1,
             (ScraperService.limit_reached s2 X) eqn:H2.
    + destruct (IH (S i) s1 s2 Hweb' Hcounts) as [Hc Hj].
      destruct (ScraperService.visit_portals web1 filters (S i) todo s1),
               (ScraperService.visit_portals web2 filters (S i) todo s2).
      done.
    + destruct (IH (S i) s1 (ScraperService.add_count X n2 s2) Hweb'
                  (Hadd s1 s2 true false Hcounts)) as [Hc Hj].
      destruct (ScraperService.visit_portals web1 filters (S i) todo s1),
               (ScraperService.visit_portals web2 filters (S i) todo _).
      simpl in *. split; [done|].
      by rewrite filter_app, filter_other_portal_nil.
    + destruct (IH (S i) (ScraperService.add_count X n1 s1) s2 Hweb'
                  (Hadd s1 s2 false true Hcounts)) as [Hc Hj].
      destruct (ScraperService.visit_portals web1 filters (S i) todo _),
               (ScraperService.visit_portals web2 filters (S i) todo s2).
      simpl in *. split; [done|].
      by rewrite filter_app, filter_other_portal_nil.
    + destruct (IH (S i) (ScraperService.add_count X n1 s1)
                  (ScraperService.add_count X n2 s2) Hweb'
                  (Hadd s1 s2 false false Hcounts)) as [Hc Hj].
      destruct (ScraperService.visit_portals web1 filters (S i) todo _),
               (ScraperService.visit_portals web2 filters (S i) todo _).
      simpl in *. split; [done|].
      by rewrite !filter_app, !filter_other_portal_nil.
  - (* another portal: both sides take the same step *)
    assert (Hsame : web1 i = web2 i).
    { specialize (Hweb 0 q eq_refl Hq). by rewrite Nat.add_0_r in Hweb. }
    assert (Hlim : ScraperService.limit_reached s1 q
                   = ScraperService.limit_reached s2 q).
    { unfold ScraperService.limit_reached. by rewrite (Hcounts q Hq). }
    rewrite Hlim, Hsame.
    destruct (ScraperService.limit_reached s2 q).
    + destruct (IH (S i) s1 s2 Hweb' Hcounts) as [Hc Hj].
      destruct (ScraperService.visit_portals web1 filters (S i) todo s1),
               (ScraperService.visit_portals web2 filters (S i) todo s2).
      done.
    + set (n := length (ScraperService.scrape_portal q filters (web2 i))).
      assert (Hcounts' : ∀ p, p ≠ X →
                ScraperService.current_counts (ScraperService.add_count q n s1) p
                = ScraperService.current_counts (ScraperService.add_count q n s2) p).
      { intros p Hp. simpl. rewrite (Hcounts p Hp). done. }
      destruct (IH (S i) _ _ Hweb' Hcounts') as [Hc Hj].
      destruct (ScraperService.visit_portals web1 filters (S i) todo _),
               (ScraperService.visit_portals web2 filters (S i) todo _).
      simpl in *. split; [done|]. by rewrite !filter_app, Hj.
Qed.

(** X26.  What one portal answers never changes what a pass returns for,
    or records about, another portal: two passes from the same state whose
    pages agree at every position of the portal list except those of a
    portal [X] return the same postings of the other portals, in the same
    order, and leave the same counts for them. *)
Theorem portals_do_not_interfere {unicode : Text.Unicode} (X : JobPortal) (today : Z)
    (web1 web2 : nat → ScraperService.Page) (filters : SearchFilters)
    (s : ScraperService.ScraperService) :
  (∀ k q, portals filters !! k = Some q → q ≠ X → web1 k = web2 k) →
  (∀ p, p ≠ X →
        ScraperService.current_counts
          (ScraperService.search_jobs today web1 filters s).1 p
        = ScraperService.current_counts
            (ScraperService.search_jobs today web2 filters s).1 p)
  ∧ filter (λ j, portal j ≠ X)
      (ScraperService.all_jobs (ScraperService.search_jobs today web1 filters s).2)
    = filter (λ j, portal j ≠ X)
        (ScraperService.all_jobs (ScraperService.search_jobs today web2 filters s).2).
Proof.
  intros Hweb. unfold ScraperService.search_jobs.
  apply visit_portals_independent; [|done].
  intros k q Hk Hq. simpl. by apply (Hweb k q).
Qed.

Section SampleRuns.
(** The sample data is ASCII text, on which [Text.ascii_text] is what
    Python computes. *)
#[local] Existing Instance Text.ascii_text.

(** [portals_do_not_interfere] on sample data: whether LinkedIn answers
    or fails, the same 25 BNE postings are returned. *)
Lemma portals_do_not_interfere_witness :
  filter (λ j, portal j ≠ LINKEDIN)
    (ScraperService.all_jobs
       (ScraperService.search_jobs 5 PostingSamples.web_full
          Fixtures.filters_linkedin (ScraperService.__init__ 5)).2)
  = filter (λ j, portal j ≠ LINKEDIN)
      (ScraperService.all_jobs
         (ScraperService.search_jobs 5 PostingSamples.web_linkedin_down
            Fixtures.filters_linkedin (ScraperService.__init__ 5)).2).
Proof.
  apply (portals_do_not_interfere LINKEDIN 5 PostingSamples.web_full
           PostingSamples.web_linkedin_down Fixtures.filters_linkedin
           (ScraperService.__init__ 5)).
  intros [|[|k]] q Hk Hq; simpl in Hk.
  - injection Hk as <-. done.
  - reflexivity.
  - done.
Defined.
End SampleRuns.
